(** * AccessAid: the application state store and the screens that drive it

    A shallow embedding of the logic layer of the AccessAid client:
    - [Types]     the records of [src/types/index.ts];
    - [Store]     [AppState], [AppAction], [initialState] and [appReducer]
                  of the application context;
    - [Effects]   the world the asynchronous handlers run in (local storage
                  and a trace of what they hand to their collaborators) and
                  a small state-and-exception monad for them;
    - [Voice]     the clamped speech rate and the helper [speakText];
    - [Provider]  the start-up and user-change effects of [AppProvider];
    - [Text]      the string functions the screens use;
    - [Regex]     the two regular expressions of the login form;
    - [Login]     [handleLogin] and [handleSignUp];
    - [Setup]     the welcome of the accessibility set-up screen;
    - [Home]      speech and camera reading on the home screen;
    - [Scenario]  concrete users, stores and collaborators;
    - [Saving]    the saving effect of [AppProvider] and the requests of
                  its first render;
    - [Session]   invariants of the store;
    - [Language]  the strings a regular expression denotes;
    - [Outcome]   handlers that return;
    - [Profile]   the handlers of the profile screen;
    - [Observations], [Cases]  what a trace shows, and more cases.
    The properties follow the definitions, grouped by component.

    Conventions.  A JavaScript number is a rational ([Q]); the constants are
    written as in the source ([0.5], [2.0], [1.0]).  A [Date] is its number
    of milliseconds since the epoch.  A string is a [string] of 8-bit
    characters, each a UTF-16 code unit below 256, and the case and
    white-space functions are those of JavaScript on these code units. *)

From Stdlib Require Import ZArith QArith Qminmax String Ascii List Bool Lia.
From stdpp Require Import gmap strings list.

Local Open Scope string_scope.

(* ===================================================================== *)
(** ** The data model *)
(* ===================================================================== *)

Module Types.

(** [interface User]: four mandatory strings, the rest optional. *)
Record User := {
  id : string;
  email : string;
  pin : string;
  name : string;
  joinDate : option string;
  bio : option string;
  weight : option string;
  height : option string;
  bloodGroup : option string;
  allergies : option string;
  interests : option string;
  profilePhoto : option string
}.

(** [Partial<User>]: a field is [None] when the key is absent. *)
Record PartialUser := {
  p_id : option string;
  p_email : option string;
  p_pin : option string;
  p_name : option string;
  p_joinDate : option string;
  p_bio : option string;
  p_weight : option string;
  p_height : option string;
  p_bloodGroup : option string;
  p_allergies : option string;
  p_interests : option string;
  p_profilePhoto : option string
}.

Record AccessibilitySettings := {
  brightness : Q;
  textZoom : Q;
  voiceSpeed : Q;
  isDarkMode : bool
}.

Record PartialSettings := {
  p_brightness : option Q;
  p_textZoom : option Q;
  p_voiceSpeed : option Q;
  p_isDarkMode : option bool
}.

Inductive ReminderCategory :=
  medication | doctor | therapy | exercise | personal | emergency.
(** The priority ['emergency'] shares its name with a category. *)
Inductive ReminderPriority := low | medium | high | emergency_priority.
Inductive ReminderRecurrence := once | daily | weekly | monthly.

Record Reminder := {
  r_id : string;
  title : string;
  description : option string;
  date : Z;
  time : Z;
  isCompleted : bool;
  isActive : bool;
  createdAt : Z;
  updatedAt : Z;
  category : option ReminderCategory;
  priority : option ReminderPriority;
  recurrence : option ReminderRecurrence
}.

(** The object spread [{ ...a, key: v }] on one optional key. *)
Definition spread {A} (new : option A) (old : A) : A :=
  match new with Some v => v | None => old end.

Definition spread_opt {A} (new old : option A) : option A :=
  match new with Some v => Some v | None => old end.

(** [{ ...u, ...p }] for a user [u] and a partial user [p]. *)
Definition merge_user (u : User) (p : PartialUser) : User :=
  {| id := spread (p_id p) (id u);
     email := spread (p_email p) (email u);
     pin := spread (p_pin p) (pin u);
     name := spread (p_name p) (name u);
     joinDate := spread_opt (p_joinDate p) (joinDate u);
     bio := spread_opt (p_bio p) (bio u);
     weight := spread_opt (p_weight p) (weight u);
     height := spread_opt (p_height p) (height u);
     bloodGroup := spread_opt (p_bloodGroup p) (bloodGroup u);
     allergies := spread_opt (p_allergies p) (allergies u);
     interests := spread_opt (p_interests p) (interests u);
     profilePhoto := spread_opt (p_profilePhoto p) (profilePhoto u) |}.

Definition merge_settings (a : AccessibilitySettings) (p : PartialSettings)
  : AccessibilitySettings :=
  {| brightness := spread (p_brightness p) (brightness a);
     textZoom := spread (p_textZoom p) (textZoom a);
     voiceSpeed := spread (p_voiceSpeed p) (voiceSpeed a);
     isDarkMode := spread (p_isDarkMode p) (isDarkMode a) |}.

(** [{ ...found, joinDate: now }]. *)
Definition with_joinDate (u : User) (now : string) : User :=
  {| id := id u; email := email u; pin := pin u; name := name u;
     joinDate := Some now;
     bio := bio u; weight := weight u; height := height u;
     bloodGroup := bloodGroup u; allergies := allergies u;
     interests := interests u; profilePhoto := profilePhoto u |}.

(** [{ ...reminder, isCompleted: !reminder.isCompleted }]. *)
Definition flip_completed (r : Reminder) : Reminder :=
  {| r_id := r_id r; title := title r; description := description r;
     date := date r; time := time r;
     isCompleted := negb (isCompleted r);
     isActive := isActive r;
     createdAt := createdAt r; updatedAt := updatedAt r;
     category := category r; priority := priority r;
     recurrence := recurrence r |}.

End Types.

(* ===================================================================== *)
(** ** The state store *)
(* ===================================================================== *)

Module Store.
Import Types.

Record AppState := {
  user : option User;
  isLoggedIn : bool;
  hasCompletedSetup : bool;
  accessibilitySettings : AccessibilitySettings;
  isVoiceEnabled : bool;
  voiceAnnouncementsEnabled : bool;
  reminders : list Reminder
}.

(** [Partial<AppState>], the payload of [LOAD_DATA].  [user] may be
    present and [null], hence the nested option. *)
Record PartialAppState := {
  l_user : option (option User);
  l_isLoggedIn : option bool;
  l_hasCompletedSetup : option bool;
  l_accessibilitySettings : option AccessibilitySettings;
  l_isVoiceEnabled : option bool;
  l_voiceAnnouncementsEnabled : option bool;
  l_reminders : option (list Reminder)
}.

Inductive AppAction :=
| LOGIN (payload : User)
| UPDATE_USER (payload : PartialUser)
| LOGOUT
| COMPLETE_SETUP
| UPDATE_ACCESSIBILITY_SETTINGS (payload : PartialSettings)
| TOGGLE_VOICE (payload : bool)
| TOGGLE_VOICE_ANNOUNCEMENTS (payload : bool)
| ADD_REMINDER (payload : Reminder)
| UPDATE_REMINDER (payload : Reminder)
| DELETE_REMINDER (payload : string)
| TOGGLE_REMINDER (payload : string)
| LOAD_DATA (payload : PartialAppState)
| SET_REMINDERS (payload : list Reminder).

Definition initialState : AppState :=
  {| user := None;
     isLoggedIn := false;
     hasCompletedSetup := false;
     accessibilitySettings :=
       {| brightness := 50; textZoom := 100; voiceSpeed := 1.0;
          isDarkMode := false |};
     isVoiceEnabled := false;
     voiceAnnouncementsEnabled := true;
     reminders := [] |}.

(** [{ ...state, reminders: l }], the spread the reminder cases share. *)
Definition set_reminders (state : AppState) (l : list Reminder) : AppState :=
  {| user := user state;
     isLoggedIn := isLoggedIn state;
     hasCompletedSetup := hasCompletedSetup state;
     accessibilitySettings := accessibilitySettings state;
     isVoiceEnabled := isVoiceEnabled state;
     voiceAnnouncementsEnabled := voiceAnnouncementsEnabled state;
     reminders := l |}.

Definition appReducer (state : AppState) (action : AppAction) : AppState :=
  match action with
  | LOGIN payload =>
      {| user := Some payload;
         isLoggedIn := true;
         hasCompletedSetup := hasCompletedSetup state;
         accessibilitySettings := accessibilitySettings state;
         isVoiceEnabled := isVoiceEnabled state;
         voiceAnnouncementsEnabled := voiceAnnouncementsEnabled state;
         reminders := reminders state |}
  | UPDATE_USER payload =>
      {| user := match user state with
                 | Some u => Some (merge_user u payload)
                 | None => user state
                 end;
         isLoggedIn := isLoggedIn state;
         hasCompletedSetup := hasCompletedSetup state;
         accessibilitySettings := accessibilitySettings state;
         isVoiceEnabled := isVoiceEnabled state;
         voiceAnnouncementsEnabled := voiceAnnouncementsEnabled state;
         reminders := reminders state |}
  | LOGOUT => initialState
  | COMPLETE_SETUP =>
      {| user := user state;
         isLoggedIn := isLoggedIn state;
         hasCompletedSetup := true;
         accessibilitySettings := accessibilitySettings state;
         isVoiceEnabled := isVoiceEnabled state;
         voiceAnnouncementsEnabled := voiceAnnouncementsEnabled state;
         reminders := reminders state |}
  | UPDATE_ACCESSIBILITY_SETTINGS payload =>
      {| user := user state;
         isLoggedIn := isLoggedIn state;
         hasCompletedSetup := hasCompletedSetup state;
         accessibilitySettings :=
           merge_settings (accessibilitySettings state) payload;
         isVoiceEnabled := isVoiceEnabled state;
         voiceAnnouncementsEnabled := voiceAnnouncementsEnabled state;
         reminders := reminders state |}
  | TOGGLE_VOICE payload =>
      {| user := user state;
         isLoggedIn := isLoggedIn state;
         hasCompletedSetup := hasCompletedSetup state;
         accessibilitySettings := accessibilitySettings state;
         isVoiceEnabled := payload;
         voiceAnnouncementsEnabled := voiceAnnouncementsEnabled state;
         reminders := reminders state |}
  | TOGGLE_VOICE_ANNOUNCEMENTS payload =>
      {| user := user state;
         isLoggedIn := isLoggedIn state;
         hasCompletedSetup := hasCompletedSetup state;
         accessibilitySettings := accessibilitySettings state;
         isVoiceEnabled := isVoiceEnabled state;
         voiceAnnouncementsEnabled := payload;
         reminders := reminders state |}
  | ADD_REMINDER payload =>
      set_reminders state (reminders state ++ [payload])
  | UPDATE_REMINDER payload =>
      set_reminders state
        (List.map (fun reminder =>
                     if String.eqb (r_id reminder) (r_id payload)
                     then payload else reminder)
                  (reminders state))
  | DELETE_REMINDER payload =>
      set_reminders state
        (List.filter (fun reminder =>
                        negb (String.eqb (r_id reminder) payload))
                     (reminders state))
  | TOGGLE_REMINDER payload =>
      set_reminders state
        (List.map (fun reminder =>
                     if String.eqb (r_id reminder) payload
                     then flip_completed reminder else reminder)
                  (reminders state))
  | LOAD_DATA payload =>
      {| user := spread (l_user payload) (user state);
         isLoggedIn := spread (l_isLoggedIn payload) (isLoggedIn state);
         hasCompletedSetup :=
           spread (l_hasCompletedSetup payload) (hasCompletedSetup state);
         accessibilitySettings :=
           spread (l_accessibilitySettings payload)
                  (accessibilitySettings state);
         isVoiceEnabled :=
           spread (l_isVoiceEnabled payload) (isVoiceEnabled state);
         voiceAnnouncementsEnabled :=
           spread (l_voiceAnnouncementsEnabled payload)
                  (voiceAnnouncementsEnabled state);
         reminders := spread (l_reminders payload) (reminders state) |}
  | SET_REMINDERS payload => set_reminders state payload
  end.

(** [useReducer]: the state after a sequence of dispatches. *)
Definition dispatchAll (state : AppState) (actions : list AppAction)
  : AppState :=
  fold_left appReducer actions state.

End Store.

(* ===================================================================== *)
(** ** The world of the asynchronous handlers *)
(* ===================================================================== *)

Module Effects.
Import Types Store.

(** What a key of the local store holds is a text.  [JSON.parse] either
    throws on it ([Malformed]) or returns the value it encodes ([Json]);
    [JSON.stringify] followed by [JSON.parse] is the identity on the
    values stored here.  An absent key reads as [null], and so does, for
    the tests [if (data)] of the source, the empty text. *)
Inductive Stored (A : Type) :=
| Malformed
| Json (a : A).
Arguments Malformed {A}.
Arguments Json {A} a.

(** [AsyncStorage], one field per key; the keys [reminders_<userId>] are
    a finite map from the user id. *)
Record AsyncStorage := {
  item_user : option (Stored User);
  item_users : option (Stored (list User));
  item_accessibilitySettings : option (Stored PartialSettings);
  item_hasCompletedSetup : option (Stored bool);
  item_reminders : gmap string (Stored (list Reminder))
}.

(** The options object of [Speech.speak]. *)
Record SpeechOptions := {
  language : option string;
  rate : option Q;
  pitch : option Q;
  quality : option string
}.

(** What a handler hands to its collaborators, in the order it does. *)
Inductive Event :=
| Dispatch (action : AppAction)
| Alert (title message : string)
| SpeechStop
| SpeechSpeak (text : string) (options : SpeechOptions)
| Haptic
| ConsoleError (label : string)
| SetIsLoading (b : bool)
| SetIsProcessing (b : bool)
| SetAiReaderText (text : string)
| OcrRequest (dataPrefix base64 filetype : string).

Record World := {
  storage : AsyncStorage;
  trace : list Event
}.

Inductive exn := Error (message : string).

Definition message_of (e : exn) : string :=
  match e with Error m => m end.

(** A handler: it changes the world and returns or throws.  What it did
    before throwing stays done. *)
Definition M (A : Type) : Type := World -> World * (exn + A).

Definition ret {A} (a : A) : M A := fun w => (w, inr a).

Definition bind {A B} (c : M A) (k : A -> M B) : M B :=
  fun w =>
    match c w with
    | (w', inr a) => k a w'
    | (w', inl e) => (w', inl e)
    end.

Definition throw {A} (e : exn) : M A := fun w => (w, inl e).

(** [try { c } catch (error) { h error }] *)
Definition try_catch {A} (c : M A) (h : exn -> M A) : M A :=
  fun w =>
    match c w with
    | (w', inl e) => h e w'
    | r => r
    end.

(** [try { c } finally { f }] *)
Definition try_finally {A} (c : M A) (f : M unit) : M A :=
  fun w =>
    match c w with
    | (w', r) =>
        match f w' with
        | (w'', inl e) => (w'', inl e)
        | (w'', inr _) => (w'', r)
        end
    end.

Declare Scope js_scope.
Delimit Scope js_scope with js.
Notation "x <- c ;; k" := (bind c (fun x => k))
  (at level 100, c at next level, right associativity) : js_scope.
Notation "c ;; k" := (bind c (fun _ => k))
  (at level 100, right associativity) : js_scope.
Local Open Scope js_scope.

Definition emit (e : Event) : M unit :=
  fun w => ({| storage := storage w; trace := trace w ++ [e] |}, inr tt).

Definition dispatch (a : AppAction) : M unit := emit (Dispatch a).
Definition alert (t m : string) : M unit := emit (Alert t m).
Definition console_error (l : string) : M unit := emit (ConsoleError l).
Definition haptic : M unit := emit Haptic.

Definition getItem {A} (key : AsyncStorage -> option A) : M (option A) :=
  fun w => (w, inr (key (storage w))).

Definition setStorage (f : AsyncStorage -> AsyncStorage) : M unit :=
  fun w => ({| storage := f (storage w); trace := trace w |}, inr tt).

Definition setItem_user (u : User) : M unit :=
  setStorage (fun s =>
    {| item_user := Some (Json u);
       item_users := item_users s;
       item_accessibilitySettings := item_accessibilitySettings s;
       item_hasCompletedSetup := item_hasCompletedSetup s;
       item_reminders := item_reminders s |}).

Definition setItem_users (l : list User) : M unit :=
  setStorage (fun s =>
    {| item_user := item_user s;
       item_users := Some (Json l);
       item_accessibilitySettings := item_accessibilitySettings s;
       item_hasCompletedSetup := item_hasCompletedSetup s;
       item_reminders := item_reminders s |}).

Definition JSON_parse {A} (raw : Stored A) : M A :=
  match raw with
  | Json a => ret a
  | Malformed => throw (Error "SyntaxError: JSON Parse error")
  end.

(** The truth value of an optional string: [undefined] and [''] are
    false. *)
Definition truthy (o : option string) : bool :=
  match o with
  | Some s => negb (String.eqb s "")
  | None => false
  end.

(** The actions a trace handed to [dispatch], oldest first. *)
Definition dispatched (t : list Event) : list AppAction :=
  flat_map (fun e => match e with Dispatch a => [a] | _ => [] end) t.

Definition spoken (t : list Event) : list (string * SpeechOptions) :=
  flat_map (fun e => match e with SpeechSpeak x o => [(x, o)] | _ => [] end) t.

Definition alerts (t : list Event) : list (string * string) :=
  flat_map (fun e => match e with Alert x m => [(x, m)] | _ => [] end) t.

(** The base64 texts posted to the OCR service. *)
Definition ocr_payloads (t : list Event) : list string :=
  flat_map (fun e => match e with OcrRequest _ b _ => [b] | _ => [] end) t.

(** A specification of a handler: from a world in [I] it ends in a world
    in [I], and a value it returns is in [R].  Nothing is asked of the
    exception it may throw instead. *)
Definition hoare {A} (I : World -> Prop) (c : M A) (R : A -> Prop)
  : Prop :=
  forall w, I w ->
    I (fst (c w)) /\ match snd (c w) with
                     | inr a => R a
                     | inl _ => True
                     end.

(** Every event of the trace is in [P]. *)
Definition always (P : Event -> Prop) (w : World) : Prop :=
  Forall P (trace w).

(** A handler started in a world with an empty trace. *)
Definition fresh (st : AsyncStorage) : World :=
  {| storage := st; trace := [] |}.

End Effects.

(* ===================================================================== *)
(** ** Every call of [Speech.speak] *)
(* ===================================================================== *)

Module Voice.
Import Types Store Effects.
Local Open Scope js_scope.

(** [Math.max(0.5, Math.min(state.accessibilitySettings.voiceSpeed, 2.0))] *)
Definition safeRate (state : AppState) : Q :=
  Qmax 0.5 (Qmin (voiceSpeed (accessibilitySettings state)) 2.0).

(** [Speech.stop] and [Speech.speak] are taken not to throw, so the
    [try { } catch {}] around them in the source is transparent. *)
Definition Speech_stop : M unit := emit SpeechStop.
Definition Speech_speak (text : string) (options : SpeechOptions) : M unit :=
  emit (SpeechSpeak text options).

(** The helper [speakText] of the login and of the profile screen. *)
Definition speakText (state : AppState) (text : string) : M unit :=
  if negb (voiceAnnouncementsEnabled state) then ret tt
  else
    Speech_stop ;;
    Speech_speak text
      {| language := None; rate := Some (safeRate state);
         pitch := Some 1.0%Q; quality := None |}.



End Voice.

(* ===================================================================== *)
(** ** The effects of [AppProvider] *)
(* ===================================================================== *)

Module Provider.
Import Types Store Effects.
Local Open Scope js_scope.

(** [new Date(iso)] on the ISO text [JSON.stringify] wrote for a date:
    the same instant, to the millisecond. *)
Definition new_Date (t : Z) : Z := t.

(** [{ ...reminder, date: new Date(reminder.date), ... }] *)
Definition revive (reminder : Reminder) : Reminder :=
  {| r_id := r_id reminder; title := title reminder;
     description := description reminder;
     date := new_Date (date reminder);
     time := new_Date (time reminder);
     isCompleted := isCompleted reminder;
     isActive := isActive reminder;
     createdAt := new_Date (createdAt reminder);
     updatedAt := new_Date (updatedAt reminder);
     category := category reminder; priority := priority reminder;
     recurrence := recurrence reminder |}.

(** [{ hasCompletedSetup: b }] as a [Partial<AppState>]. *)
Definition only_hasCompletedSetup (b : bool) : PartialAppState :=
  {| l_user := None; l_isLoggedIn := None;
     l_hasCompletedSetup := Some b;
     l_accessibilitySettings := None; l_isVoiceEnabled := None;
     l_voiceAnnouncementsEnabled := None; l_reminders := None |}.

(** The first effect: [loadData], run once at start.  [now] is
    [new Date().toISOString()]. *)
Definition loadData (now : string) : M unit :=
  try_catch
    (userData <- getItem item_user ;;
     settingsData <- getItem item_accessibilitySettings ;;
     setupData <- getItem item_hasCompletedSetup ;;
     match userData with
     | Some raw =>
         parsedUser <- JSON_parse raw ;;
         let userWithJoinDate :=
           if truthy (joinDate parsedUser) then parsedUser
           else with_joinDate parsedUser now in
         dispatch (LOGIN userWithJoinDate) ;;
         if negb (truthy (joinDate parsedUser))
         then setItem_user userWithJoinDate
         else ret tt
     | None => ret tt
     end ;;
     match settingsData with
     | Some raw =>
         payload <- JSON_parse raw ;;
         dispatch (UPDATE_ACCESSIBILITY_SETTINGS payload)
     | None => ret tt
     end ;;
     match setupData with
     | Some raw =>
         b <- JSON_parse raw ;;
         dispatch (LOAD_DATA (only_hasCompletedSetup b))
     | None => ret tt
     end)
    (fun error => console_error "Error loading data:").

(** The second effect: [loadUserReminders], run whenever [state.user]
    changes, on the state of that render. *)
Definition loadUserReminders (state : AppState) : M unit :=
  try_catch
    (match user state with
     | None => dispatch (SET_REMINDERS [])
     | Some u =>
         remindersData <-
           getItem (fun s => item_reminders s !! id u) ;;
         match remindersData with
         | Some raw =>
             l <- JSON_parse raw ;;
             dispatch (SET_REMINDERS (List.map revive l))
         | None => dispatch (SET_REMINDERS [])
         end
     end)
    (fun error => console_error "Error loading user reminders:").

(** The state once the actions a handler dispatched are reduced. *)
Definition settle (state : AppState) (w : World) : AppState :=
  dispatchAll state (dispatched (trace w)).

(** The reminder list storage holds for a user: the value under
    [reminders_<id>], the empty list when there is none or no user. *)
Definition persisted_reminders (st : AsyncStorage) (u : option User)
  : list Reminder :=
  match u with
  | None => []
  | Some u =>
      match item_reminders st !! id u with
      | Some (Json l) => l
      | _ => []
      end
  end.

(** The state after the effect triggered by a change of user has run
    and the action it dispatched is reduced. *)
Definition reload (st : AsyncStorage) (state : AppState) : AppState :=
  settle state (fst (loadUserReminders state (fresh st))).

(** [LOGIN u], then the effect it triggers. *)
Definition login_and_reload (st : AsyncStorage) (state : AppState)
    (u : User) : AppState :=
  reload st (appReducer state (LOGIN u)).

(** Every reminder the state shows is one storage holds for the
    current user; with no user there is none. *)
Definition scoped_to_user (st : AsyncStorage) (state : AppState) : Prop :=
  forall r, In r (reminders state) ->
            In r (persisted_reminders st (user state)).

(** The actions of one stored slice followed by those of the slices
    after it: none at all when the slice does not parse. *)
Definition slice {A} (item : option (Stored A)) (action : A -> AppAction)
    (rest : list AppAction) : list AppAction :=
  match item with
  | None => rest
  | Some (Json a) => action a :: rest
  | Some Malformed => []
  end.

(** What start-up dispatches: the slices in the order user, settings,
    set-up flag, up to the first one that does not parse. *)
Definition rehydrated (now : string) (st : AsyncStorage)
  : list AppAction :=
  slice (item_user st)
    (fun u => LOGIN (if truthy (joinDate u) then u
                     else with_joinDate u now))
    (slice (item_accessibilitySettings st) UPDATE_ACCESSIBILITY_SETTINGS
       (slice (item_hasCompletedSetup st)
          (fun b => LOAD_DATA (only_hasCompletedSetup b)) [])).


End Provider.

(* ===================================================================== *)
(** ** Strings *)
(* ===================================================================== *)

Module Text.

(** A string is the sequence of its UTF-16 code units, as [length],
    [toLowerCase], [trim] and the regular expressions of the source see
    it; a character of the model is a code unit below 256, that is a
    character of Basic Latin or of the Latin-1 supplement, and [code]
    is its number.  Strings with a code unit above 255 are not
    modelled; the labels handed to [console.error] are copied as they
    are written and never looked into. *)
Definition code (c : ascii) : nat := nat_of_ascii c.

(** [\s], and the white space [trim] removes: tab, line feed, vertical
    tab, form feed, carriage return, space and the no-break space
    U+00A0.  (The other characters of the class, U+1680, U+2000 to
    U+200A, U+2028, U+2029, U+202F, U+205F, U+3000 and U+FEFF, lie
    above 255.) *)
Definition is_space (c : ascii) : bool :=
  Nat.eqb (code c) 32 || (Nat.leb 9 (code c) && Nat.leb (code c) 13)
  || Nat.eqb (code c) 160.

(** [\d] *)
Definition is_digit (c : ascii) : bool :=
  Nat.leb 48 (code c) && Nat.leb (code c) 57.

Fixpoint string_map (f : ascii -> ascii) (s : string) : string :=
  match s with
  | EmptyString => EmptyString
  | String c s' => String (f c) (string_map f s')
  end.

(** The lower case of a character: the capitals A to Z and, in the
    Latin-1 supplement, U+00C0 to U+00DE without the sign U+00D7 are
    32 below their small letters; every other character below 256 is
    its own lower case. *)
Definition lower (c : ascii) : ascii :=
  if (Nat.leb 65 (code c) && Nat.leb (code c) 90)
     || (Nat.leb 192 (code c) && Nat.leb (code c) 222
         && negb (Nat.eqb (code c) 215))
  then ascii_of_nat (code c + 32) else c.

Definition toLowerCase (s : string) : string := string_map lower s.

Fixpoint trimStart (s : string) : string :=
  match s with
  | EmptyString => EmptyString
  | String c s' => if is_space c then trimStart s' else s
  end.

Fixpoint trimEnd (s : string) : string :=
  match s with
  | EmptyString => EmptyString
  | String c s' =>
      match trimEnd s' with
      | EmptyString => if is_space c then EmptyString
                       else String c EmptyString
      | t => String c t
      end
  end.

Definition trim (s : string) : string := trimEnd (trimStart s).

(** The line feed of ['\n']. *)
Definition nl : string := String (ascii_of_nat 10) EmptyString.

(** [s.includes(t)] *)
Fixpoint includes (s t : string) : bool :=
  String.prefix t s ||
  match s with
  | EmptyString => false
  | String _ s' => includes s' t
  end.

(** [s.length] as a number. *)
Definition length_of (s : string) : Q :=
  inject_Z (Z.of_nat (String.length s)).

End Text.

(* ===================================================================== *)
(** ** The regular expressions of the login form *)
(* ===================================================================== *)

Module Regex.
Import Text.

(** Regular expressions over character classes, matched by
    derivatives; [matches] is [RegExp.test] for a pattern written
    between [^] and [$]. *)
Inductive regex :=
| Void
| Eps
| Class (p : ascii -> bool)
| Cat (r s : regex)
| Alt (r s : regex)
| Star (r : regex).

Definition Plus (r : regex) : regex := Cat r (Star r).

Fixpoint nullable (r : regex) : bool :=
  match r with
  | Void => false
  | Eps => true
  | Class _ => false
  | Cat r s => nullable r && nullable s
  | Alt r s => nullable r || nullable s
  | Star _ => true
  end.

Fixpoint deriv (c : ascii) (r : regex) : regex :=
  match r with
  | Void => Void
  | Eps => Void
  | Class p => if p c then Eps else Void
  | Cat r s =>
      if nullable r then Alt (Cat (deriv c r) s) (deriv c s)
      else Cat (deriv c r) s
  | Alt r s => Alt (deriv c r) (deriv c s)
  | Star r => Cat (deriv c r) (Star r)
  end.

Fixpoint matches (r : regex) (s : string) : bool :=
  match s with
  | EmptyString => nullable r
  | String c s' => matches (deriv c r) s'
  end.

Definition chr (a : ascii) : regex := Class (Ascii.eqb a).

(** [[^\s@]] *)
Definition not_space_at (c : ascii) : bool :=
  negb (is_space c || Ascii.eqb c "@").

(** [/^[^\s@]+@[^\s@]+\.[^\s@]+$/] *)
Definition emailRegex : regex :=
  Cat (Plus (Class not_space_at))
    (Cat (chr "@")
       (Cat (Plus (Class not_space_at))
          (Cat (chr ".") (Plus (Class not_space_at))))).

(** [/^\d{4}$/] *)
Definition pinRegex : regex :=
  Cat (Class is_digit)
    (Cat (Class is_digit) (Cat (Class is_digit) (Class is_digit))).

End Regex.

(* ===================================================================== *)
(** ** The login screen *)
(* ===================================================================== *)

Module Login.
Import Types Store Effects Voice Text Regex.
Local Open Scope js_scope.

Definition validateEmail (email : string) : bool :=
  matches emailRegex email.

Definition validatePin (pin : string) : bool :=
  matches pinRegex pin.

(** [handleLogin], on the state of the render ([state]) and the form
    fields; [now] is [new Date().toISOString()].  A [return] inside the
    [try] still runs the [finally]. *)
Definition handleLogin (state : AppState) (email pin : string)
    (now : string) : M unit :=
  if negb (validateEmail email) then
    alert "Invalid Email" "Please enter a valid email address." ;;
    speakText state "Please enter a valid email address"
  else if negb (validatePin pin) then
    alert "Invalid PIN" "Please enter a 4-digit PIN." ;;
    speakText state "Please enter a 4-digit PIN"
  else
    emit (SetIsLoading true) ;;
    try_finally
      (try_catch
         (usersRaw <- getItem item_users ;;
          users <- match usersRaw with
                   | Some raw => JSON_parse raw
                   | None => ret []
                   end ;;
          match List.find
                  (fun u => String.eqb (Types.email u)
                              (trim (toLowerCase email))) users with
          | None =>
              alert "No account"
                "This email is not registered. Please sign up." ;;
              speakText state
                "This email is not registered. Please sign up." ;;
              emit (SetIsLoading false)
          | Some found =>
              if negb (String.eqb (Types.pin found) pin) then
                alert "Invalid PIN" "The PIN you entered is incorrect." ;;
                speakText state "The PIN you entered is incorrect" ;;
                emit (SetIsLoading false)
              else
                let updatedUser :=
                  if truthy (joinDate found) then found
                  else with_joinDate found now in
                (if negb (truthy (joinDate found)) then
                   let refreshedUsers :=
                     List.map (fun u =>
                                 if String.eqb (Types.email u)
                                      (Types.email updatedUser)
                                 then updatedUser else u) users in
                   setItem_users refreshedUsers
                 else ret tt) ;;
                dispatch (LOGIN updatedUser) ;;
                speakText state "Login successful! Welcome to AccessAid." ;;
                haptic
          end)
         (fun error =>
            alert "Login Failed"
              "Please check your credentials and try again." ;;
            speakText state
              "Login failed. Please check your credentials and try again." ;;
            haptic))
      (emit (SetIsLoading false)).

(** [handleSignUp]; [now] is [Date.now().toString()]. *)
Definition handleSignUp (state : AppState) (email pin name : string)
    (now : string) : M unit :=
  if negb (validateEmail email) then
    alert "Invalid Email" "Please enter a valid email address." ;;
    speakText state "Please enter a valid email address"
  else if negb (validatePin pin) then
    alert "Invalid PIN" "Please enter a 4-digit PIN." ;;
    speakText state "Please enter a 4-digit PIN"
  else if String.eqb (trim name) "" then
    alert "Name Required" "Please enter your name." ;;
    speakText state "Please enter your name"
  else
    emit (SetIsLoading true) ;;
    try_finally
      (try_catch
         (usersRaw <- getItem item_users ;;
          users <- match usersRaw with
                   | Some raw => JSON_parse raw
                   | None => ret []
                   end ;;
          let exists_ :=
            List.existsb
              (fun u => String.eqb (Types.email u)
                          (trim (toLowerCase email))) users in
          if exists_ then
            alert "Email In Use"
              "This email is already registered. Please sign in." ;;
            speakText state
              "This email is already registered. Please sign in." ;;
            emit (SetIsLoading false)
          else
            let newUser :=
              {| id := now;
                 Types.email := trim (toLowerCase email);
                 Types.pin := pin;
                 Types.name := trim name;
                 joinDate := None; bio := None; weight := None;
                 height := None; bloodGroup := None; allergies := None;
                 interests := None; profilePhoto := None |} in
            let nextUsers := newUser :: users in
            setItem_users nextUsers ;;
            dispatch (LOGIN newUser) ;;
            speakText state
              "Account created successfully! Welcome to AccessAid." ;;
            haptic)
         (fun error =>
            alert "Sign Up Failed"
              "Could not create account. Please try again." ;;
            speakText state "Could not create account. Please try again." ;;
            haptic))
      (emit (SetIsLoading false)).

(** The users directory a handler reads: the empty array when the key
    is absent, nothing when its text does not parse. *)
Definition directory (st : AsyncStorage) : option (list User) :=
  match item_users st with
  | None => Some []
  | Some (Json l) => Some l
  | Some Malformed => None
  end.

(** [email.toLowerCase().trim()] *)
Definition normalized (email : string) : string :=
  trim (toLowerCase email).

(** The outcome of a handler that only alerts and speaks, the shape of
    every rejection of the login form: storage as before, nothing
    dispatched, an alert shown, and a normal return. *)
Definition refusal (state : AppState) (st : AsyncStorage)
    (r : World * (exn + unit)) : Prop :=
  storage (fst r) = st /\
  dispatched (trace (fst r)) = [] /\
  Provider.settle state (fst r) = state /\
  alerts (trace (fst r)) <> [] /\
  snd r = inr tt.

(** [toggleVoiceAnnouncements] *)
Definition toggleVoiceAnnouncements (state : AppState) : M unit :=
  let newState := negb (voiceAnnouncementsEnabled state) in
  dispatch (TOGGLE_VOICE_ANNOUNCEMENTS newState) ;;
  (if newState then
     Speech_stop ;;
     Speech_speak "Voice announcements enabled"
       {| language := None; rate := Some (safeRate state);
          pitch := Some 1.0%Q; quality := None |}
   else Speech_stop) ;;
  haptic.

End Login.

(* ===================================================================== *)
(** ** The accessibility set-up screen *)
(* ===================================================================== *)

Module Setup.
Import Types Store Effects Voice.
Local Open Scope js_scope.

(** The mount effect: the welcome message. *)
Definition welcome (state : AppState) : M unit :=
  if voiceAnnouncementsEnabled state then
    Speech_speak
      "Welcome to AccessAid! Let's set up your accessibility preferences for the best experience."
      {| language := None;
         rate := Some (voiceSpeed (accessibilitySettings state));
         pitch := Some 1.0%Q;
         quality := Some "Enhanced" |}
  else ret tt.

(** [handleSaveSettings] *)
Definition handleSaveSettings (brightness textZoom voiceSpeed : Q)
  : M unit :=
  dispatch (UPDATE_ACCESSIBILITY_SETTINGS
              {| p_brightness := Some brightness;
                 p_textZoom := Some textZoom;
                 p_voiceSpeed := Some voiceSpeed;
                 p_isDarkMode := None |}) ;;
  dispatch COMPLETE_SETUP ;;
  haptic.

End Setup.

(* ===================================================================== *)
(** ** The home screen: speech and camera reading *)
(* ===================================================================== *)

Module Home.
Import Types Store Effects Voice Text.
Local Open Scope js_scope.

(** [speakText] of the home screen: it refuses a blank text first. *)
Definition speakText (state : AppState) (text : string) : M unit :=
  if String.eqb (trim text) "" then
    alert "No Text" "Please enter some text to read aloud."
  else if negb (voiceAnnouncementsEnabled state) then ret tt
  else
    Speech_stop ;;
    Speech_speak text
      {| language := None; rate := Some (safeRate state);
         pitch := Some 1.0%Q; quality := None |}.

(** [speakDirect(text, options?)]: [options || { language: 'en-US',
    rate: 1.0 }]. *)
Definition speakDirect (state : AppState) (text : string)
    (options : option SpeechOptions) : M unit :=
  if negb (voiceAnnouncementsEnabled state) then ret tt
  else
    Speech_stop ;;
    Speech_speak text
      (match options with
       | Some o => o
       | None => {| language := Some "en-US"; rate := Some 1.0%Q;
                    pitch := None; quality := None |}
       end).

(** [{ language: 'en-US', rate: safeRate, pitch: 1.0 }], the options
    every reading of an extracted text is spoken with. *)
Definition readingOptions (state : AppState) : SpeechOptions :=
  {| language := Some "en-US"; rate := Some (safeRate state);
     pitch := Some 1.0%Q; quality := None |}.

(** [if (state.voiceAnnouncementsEnabled) speakDirect(text, {...})] *)
Definition readAloud (state : AppState) (text : string) : M unit :=
  if voiceAnnouncementsEnabled state
  then speakDirect state text (Some (readingOptions state))
  else ret tt.

(** [handleReadAgain], on the text the reader holds. *)
Definition handleReadAgain (state : AppState) (aiReaderText : string)
  : M unit :=
  if negb (String.eqb (trim aiReaderText) "") then
    readAloud state aiReaderText ;;
    haptic
  else
    alert "No Text"
      "No text to read. Please upload or capture a document first.".

Record ImagePickerAsset := {
  uri : string;
  width : option Q
}.

Record DocumentAsset := {
  d_uri : string;
  d_mimeType : option string
}.

Record FileInfo := {
  exists_ : bool;
  isDirectory : bool;
  size : option Q
}.

(** What the OCR service answers to a request: the request fails, the
    status is not OK, the service reports a processing error (with the
    message the source picks from the reply), or it returns the parsed
    text of the first result. *)
Inductive OcrReply :=
| FetchFailed (message : string)
| HttpNotOk (status errorText : string)
| ProcessingError (message : string)
| ParsedText (text : string).

Definition MB : Q := (1024 * 1024)%Q.

(** [a > b] on numbers. *)
Definition gt (a b : Q) : bool := negb (Qle_bool a b).

(** [s || d] on strings. *)
Definition or_else (s d : string) : string :=
  if String.eqb s "" then d else s.

Section Collaborators.

(** [getOCRAPIKey()] *)
Variable apiKey : string.
(** [fetch('https://api.ocr.space/parse/image', ...)] and the reading
    of its response, by the form's [base64Image] and [filetype]. *)
Variable ocrSpace : string -> string -> OcrReply.
(** [ImageManipulator.manipulateAsync(uri, [{resize: {width}}],
    {compress: 0.7, format: JPEG, base64: true})]: it throws, or
    returns a result whose [base64] may be missing. *)
Variable manipulateAsync : string -> Q -> exn + option string.
(** [FileSystemLegacy.getInfoAsync] and [readAsStringAsync]. *)
Variable getInfoAsync : string -> exn + FileInfo.
Variable readAsStringAsync : string -> string -> exn + string.

Definition await {A} (r : exn + A) : M A :=
  match r with
  | inl e => throw e
  | inr a => ret a
  end.

(** [extractTextWithOCRSpace(base64, mimeType)] *)
Definition extractTextWithOCRSpace (base64 mimeType : string)
  : M string :=
  if String.eqb (trim apiKey) "" then
    console_error "❌ OCR API Key is missing!" ;;
    console_error "Available Constants:" ;;
    alert "API Key Missing"
      ("OCR.Space API key is not configured. Please:" ++ nl ++ nl
       ++ "1. Check app.json has OCR_SPACE_API_KEY in extra section" ++ nl
       ++ "2. Restart the Expo development server" ++ nl
       ++ "3. Reload the app") ;;
    ret ""
  else
    try_catch
      (let normalizedMime := toLowerCase mimeType in
       let isPDF := includes normalizedMime "pdf" in
       let dataPrefix :=
         if isPDF then "data:application/pdf;base64,"
         else "data:" ++ mimeType ++ ";base64," in
       let filetype := if isPDF then "PDF" else "IMAGE" in
       emit (OcrRequest dataPrefix base64 filetype) ;;
       match ocrSpace (dataPrefix ++ base64) filetype with
       | FetchFailed m => throw (Error m)
       | HttpNotOk status errorText =>
           console_error "❌ OCR API HTTP Error:" ;;
           throw (Error ("HTTP " ++ status ++ ": " ++ errorText))
       | ProcessingError m =>
           console_error "❌ OCR Processing Error:" ;;
           throw (Error m)
       | ParsedText text =>
           let trimmedText := trim text in
           if String.eqb trimmedText "" then
             throw (Error
               "No text was extracted from the image. Please try with a clearer image or document.")
           else ret trimmedText
       end)
      (fun error =>
         console_error "❌ OCR.Space API Error:" ;;
         let errorMessage :=
           or_else (message_of error) "Unknown error occurred" in
         alert "Error" ("Failed to extract text: " ++ errorMessage) ;;
         ret "").

(** [fileToBase64(uri)] *)
Definition fileToBase64 (uri : string) : M string :=
  try_catch
    (info <- await (getInfoAsync uri) ;;
     if negb (exists_ info) || isDirectory info then
       throw (Error "File not found or is a directory.")
     else
       if match size info with
          | Some size => negb (Qeq_bool size 0) && gt size MB
          | None => false
          end
       then
         throw (Error
           "File size exceeds 1 MB limit. Please choose a smaller file.")
       else await (readAsStringAsync uri "base64"))
    (fun error =>
       console_error "Error converting file to base64:" ;;
       throw error).

(** [prepareImageForOCR(asset)] *)
Definition prepareImageForOCR (asset : ImagePickerAsset)
  : M (string * string) :=
  try_catch
    (let targetWidth :=
       Qmin (match width asset with Some w => w | None => 1600 end)
            1600 in
     manipResult <- await (manipulateAsync (uri asset) targetWidth) ;;
     match manipResult with
     | None =>
         throw (Error
           "Unable to process image. Please try again with a different photo.")
     | Some base64 =>
         if String.eqb base64 "" then
           throw (Error
             "Unable to process image. Please try again with a different photo.")
         else
           let estimatedSizeBytes := ((length_of base64 * 3) / 4)%Q in
           if gt estimatedSizeBytes MB then
             throw (Error
               "Image is still larger than 1 MB. Please choose a smaller image.")
           else ret (base64, "image/jpeg")
     end)
    (fun error =>
       console_error "Error preparing image for OCR:" ;;
       throw error).

(** What [handleTakePicture] and [handleUploadImage] do with the
    prepared image: the call of the OCR service and the reading of
    its text.  [guarded] is true where the source tests
    [state.voiceAnnouncementsEnabled] once more before the
    [speakDirect] of the failure. *)
Definition readImage (state : AppState) (guarded : bool)
    (processedImage : string * string)
    (noTextMessage : string) : M unit :=
  extractedText <-
    extractTextWithOCRSpace (fst processedImage) (snd processedImage) ;;
  if negb (String.eqb extractedText "") then
    emit (SetAiReaderText extractedText) ;;
    readAloud state extractedText ;;
    haptic
  else
    alert "No Text Found" noTextMessage ;;
    if guarded && negb (voiceAnnouncementsEnabled state) then ret tt
    else speakDirect state "No text detected. Please try again." None.

(** [handleTakePicture]: [granted] is the answer to the permission
    request, [picked] the first asset of the camera result ([None]
    when it was cancelled or empty). *)
Definition handleTakePicture (state : AppState) (granted : bool)
    (picked : option ImagePickerAsset) : M unit :=
  try_finally
    (try_catch
       (haptic ;;
        (if voiceAnnouncementsEnabled state
         then speakDirect state "Opening camera..." None
         else ret tt) ;;
        if negb granted then
          alert "Permission Required"
            "Camera permission is needed to take pictures."
        else
          match picked with
          | None => ret tt
          | Some asset =>
              emit (SetIsProcessing true) ;;
              emit (SetAiReaderText "") ;;
              speakDirect state "Processing image..." None ;;
              prepared <-
                try_catch
                  (processedImage <- prepareImageForOCR asset ;;
                   ret (Some processedImage))
                  (fun prepError =>
                     let message :=
                       or_else (message_of prepError)
                         "Unable to process the captured image. Please try again with better lighting." in
                     alert "Image Too Large" message ;;
                     (if voiceAnnouncementsEnabled state
                      then speakDirect state message None
                      else ret tt) ;;
                     ret None) ;;
              match prepared with
              | None => ret tt
              | Some processedImage =>
                  readImage state true processedImage
                    "No readable text was detected in the image. Please try again with a clearer image."
              end
          end)
       (fun error =>
          console_error "Error taking picture:" ;;
          alert "Error"
            ("Failed to process image: "
             ++ or_else (message_of error) "Unknown error")))
    (emit (SetIsProcessing false)).

(** [handleUploadImage] *)
Definition handleUploadImage (state : AppState) (granted : bool)
    (picked : option ImagePickerAsset) : M unit :=
  try_finally
    (try_catch
       (haptic ;;
        speakDirect state "Opening image gallery..." None ;;
        if negb granted then
          alert "Permission Required"
            "Media library permission is needed to select images."
        else
          match picked with
          | None => ret tt
          | Some asset =>
              emit (SetIsProcessing true) ;;
              emit (SetAiReaderText "") ;;
              speakDirect state "Processing image..." None ;;
              prepared <-
                try_catch
                  (processedImage <- prepareImageForOCR asset ;;
                   ret (Some processedImage))
                  (fun prepError =>
                     let message :=
                       or_else (message_of prepError)
                         "Unable to process the selected image. Please choose a smaller image." in
                     alert "Image Too Large" message ;;
                     speakDirect state message None ;;
                     ret None) ;;
              match prepared with
              | None => ret tt
              | Some processedImage =>
                  readImage state false processedImage
                    "No readable text was detected in the image. Please try again with a different image."
              end
          end)
       (fun error =>
          console_error "Error uploading image:" ;;
          alert "Error"
            ("Failed to process image: "
             ++ or_else (message_of error) "Unknown error")))
    (emit (SetIsProcessing false)).

(** [handleUploadFile]: [picked] is the first asset of the document
    picker. *)
Definition handleUploadFile (state : AppState)
    (picked : option DocumentAsset) : M unit :=
  try_finally
    (try_catch
       (haptic ;;
        speakDirect state "Opening file picker..." None ;;
        match picked with
        | None => ret tt
        | Some file =>
            let mimeType :=
              toLowerCase
                (or_else (match d_mimeType file with
                          | Some m => m
                          | None => ""
                          end) "application/pdf") in
            emit (SetIsProcessing true) ;;
            emit (SetAiReaderText "") ;;
            speakDirect state "Processing file..." None ;;
            if includes mimeType "text" then
              try_finally
                (try_catch
                   (content <-
                      await (readAsStringAsync (d_uri file) "utf8") ;;
                    let trimmed := trim content in
                    if negb (String.eqb trimmed "") then
                      emit (SetAiReaderText trimmed) ;;
                      readAloud state trimmed ;;
                      haptic
                    else
                      alert "No Text Found"
                        "The selected file appears to be empty.")
                   (fun readError =>
                      alert "Error"
                        ("Failed to read the text file: "
                         ++ or_else (message_of readError)
                              "Unknown error")))
                (emit (SetIsProcessing false))
            else
              converted <-
                try_catch
                  (base64 <- fileToBase64 (d_uri file) ;;
                   ret (Some base64))
                  (fun conversionError =>
                     let message :=
                       or_else (message_of conversionError)
                         "Unable to process this file. Please choose a smaller document (under 1 MB)." in
                     alert "File Too Large" message ;;
                     speakDirect state
                       "The selected file is too large. Please pick a smaller document."
                       None ;;
                     emit (SetIsProcessing false) ;;
                     ret None) ;;
              match converted with
              | None => ret tt
              | Some base64 =>
                  readImage state false (base64, mimeType)
                    "No readable text was detected in the file. Please try again with a different file."
              end
        end)
       (fun error =>
          console_error "Error uploading file:" ;;
          alert "Error"
            ("Failed to process file: "
             ++ or_else (message_of error) "Unknown error")))
    (emit (SetIsProcessing false)).

End Collaborators.



Definition no_ocr (e : Event) : Prop :=
  match e with
  | OcrRequest _ _ _ => False
  | _ => True
  end.

(** A text of [n] letters [A]. *)
Fixpoint letters (n : nat) : string :=
  match n with
  | O => EmptyString
  | S n' => String "A" (letters n')
  end.

End Home.

(* ===================================================================== *)
(** ** Concrete users, stores and collaborators *)
(* ===================================================================== *)

Module Scenario.
Import Types Store Effects.

Definition person (i e p n : string) (joined : option string) : User :=
  {| id := i; email := e; pin := p; name := n; joinDate := joined;
     bio := None; weight := None; height := None; bloodGroup := None;
     allergies := None; interests := None; profilePhoto := None |}.

Definition userA : User :=
  person "1" "ann@example.com" "1234" "Ann" (Some "2024-01-01T00:00:00.000Z").
Definition userB : User :=
  person "2" "bob@example.com" "4321" "Bob" (Some "2024-02-02T00:00:00.000Z").

Definition pills : Reminder :=
  {| r_id := "r1"; title := "Pills"; description := None;
     date := 1700000000000; time := 1700000000000;
     isCompleted := false; isActive := true;
     createdAt := 1690000000000; updatedAt := 1690000000000;
     category := Some medication; priority := Some high;
     recurrence := Some daily |}.

Definition walk : Reminder :=
  {| r_id := "r2"; title := "Walk"; description := Some "30 minutes";
     date := 1700000100000; time := 1700000100000;
     isCompleted := false; isActive := true;
     createdAt := 1690000100000; updatedAt := 1690000100000;
     category := Some exercise; priority := None; recurrence := None |}.

Definition emptyStorage : AsyncStorage :=
  {| item_user := None; item_users := None;
     item_accessibilitySettings := None;
     item_hasCompletedSetup := None;
     item_reminders := ∅ |}.

(** Ann has one reminder in storage, Bob has none. *)
Definition storageOfAnn : AsyncStorage :=
  {| item_user := None;
     item_users := Some (Json [userA; userB]);
     item_accessibilitySettings := None;
     item_hasCompletedSetup := None;
     item_reminders := {[ "1" := Json [pills] ]} |}.

Definition brighter : PartialSettings :=
  {| p_brightness := Some 80%Q; p_textZoom := None;
     p_voiceSpeed := None; p_isDarkMode := None |}.



Definition withSpeed (v : Q) : AppState :=
  {| user := Some userA; isLoggedIn := true; hasCompletedSetup := true;
     accessibilitySettings :=
       {| brightness := 50; textZoom := 100; voiceSpeed := v;
          isDarkMode := false |};
     isVoiceEnabled := false; voiceAnnouncementsEnabled := true;
     reminders := [pills] |}.

(** An image tool that returns a base64 text of [n] letters. *)
Definition manipulatorOf (n : nat) (uri : string) (width : Q)
  : exn + option string :=
  inr (Some (Home.letters n)).

Definition ocrHello (base64Image filetype : string) : Home.OcrReply :=
  Home.ParsedText "hello".

Definition infoOfSize (n : Q) (uri : string) : exn + Home.FileInfo :=
  inr {| Home.exists_ := true; Home.isDirectory := false;
         Home.size := Some n |}.

Definition readerOf (content : string) (uri encoding : string)
  : exn + string :=
  inr content.

Definition photo : Home.ImagePickerAsset :=
  {| Home.uri := "file:///photo.jpg"; Home.width := Some 4000%Q |}.

Definition document : Home.DocumentAsset :=
  {| Home.d_uri := "file:///scan.pdf";
     Home.d_mimeType := Some "application/pdf" |}.

End Scenario.

(* ===================================================================== *)
(** ** Saving the state *)
(* ===================================================================== *)

Module Saving.
Import Types Store Effects Provider.
Local Open Scope js_scope.

(** [JSON.stringify(state.accessibilitySettings)], read back as the
    payload of [UPDATE_ACCESSIBILITY_SETTINGS]: every key is present. *)
Definition stringify_settings (a : AccessibilitySettings) : PartialSettings :=
  {| p_brightness := Some (brightness a);
     p_textZoom := Some (textZoom a);
     p_voiceSpeed := Some (voiceSpeed a);
     p_isDarkMode := Some (isDarkMode a) |}.

Definition setItem_accessibilitySettings (a : AccessibilitySettings)
  : M unit :=
  setStorage (fun s =>
    {| item_user := item_user s;
       item_users := item_users s;
       item_accessibilitySettings := Some (Json (stringify_settings a));
       item_hasCompletedSetup := item_hasCompletedSetup s;
       item_reminders := item_reminders s |}).

Definition setItem_hasCompletedSetup (b : bool) : M unit :=
  setStorage (fun s =>
    {| item_user := item_user s;
       item_users := item_users s;
       item_accessibilitySettings := item_accessibilitySettings s;
       item_hasCompletedSetup := Some (Json b);
       item_reminders := item_reminders s |}).

(** [AsyncStorage.setItem(`reminders_${userId}`, ...)] *)
Definition setItem_reminders (userId : string) (l : list Reminder)
  : M unit :=
  setStorage (fun s =>
    {| item_user := item_user s;
       item_users := item_users s;
       item_accessibilitySettings := item_accessibilitySettings s;
       item_hasCompletedSetup := item_hasCompletedSetup s;
       item_reminders := <[userId := Json l]> (item_reminders s) |}).

(** [users.findIndex(f)]: [None] for [-1]. *)
Fixpoint findIndex {A} (f : A -> bool) (l : list A) : option nat :=
  match l with
  | [] => None
  | a :: l' => if f a then Some O
               else match findIndex f l' with
                    | Some i => Some (S i)
                    | None => None
                    end
  end.

(** [{ ...old, ...new }] for two users. *)
Definition spread_user (old new : User) : User :=
  {| id := id new; email := email new; pin := pin new; name := name new;
     joinDate := spread_opt (joinDate new) (joinDate old);
     bio := spread_opt (bio new) (bio old);
     weight := spread_opt (weight new) (weight old);
     height := spread_opt (height new) (height old);
     bloodGroup := spread_opt (bloodGroup new) (bloodGroup old);
     allergies := spread_opt (allergies new) (allergies old);
     interests := spread_opt (interests new) (interests old);
     profilePhoto := spread_opt (profilePhoto new) (profilePhoto old) |}.

(** The directory with [u] put in: merged into the first entry that
    has its id, at the head when there is none. *)
Definition upsert (u : User) (users : list User) : list User :=
  match findIndex (fun x => String.eqb (id x) (id u)) users with
  | Some idx =>
      match users !! idx with
      | Some old => <[idx := spread_user old u]> users
      | None => users
      end
  | None => u :: users
  end.

(** The third effect: [saveData], run whenever the user, the settings,
    the set-up flag or the reminders change, on the state of that
    render. *)
Definition saveData (state : AppState) : M unit :=
  try_catch
    (match user state with
     | Some u =>
         setItem_user u ;;
         try_catch
           (usersRaw <- getItem item_users ;;
            users <- match usersRaw with
                     | Some raw => JSON_parse raw
                     | None => ret []
                     end ;;
            setItem_users (upsert u users))
           (fun _ => ret tt)
     | None => ret tt
     end ;;
     setItem_accessibilitySettings (accessibilitySettings state) ;;
     setItem_hasCompletedSetup (hasCompletedSetup state) ;;
     match user state with
     | Some u => setItem_reminders (id u) (reminders state)
     | None => ret tt
     end)
    (fun error => console_error "Error saving data:").

(** Storage once [saveData] has run on a state. *)
Definition saved (st : AsyncStorage) (state : AppState) : AsyncStorage :=
  storage (fst (saveData state (fresh st))).

(** What [loadData] and the reload of the reminders it triggers make of
    a storage, from the initial state.  (How these two interleave with
    the [saveData] of the first render is not part of this.) *)
Definition rehydrate (now : string) (st : AsyncStorage) : AppState :=
  let w := fst (loadData now (fresh st)) in
  reload (storage w) (settle initialState w).

(** What [loadData] does with the answers to its three reads. *)
Definition loadData_after (now : string)
    (userData : option (Stored User))
    (settingsData : option (Stored PartialSettings))
    (setupData : option (Stored bool)) : M unit :=
  match userData with
  | Some raw =>
      parsedUser <- JSON_parse raw ;;
      let userWithJoinDate :=
        if truthy (joinDate parsedUser) then parsedUser
        else with_joinDate parsedUser now in
      dispatch (LOGIN userWithJoinDate) ;;
      if negb (truthy (joinDate parsedUser))
      then setItem_user userWithJoinDate
      else ret tt
  | None => ret tt
  end ;;
  match settingsData with
  | Some raw =>
      payload <- JSON_parse raw ;;
      dispatch (UPDATE_ACCESSIBILITY_SETTINGS payload)
  | None => ret tt
  end ;;
  match setupData with
  | Some raw =>
      b <- JSON_parse raw ;;
      dispatch (LOAD_DATA (only_hasCompletedSetup b))
  | None => ret tt
  end.

(** The requests of the first render, in the order storage serves them
    when it serves them in the order they are issued.  The effects run
    in the order of their declaration, each up to its first [await]:
    [loadData] asks for [user]; [loadUserReminders] finds no user,
    dispatches [SET_REMINDERS []] and asks for nothing; [saveData], on
    the initial state, which has no user, writes
    [accessibilitySettings].  [loadData] asks for
    [accessibilitySettings] when its first read is answered, and
    [saveData] writes [hasCompletedSetup] when its first write is done:
    each write is issued before the read of the same key.  [saveData]
    is called again when an action has been reduced; until [loadData]
    has its three answers the provider has dispatched [SET_REMINDERS []]
    only, the state has no user and the default settings and flag, and
    such a call writes the same two values again. *)
Definition first_render (now : string) : M unit :=
  try_catch
    (userData <- getItem item_user ;;
     setItem_accessibilitySettings (accessibilitySettings initialState) ;;
     settingsData <- getItem item_accessibilitySettings ;;
     setItem_hasCompletedSetup (hasCompletedSetup initialState) ;;
     setupData <- getItem item_hasCompletedSetup ;;
     loadData_after now userData settingsData setupData)
    (fun error => console_error "Error loading data:").

(** The state the provider reaches after a start on a storage: the
    actions of [loadData] reduced from the initial state, then the
    reminders of the user it logged in.  (The read of the reminders is
    issued by the effect of the render that follows [LOGIN], before the
    [saveData] of that render writes anything.) *)
Definition mount (now : string) (st : AsyncStorage) : AppState :=
  let w := fst (first_render now (fresh st)) in
  reload (storage w) (settle initialState w).

End Saving.

(* ===================================================================== *)
(** ** Invariants of the store *)
(* ===================================================================== *)

Module Session.
Import Types Store.

(** The login flag says whether there is a user. *)
Definition consistent (state : AppState) : Prop :=
  isLoggedIn state = match user state with
                     | Some _ => true
                     | None => false
                     end.

(** An action that is not a [LOAD_DATA] carrying the keys [user] or
    [isLoggedIn].  (The provider dispatches [LOAD_DATA] with the key
    [hasCompletedSetup] only.) *)
Definition keeps_session (action : AppAction) : Prop :=
  match action with
  | LOAD_DATA payload => l_user payload = None /\ l_isLoggedIn payload = None
  | _ => True
  end.

(** [{ ...p, ...q }] for two partial settings. *)
Definition spread_settings (p q : PartialSettings) : PartialSettings :=
  {| p_brightness := spread_opt (p_brightness q) (p_brightness p);
     p_textZoom := spread_opt (p_textZoom q) (p_textZoom p);
     p_voiceSpeed := spread_opt (p_voiceSpeed q) (p_voiceSpeed p);
     p_isDarkMode := spread_opt (p_isDarkMode q) (p_isDarkMode p) |}.

(** No two reminders of the state share an id. *)
Definition unique_ids (state : AppState) : Prop :=
  List.NoDup (List.map r_id (reminders state)).

End Session.

(* ===================================================================== *)
(** ** The strings a regular expression denotes *)
(* ===================================================================== *)

Module Language.
Import Text Regex.

(** [accepts r s]: the whole of [s] is in the language of [r]. *)
Inductive accepts : regex -> string -> Prop :=
| accepts_eps : accepts Eps ""
| accepts_class (p : ascii -> bool) (c : ascii) :
    p c = true -> accepts (Class p) (String c "")
| accepts_cat (r s : regex) (x y : string) :
    accepts r x -> accepts s y -> accepts (Cat r s) (x ++ y)
| accepts_alt_l (r s : regex) (x : string) :
    accepts r x -> accepts (Alt r s) x
| accepts_alt_r (r s : regex) (x : string) :
    accepts s x -> accepts (Alt r s) x
| accepts_star_nil (r : regex) : accepts (Star r) ""
| accepts_star_cons (r : regex) (x y : string) :
    accepts r x -> accepts (Star r) y -> accepts (Star r) (x ++ y).

(** Every character of the string is in the class. *)
Fixpoint all_chars (p : ascii -> bool) (s : string) : bool :=
  match s with
  | EmptyString => true
  | String c s' => p c && all_chars p s'
  end.

(** A non-empty string without white space and without [@]. *)
Definition word (s : string) : Prop :=
  s <> "" /\ all_chars not_space_at s = true.

End Language.

(* ===================================================================== *)
(** ** Handlers that return *)
(* ===================================================================== *)

Module Outcome.
Import Effects.

(** The handler returns in every world: no exception escapes it. *)
Definition returns {A} (c : M A) : Prop :=
  forall w, exists a, snd (c w) = inr a.

(** The last event of a trace. *)
Definition ends_with (e : Event) (t : list Event) : Prop :=
  exists t', t = (t' ++ [e])%list.

End Outcome.

(* ===================================================================== *)
(** ** The profile screen *)
(* ===================================================================== *)

Module Profile.
Import Types Store Effects Voice Text.
Local Open Scope js_scope.

(** The form of the screen, [profileData]. *)
Record ProfileData := {
  f_name : string;
  f_email : string;
  f_bio : string;
  f_weight : string;
  f_height : string;
  f_bloodGroup : string;
  f_allergies : string;
  f_interests : string;
  f_profilePhoto : string
}.

(** The state of the component that the handlers set. *)
Record Local := {
  isEditingProfile : bool;
  profileData : ProfileData
}.

(** [state.user?.key || ''] on an optional key. *)
Definition or_empty (o : option string) : string :=
  match o with
  | Some s => s
  | None => ""
  end.

(** The form the component starts with. *)
Definition initialProfileData (state : AppState) : ProfileData :=
  match user state with
  | Some u =>
      {| f_name := name u; f_email := email u;
         f_bio := or_empty (bio u);
         f_weight := or_empty (weight u);
         f_height := or_empty (height u);
         f_bloodGroup := or_empty (bloodGroup u);
         f_allergies := or_empty (allergies u);
         f_interests := or_empty (interests u);
         f_profilePhoto := or_empty (profilePhoto u) |}
  | None =>
      {| f_name := ""; f_email := ""; f_bio := ""; f_weight := "";
         f_height := ""; f_bloodGroup := ""; f_allergies := "";
         f_interests := ""; f_profilePhoto := "" |}
  end.

(** [{ ...state.user!, ...profileData }] *)
Definition savePayload (u : option User) (d : ProfileData) : PartialUser :=
  {| p_id := option_map id u;
     p_email := Some (f_email d);
     p_pin := option_map pin u;
     p_name := Some (f_name d);
     p_joinDate := match u with Some x => joinDate x | None => None end;
     p_bio := Some (f_bio d);
     p_weight := Some (f_weight d);
     p_height := Some (f_height d);
     p_bloodGroup := Some (f_bloodGroup d);
     p_allergies := Some (f_allergies d);
     p_interests := Some (f_interests d);
     p_profilePhoto := Some (f_profilePhoto d) |}.

(** [handleSaveProfile]; it returns the state of the component. *)
Definition handleSaveProfile (state : AppState) (local : Local)
  : M Local :=
  if String.eqb (trim (f_name (profileData local))) "" then
    alert "Name Required" "Please enter your name." ;;
    speakText state "Please enter your name" ;;
    ret local
  else
    dispatch (UPDATE_USER (savePayload (user state) (profileData local))) ;;
    speakText state "Profile updated successfully" ;;
    haptic ;;
    ret {| isEditingProfile := false; profileData := profileData local |}.

(** [handleLogout]: the confirmation, and what its button [Logout] does
    when [confirmed]. *)
Definition handleLogout (state : AppState) (confirmed : bool) : M unit :=
  alert "Logout" "Are you sure you want to log out?" ;;
  if confirmed then
    dispatch LOGOUT ;;
    speakText state "You have been logged out successfully" ;;
    haptic
  else ret tt.

(** [{ profilePhoto: uri }] *)
Definition photoPayload (uri : string) : PartialUser :=
  {| p_id := None; p_email := None; p_pin := None; p_name := None;
     p_joinDate := None; p_bio := None; p_weight := None;
     p_height := None; p_bloodGroup := None; p_allergies := None;
     p_interests := None; p_profilePhoto := Some uri |}.

(** [handleProfilePicture]: [available] says whether the image picker
    could be loaded, [granted] is the answer to the permission request
    and [picked] the uri of the first asset of the result. *)
Definition handleProfilePicture (state : AppState) (local : Local)
    (available granted : bool) (picked : option string) : M Local :=
  if negb available then
    alert "Unavailable" "Image picking is unavailable in this environment." ;;
    ret local
  else
    try_catch
      (if negb granted then
         alert "Permission needed"
           "Please allow photo library access to set a profile picture." ;;
         ret local
       else
         match picked with
         | Some uri =>
             if String.eqb uri "" then ret local
             else
               dispatch (UPDATE_USER (photoPayload uri)) ;;
               speakText state "Profile picture updated" ;;
               haptic ;;
               ret {| isEditingProfile := isEditingProfile local;
                      profileData :=
                        {| f_name := f_name (profileData local);
                           f_email := f_email (profileData local);
                           f_bio := f_bio (profileData local);
                           f_weight := f_weight (profileData local);
                           f_height := f_height (profileData local);
                           f_bloodGroup := f_bloodGroup (profileData local);
                           f_allergies := f_allergies (profileData local);
                           f_interests := f_interests (profileData local);
                           f_profilePhoto := uri |} |}
         | None => ret local
         end)
      (fun error =>
         alert "Error" "Failed to update profile picture" ;;
         ret local).

End Profile.

(* ===================================================================== *)
(** ** What a trace shows *)
(* ===================================================================== *)

Module Observations.
Import Types Store Effects.

(** The event is not a call of [Speech.speak]. *)
Definition no_speech (e : Event) : Prop :=
  match e with
  | SpeechSpeak _ _ => False
  | _ => True
  end.

(** The event does not set the loading flag. *)
Definition no_loading (e : Event) : Prop :=
  match e with
  | SetIsLoading _ => False
  | _ => True
  end.

(** The number of requests to the OCR service in a trace. *)
Definition requests (t : list Event) : nat :=
  List.length (ocr_payloads t).

(** The handler only adds to the trace, and what it adds holds at most
    [n] requests to the OCR service. *)
Definition posts_at_most {A} (n : nat) (c : M A) : Prop :=
  forall w, exists t,
    trace (fst (c w)) = (trace w ++ t)%list /\ requests t <= n.

(** The requests to the OCR service in a trace, each with its data
    prefix, its base64 text and its file type. *)
Definition ocr_requests (t : list Event)
  : list (string * string * string) :=
  flat_map (fun e => match e with
                     | OcrRequest p b f => [(p, b, f)]
                     | _ => []
                     end) t.

End Observations.

(* ===================================================================== *)
(** ** More concrete cases *)
(* ===================================================================== *)

Module Cases.
Import Types Store Effects Scenario.

(** Ann, logged in, with announcements switched off. *)
Definition quiet : AppState :=
  {| user := Some userA; isLoggedIn := true; hasCompletedSetup := true;
     accessibilitySettings :=
       {| brightness := 50; textZoom := 100; voiceSpeed := 1.5;
          isDarkMode := true |};
     isVoiceEnabled := false; voiceAnnouncementsEnabled := false;
     reminders := [pills; walk] |}.

(** A user stored before join dates were kept. *)
Definition userC : User := person "3" "cy@example.com" "1111" "Cy" None.

Definition storageOfCy : AsyncStorage :=
  {| item_user := Some (Json userC);
     item_users := Some (Json [userC; userA]);
     item_accessibilitySettings := None;
     item_hasCompletedSetup := None;
     item_reminders := ∅ |}.

Definition form : Profile.ProfileData :=
  {| Profile.f_name := "Ann Lee"; Profile.f_email := "Ann.Lee@Example.com";
     Profile.f_bio := "Reader"; Profile.f_weight := "";
     Profile.f_height := ""; Profile.f_bloodGroup := "O+";
     Profile.f_allergies := ""; Profile.f_interests := "";
     Profile.f_profilePhoto := "" |}.

Definition editing : Profile.Local :=
  {| Profile.isEditingProfile := true; Profile.profileData := form |}.

Definition notes : Home.DocumentAsset :=
  {| Home.d_uri := "file:///notes.txt";
     Home.d_mimeType := Some "Text/Plain" |}.

Definition slower : PartialSettings :=
  {| p_brightness := None; p_textZoom := None;
     p_voiceSpeed := Some 0.8%Q; p_isDarkMode := None |}.

(** Ann as the directory holds her, with a bio. *)
Definition annStored : User :=
  {| id := "1"; email := "ann@example.com"; pin := "1234"; name := "Ann";
     joinDate := Some "2024-01-01T00:00:00.000Z"; bio := Some "Reader";
     weight := None; height := None; bloodGroup := None;
     allergies := None; interests := None; profilePhoto := None |}.

(** Ann as a state holds her after a change of name: no join date, no
    bio. *)
Definition annRenamed : User :=
  person "1" "ann@example.com" "1234" "Ann Lee" None.

Definition renamed : AppState :=
  {| user := Some annRenamed; isLoggedIn := true;
     hasCompletedSetup := true;
     accessibilitySettings := accessibilitySettings initialState;
     isVoiceEnabled := false; voiceAnnouncementsEnabled := true;
     reminders := [] |}.

(** A directory where Ann is the second of three. *)
Definition storageOfThree : AsyncStorage :=
  {| item_user := None;
     item_users := Some (Json [userC; annStored; userB]);
     item_accessibilitySettings := None;
     item_hasCompletedSetup := None;
     item_reminders := ∅ |}.

End Cases.

(* ===================================================================== *)
(** ** Properties of the reducer *)
(* ===================================================================== *)

Import Types Store Effects.

(** The embedding on small inputs. *)

Example trim_blanks : Text.trim "  Ann Lee  " = "Ann Lee".
Proof. reflexivity. Qed.

Example lower_case : Text.toLowerCase "Ann@Example.COM" = "ann@example.com".
Proof. reflexivity. Qed.

Example includes_pdf :
  Text.includes "application/pdf" "pdf" = true /\
  Text.includes "image/jpeg" "pdf" = false /\
  Text.includes "text/plain" "text" = true.
Proof. repeat split; reflexivity. Qed.

Example emails :
  Login.validateEmail "ann@example.com" = true /\
  Login.validateEmail "ann@example" = false /\
  Login.validateEmail "ann lee@example.com" = false /\
  Login.validateEmail "ann@@example.com" = false /\
  Login.validateEmail "@example.com" = false /\
  Login.validateEmail "a@b.c.d" = true.
Proof. repeat split; vm_compute; reflexivity. Qed.

Example pins :
  Login.validatePin "0420" = true /\
  Login.validatePin "123" = false /\
  Login.validatePin "12345" = false /\
  Login.validatePin "12a4" = false.
Proof. repeat split; vm_compute; reflexivity. Qed.

Example reducer_reminders :
  reminders (dispatchAll initialState
               [ADD_REMINDER Scenario.pills; ADD_REMINDER Scenario.walk;
                DELETE_REMINDER "r1"; TOGGLE_REMINDER "r2"])
    = [flip_completed Scenario.walk].
Proof. reflexivity. Qed.

Example clamp_voice_speed :
  Voice.safeRate (Scenario.withSpeed 5.0) = 2.0%Q /\
  Voice.safeRate (Scenario.withSpeed 0.1) = 0.5%Q /\
  Voice.safeRate (Scenario.withSpeed 1.5) = 1.5%Q.
Proof. repeat split; vm_compute; reflexivity. Qed.

Lemma dispatchAll_app (state : AppState) (l1 l2 : list AppAction) :
  dispatchAll state (l1 ++ l2) = dispatchAll (dispatchAll state l1) l2.
Proof. unfold dispatchAll. apply fold_left_app. Qed.

Lemma set_reminders_same (state : AppState) :
  set_reminders state (reminders state) = state.
Proof. destruct state; reflexivity. Qed.

Lemma map_replace_absent (payload : Reminder) (l : list Reminder) :
  (forall r, In r l -> r_id r <> r_id payload) ->
  List.map (fun reminder =>
              if String.eqb (r_id reminder) (r_id payload)
              then payload else reminder) l = l.
Proof.
  induction l as [|r l IH]; intros Habs; simpl; [reflexivity|].
  rewrite IH by (intros r' Hr'; apply Habs; right; exact Hr').
  destruct (String.eqb_spec (r_id r) (r_id payload)) as [E|_].
  - exfalso. apply (Habs r); [left; reflexivity | exact E].
  - reflexivity.
Qed.

(** C3.  [LOGOUT] returns the store to the initial defaults, whatever the
    state and whatever was dispatched before: no user, not logged in,
    set-up not completed, brightness 50, text zoom 100, voice speed 1.0,
    light mode, voice disabled, announcements enabled, no reminders. *)
Theorem logout_resets_to_defaults (state : AppState)
    (before : list AppAction) :
  let s := dispatchAll state (before ++ [LOGOUT]) in
  s = initialState /\
  appReducer state LOGOUT = initialState /\
  user s = None /\ isLoggedIn s = false /\ hasCompletedSetup s = false /\
  brightness (accessibilitySettings s) = 50%Q /\
  textZoom (accessibilitySettings s) = 100%Q /\
  voiceSpeed (accessibilitySettings s) = 1.0%Q /\
  isDarkMode (accessibilitySettings s) = false /\
  isVoiceEnabled s = false /\
  voiceAnnouncementsEnabled s = true /\
  reminders s = [].
Proof.
  cbv zeta. rewrite dispatchAll_app. simpl.
  repeat split; reflexivity.
Qed.

(** C8.  [UPDATE_REMINDER] with an id no reminder of the list has is the
    identity on the state.  In general the list keeps its length and its
    order: at every position a reminder with the id of the payload is
    replaced by the payload and any other reminder stays as it is; the
    other fields of the state are untouched. *)
Theorem update_reminder_replaces_matching (state : AppState)
    (payload : Reminder) :
  let s := appReducer state (UPDATE_REMINDER payload) in
  ((forall r, In r (reminders state) -> r_id r <> r_id payload) ->
   s = state) /\
  List.length (reminders s) = List.length (reminders state) /\
  (forall i r, nth_error (reminders state) i = Some r ->
     nth_error (reminders s) i =
       Some (if String.eqb (r_id r) (r_id payload) then payload else r)) /\
  set_reminders s (reminders state) = state.
Proof.
  cbv zeta. simpl. repeat split.
  - intros Habs. rewrite map_replace_absent by exact Habs.
    apply set_reminders_same.
  - apply List.length_map.
  - intros i r Hi. rewrite nth_error_map, Hi. reflexivity.
  - destruct state; reflexivity.
Qed.

(** C10.  In the reducer [LOGIN u] sets the user and the login flag and
    nothing else: the reminder list of the state before is still there,
    and it stays until a [SET_REMINDERS] replaces it. *)
Theorem login_keeps_reminders (state : AppState) (u : User) :
  let s := appReducer state (LOGIN u) in
  user s = Some u /\ isLoggedIn s = true /\
  hasCompletedSetup s = hasCompletedSetup state /\
  accessibilitySettings s = accessibilitySettings state /\
  isVoiceEnabled s = isVoiceEnabled state /\
  voiceAnnouncementsEnabled s = voiceAnnouncementsEnabled state /\
  reminders s = reminders state /\
  (forall l, reminders (appReducer s (SET_REMINDERS l)) = l).
Proof. cbv zeta. simpl. repeat split; reflexivity. Qed.

(* ===================================================================== *)
(** ** Properties of the provider's effects *)
(* ===================================================================== *)

Import Provider.

Lemma revive_id (r : Reminder) : revive r = r.
Proof. destruct r; reflexivity. Qed.

Lemma map_revive (l : list Reminder) : List.map revive l = l.
Proof.
  induction l as [|r l IH]; simpl; [reflexivity|].
  now rewrite revive_id, IH.
Qed.

(** What the reload effect leaves in the state, case by case on what
    storage holds for the user. *)
Lemma reload_reminders (st : AsyncStorage) (state : AppState) :
  reminders (reload st state) =
    match user state with
    | None => []
    | Some u =>
        match item_reminders st !! id u with
        | Some (Json l) => l
        | Some Malformed => reminders state
        | None => []
        end
    end.
Proof.
  unfold reload, settle, loadUserReminders, try_catch, bind, getItem.
  destruct (user state) as [u|]; simpl; [|reflexivity].
  destruct (item_reminders st !! id u) as [[|l]|]; simpl;
    [reflexivity | apply map_revive | reflexivity].
Qed.

Lemma reload_user (st : AsyncStorage) (state : AppState) :
  user (reload st state) = user state.
Proof.
  unfold reload, settle, loadUserReminders, try_catch, bind, getItem.
  destruct (user state) as [u|] eqn:E; simpl; [|exact E].
  destruct (item_reminders st !! id u) as [[|l]|]; simpl; exact E.
Qed.

(** C1, as the code has it.  The reducer does not touch the reminder list
    on [LOGIN]; the list is replaced when the effect that the change of
    user triggers has dispatched its [SET_REMINDERS]: from then on the
    state holds the list stored for the new user (the empty list when
    nothing is stored for that user), provided the stored text parses.
    With no user the same effect leaves the empty list, and [LOGOUT]
    empties the list in the reduction itself. *)
Theorem reminders_follow_user_after_reload (st : AsyncStorage)
    (state : AppState) (u : User) :
  item_reminders st !! id u <> Some Malformed ->
  (user (login_and_reload st state u) = Some u /\
   reminders (login_and_reload st state u) =
     persisted_reminders st (Some u) /\
   scoped_to_user st (login_and_reload st state u)) /\
  (user state = None -> reminders (reload st state) = []) /\
  (user (appReducer state LOGOUT) = None /\
   reminders (appReducer state LOGOUT) = []).
Proof.
  intros Hok.
  assert (Hr : reminders (login_and_reload st state u) =
               persisted_reminders st (Some u)).
  { unfold login_and_reload. rewrite reload_reminders. simpl.
    destruct (item_reminders st !! id u) as [[|l]|]; congruence. }
  assert (Hu : user (login_and_reload st state u) = Some u).
  { unfold login_and_reload. now rewrite reload_user. }
  repeat split; try assumption.
  - intros r Hin. rewrite Hu, <- Hr. exact Hin.
  - intros Hnone. rewrite reload_reminders, Hnone. reflexivity.
Qed.

(** Start-up dispatches exactly [rehydrated], and returns. *)
Lemma loadData_dispatches (now : string) (w : World) :
  dispatched (trace (fst (loadData now w))) =
    (dispatched (trace w) ++ rehydrated now (storage w))%list /\
  snd (loadData now w) = inr tt.
Proof.
  destruct w as [st t].
  unfold loadData, rehydrated, slice, try_catch, bind, getItem,
    dispatched; simpl.
  destruct (item_user st) as [[|u]|],
           (item_accessibilitySettings st) as [[|p]|],
           (item_hasCompletedSetup st) as [[|b]|]; simpl;
    try destruct (truthy (joinDate u)); simpl;
    rewrite ?flat_map_app; simpl;
    rewrite <- ?app_assoc; simpl; rewrite ?app_nil_r; split; reflexivity.
Qed.



(* ===================================================================== *)
(** ** Properties of the login screen *)
(* ===================================================================== *)

Import Text Regex Login.

(** What one call of [speakText] adds to a world: nothing to storage,
    no dispatch, no alert. *)
Lemma speakText_run (state : AppState) (text : string) (w : World) :
  exists t,
    Voice.speakText state text w =
      ({| storage := storage w; trace := (trace w ++ t)%list |}, inr tt) /\
    dispatched t = [] /\ alerts t = [].
Proof.
  unfold Voice.speakText, Voice.Speech_stop, Voice.Speech_speak, bind, emit.
  destruct (voiceAnnouncementsEnabled state); simpl.
  - eexists. rewrite <- app_assoc. split; [reflexivity|].
    split; reflexivity.
  - exists []. rewrite app_nil_r. destruct w; repeat split; reflexivity.
Qed.

Lemma dispatched_app (t1 t2 : list Event) :
  dispatched (t1 ++ t2) = (dispatched t1 ++ dispatched t2)%list.
Proof. apply flat_map_app. Qed.

Lemma alerts_app (t1 t2 : list Event) :
  alerts (t1 ++ t2) = (alerts t1 ++ alerts t2)%list.
Proof. apply flat_map_app. Qed.

Lemma find_none_existsb {A} (f : A -> bool) (l : list A) :
  List.find f l = None <-> List.existsb f l = false.
Proof.
  induction l as [|a l IH]; simpl; [tauto|].
  destruct (f a); simpl; [split; discriminate | exact IH].
Qed.

Ltac run_speak state text w :=
  let t := fresh "t" in
  let E := fresh "E" in
  let D := fresh "D" in
  let L := fresh "L" in
  destruct (speakText_run state text w) as (t & E & D & L);
  rewrite E; clear E; simpl.

Ltac refused :=
  unfold refusal, settle; simpl;
  repeat rewrite ?dispatched_app, ?alerts_app; simpl;
  repeat match goal with
         | H : dispatched _ = [] |- _ => rewrite H
         | H : alerts _ = [] |- _ => rewrite H
         end; simpl;
  repeat split; try reflexivity; try discriminate.

Lemma handleLogin_refuses (state : AppState) (email pin now : string)
    (st : AsyncStorage) :
  match directory st with
  | Some users =>
      match List.find (fun u => String.eqb (Types.email u)
                                  (normalized email)) users with
      | None => True
      | Some found => Types.pin found <> pin
      end
  | None => True
  end ->
  refusal state st (handleLogin state email pin now (fresh st)).
Proof.
  intros Hfail. unfold handleLogin, directory, normalized in *.
  destruct (validateEmail email); simpl.
  2:{ unfold bind, alert, emit; simpl.
      match goal with |- context [Voice.speakText ?s ?x ?w] =>
        run_speak s x w end. refused. }
  destruct (validatePin pin); simpl.
  2:{ unfold bind, alert, emit; simpl.
      match goal with |- context [Voice.speakText ?s ?x ?w] =>
        run_speak s x w end. refused. }
  unfold try_finally, try_catch, bind, getItem, alert, emit, fresh; simpl.
  destruct (item_users st) as [[|users]|]; simpl.
  - match goal with |- context [Voice.speakText ?s ?x ?w] =>
      run_speak s x w end. refused.
  - destruct (List.find _ users) as [found|]; simpl.
    + destruct (String.eqb_spec (Types.pin found) pin) as [E|_];
        [contradiction|]. simpl.
      match goal with |- context [Voice.speakText ?s ?x ?w] =>
        run_speak s x w end. refused.
    + match goal with |- context [Voice.speakText ?s ?x ?w] =>
        run_speak s x w end. refused.
  - match goal with |- context [Voice.speakText ?s ?x ?w] =>
      run_speak s x w end. refused.
Qed.

(** C6.  A login that fails authentication (no user of the directory has
    the entered email, lower-cased and trimmed, or the first user that
    has it stores another PIN) is reported by an alert and changes
    nothing: no action is dispatched, so the state of the store is the
    one before, and storage is untouched. *)
Theorem failed_login_changes_nothing (state : AppState)
    (email pin now : string) (st : AsyncStorage) (users : list User) :
  directory st = Some users ->
  (forall u, In u users -> Types.email u <> normalized email) \/
  (exists found,
     List.find (fun u => String.eqb (Types.email u) (normalized email))
       users = Some found /\ Types.pin found <> pin) ->
  let w := fst (handleLogin state email pin now (fresh st)) in
  dispatched (trace w) = [] /\
  settle state w = state /\
  storage w = st /\
  alerts (trace w) <> [].
Proof.
  intros Hdir Hfail. cbv zeta.
  destruct (handleLogin_refuses state email pin now st) as (S & D & T & L & _).
  - rewrite Hdir. destruct Hfail as [Habs|(found & Hf & Hp)].
    + destruct (List.find _ users) as [found|] eqn:Hf; [|exact I].
      apply find_some in Hf. destruct Hf as [Hin Heq].
      apply String.eqb_eq in Heq. exfalso. exact (Habs found Hin Heq).
    + rewrite Hf. exact Hp.
  - repeat split; assumption.
Qed.

(** C5.  A sign-up whose email, lower-cased and trimmed, is the email of
    a user of the stored directory is rejected with an alert before
    anything is changed: no [LOGIN] (no action at all) is dispatched, and
    storage, the directory with it, is what it was.  When the form
    passes the three tests that come first, the rejection is the one of
    the directory: the only alert is "Email In Use". *)
Theorem signup_existing_email_rejected (state : AppState)
    (email pin name now : string) (st : AsyncStorage)
    (users : list User) :
  directory st = Some users ->
  (exists u, In u users /\ Types.email u = normalized email) ->
  let w := fst (handleSignUp state email pin name now (fresh st)) in
  dispatched (trace w) = [] /\
  settle state w = state /\
  storage w = st /\
  item_users (storage w) = item_users st /\
  alerts (trace w) <> [] /\
  (validateEmail email = true -> validatePin pin = true ->
   trim name <> "" ->
   alerts (trace w) =
     [("Email In Use",
       "This email is already registered. Please sign in.")]).
Proof.
  intros Hdir (u & Hin & Hu). cbv zeta.
  assert (Hex : List.existsb
                  (fun u => String.eqb (Types.email u)
                              (trim (toLowerCase email))) users = true).
  { apply existsb_exists. exists u. split; [exact Hin|].
    apply String.eqb_eq. exact Hu. }
  assert (R : refusal state st (handleSignUp state email pin name now (fresh st))).
  { unfold handleSignUp, directory in *.
    destruct (validateEmail email); simpl.
    2:{ unfold bind, alert, emit; simpl.
        match goal with |- context [Voice.speakText ?s ?x ?w] =>
          run_speak s x w end. refused. }
    destruct (validatePin pin); simpl.
    2:{ unfold bind, alert, emit; simpl.
        match goal with |- context [Voice.speakText ?s ?x ?w] =>
          run_speak s x w end. refused. }
    destruct (String.eqb (trim name) ""); simpl.
    1:{ unfold bind, alert, emit; simpl.
        match goal with |- context [Voice.speakText ?s ?x ?w] =>
          run_speak s x w end. refused. }
    unfold try_finally, try_catch, bind, getItem, alert, emit, fresh; simpl.
    destruct (item_users st) as [[|l]|]; simpl; [discriminate| |].
    - injection Hdir as ->. rewrite Hex. simpl.
      match goal with |- context [Voice.speakText ?s ?x ?w] =>
        run_speak s x w end. refused.
    - injection Hdir as <-. discriminate Hex. }
  destruct R as (S & D & T & L & _).
  rewrite S.
  split; [exact D|]. split; [exact T|]. split; [reflexivity|].
  split; [reflexivity|]. split; [exact L|].
  intros He Hp Hn.
  unfold handleSignUp, directory in *. rewrite He, Hp. simpl.
  destruct (String.eqb_spec (trim name) "") as [E|_]; [contradiction|].
  unfold try_finally, try_catch, bind, getItem, alert, emit, fresh; simpl.
  assert (Hl : match item_users st with
               | Some raw => JSON_parse raw
               | None => ret []
               end = ret users).
  { destruct (item_users st) as [[|l]|]; simpl; congruence. }
  rewrite Hl. unfold ret at 1. simpl. rewrite Hex. simpl.
  match goal with |- context [Voice.speakText ?s ?x ?w] =>
    destruct (speakText_run s x w) as (t & Et & _ & Lt); rewrite Et end.
  simpl. rewrite <- !app_assoc. simpl.
  rewrite !alerts_app, Lt. reflexivity.
Qed.

(** C9, on the code.  A successful sign-up dispatches [LOGIN] with the
    user it built and writes that user at the head of the directory; the
    user has an id, an email, a PIN and a name, and no [joinDate]. *)
Theorem signup_user_has_no_joinDate (state : AppState)
    (email pin name now : string) (st : AsyncStorage)
    (users : list User) :
  directory st = Some users ->
  validateEmail email = true ->
  validatePin pin = true ->
  trim name <> "" ->
  (forall u, In u users -> Types.email u <> normalized email) ->
  let w := fst (handleSignUp state email pin name now (fresh st)) in
  exists newUser,
    dispatched (trace w) = [LOGIN newUser] /\
    item_users (storage w) = Some (Json (newUser :: users)) /\
    id newUser = now /\
    Types.email newUser = normalized email /\
    joinDate newUser = None.
Proof.
  intros Hdir He Hp Hn Habs. cbv zeta.
  assert (Hex : List.existsb
                  (fun u => String.eqb (Types.email u)
                              (trim (toLowerCase email))) users = false).
  { apply find_none_existsb.
    destruct (List.find _ users) as [f|] eqn:Hf; [|reflexivity].
    apply find_some in Hf. destruct Hf as [Hin Heq].
    apply String.eqb_eq in Heq. exfalso. exact (Habs f Hin Heq). }
  unfold handleSignUp, directory in *. rewrite He, Hp. simpl.
  destruct (String.eqb_spec (trim name) "") as [E|_]; [contradiction|].
  unfold try_finally, try_catch, bind, getItem, alert, emit, fresh,
    setItem_users, setStorage, dispatch, haptic, emit; simpl.
  assert (Hu : match item_users st with
               | Some raw => JSON_parse raw
               | None => ret []
               end = ret users).
  { destruct (item_users st) as [[|l]|]; simpl; congruence. }
  rewrite Hu. unfold ret at 1. simpl. rewrite Hex. simpl.
  match goal with |- context [Voice.speakText ?s ?x ?w] =>
    run_speak s x w end.
  eexists. rewrite !dispatched_app, D. simpl.
  repeat split; reflexivity.
Qed.

(* ===================================================================== *)
(** ** A small program logic for the handlers *)
(* ===================================================================== *)

Section Rules.
Context {A : Type}.
Variable I : World -> Prop.

Lemma hoare_ret (a : A) (R : A -> Prop) : R a -> hoare I (ret a) R.
Proof. intros Ha w Hw. split; assumption. Qed.

Lemma hoare_throw (e : exn) (R : A -> Prop) : hoare I (throw e) R.
Proof. intros w Hw. split; [assumption | exact Logic.I]. Qed.

Lemma hoare_try_catch (c : M A) (h : exn -> M A) (R : A -> Prop) :
  hoare I c R -> (forall e, hoare I (h e) R) ->
  hoare I (try_catch c h) R.
Proof.
  intros Hc Hh w Hw. unfold try_catch.
  specialize (Hc w Hw). destruct (c w) as [w' [e|a]]; simpl in *.
  - apply Hh. tauto.
  - exact Hc.
Qed.

Lemma hoare_try_finally (c : M A) (f : M unit) (R : A -> Prop) :
  hoare I c R -> hoare I f (fun _ => True) ->
  hoare I (try_finally c f) R.
Proof.
  intros Hc Hf w Hw. unfold try_finally.
  specialize (Hc w Hw). destruct (c w) as [w' r]; simpl in *.
  destruct Hc as [Hw' Hr]. specialize (Hf w' Hw').
  destruct (f w') as [w'' [e|u]]; simpl in *; tauto.
Qed.


Lemma hoare_await (r : exn + A) (R : A -> Prop) :
  (forall a, r = inr a -> R a) -> hoare I (Home.await r) R.
Proof.
  intros Hr. destruct r as [e|a]; simpl.
  - apply hoare_throw.
  - apply hoare_ret. auto.
Qed.

End Rules.

Lemma hoare_bind {A B} (I : World -> Prop) (c : M A) (k : A -> M B)
    (R : A -> Prop) (R' : B -> Prop) :
  hoare I c R -> (forall a, R a -> hoare I (k a) R') ->
  hoare I (bind c k) R'.
Proof.
  intros Hc Hk w Hw. unfold bind.
  specialize (Hc w Hw). destruct (c w) as [w' [e|a]]; simpl in *.
  - tauto.
  - apply Hk; tauto.
Qed.

Lemma hoare_seq {A B} (I : World -> Prop) (c : M A) (k : A -> M B)
    (R' : B -> Prop) :
  hoare I c (fun _ => True) -> (forall a, hoare I (k a) R') ->
  hoare I (bind c k) R'.
Proof. intros Hc Hk. eapply hoare_bind; [exact Hc | auto]. Qed.

Lemma hoare_emit (P : Event -> Prop) (e : Event) (R : unit -> Prop) :
  P e -> R tt -> hoare (always P) (emit e) R.
Proof.
  intros He Hr w Hw. unfold emit, always in *; simpl.
  split; [|exact Hr]. apply Forall_app. split; [exact Hw|].
  constructor; [exact He | constructor].
Qed.

Lemma hoare_run {A} (P : Event -> Prop) (c : M A) (st : AsyncStorage) :
  hoare (always P) c (fun _ => True) ->
  Forall P (trace (fst (c (fresh st)))).
Proof. intros H. apply (H (fresh st)). constructor. Qed.

(* ===================================================================== *)
(** ** Properties of the speech rate *)
(* ===================================================================== *)

Import Voice.


(** The speech helpers keep any property [P] of events that holds of
    what they emit: a stop, a speech call at the clamped rate, an alert,
    and, for a [speakDirect] without options, a speech call at 1.0. *)
Section Speaking.
Variable state : AppState.
Variable P : Event -> Prop.
Hypothesis P_stop : P SpeechStop.
Hypothesis P_clamped :
  forall text o, rate o = Some (safeRate state) -> P (SpeechSpeak text o).


Hypothesis P_alert : forall t m, P (Alert t m).




Hypothesis P_quiet :
  forall e,
    match e with
    | SpeechSpeak _ _ | OcrRequest _ _ _ => False
    | _ => True
    end -> P e.



Hypothesis P_fixed :
  forall text o, rate o = Some 1.0%Q -> P (SpeechSpeak text o).


End Speaking.

(* ===================================================================== *)
(** ** Properties of camera reading *)
(* ===================================================================== *)



Section Reading.
Variable apiKey : string.
Variable ocrSpace : string -> string -> Home.OcrReply.
Variable manipulateAsync : string -> Q -> exn + option string.
Variable getInfoAsync : string -> exn + Home.FileInfo.
Variable readAsStringAsync : string -> string -> exn + string.

Variable state : AppState.
(** [P]: the events allowed; [G]: the base64 texts allowed in a
    request. *)
Variable P : Event -> Prop.
Variable G : string -> Prop.
Hypothesis P_stop : P SpeechStop.
Hypothesis P_clamped :
  forall text o, rate o = Some (safeRate state) -> P (SpeechSpeak text o).
Hypothesis P_fixed :
  forall text o, rate o = Some 1.0%Q -> P (SpeechSpeak text o).
Hypothesis P_quiet :
  forall e,
    match e with
    | SpeechSpeak _ _ | OcrRequest _ _ _ => False
    | _ => True
    end -> P e.
Hypothesis P_request :
  forall prefix base64 filetype,
    G base64 -> P (OcrRequest prefix base64 filetype).

Ltac quiet := apply hoare_emit; [apply P_quiet|]; exact Logic.I.










End Reading.

(* ===================================================================== *)
(** ** The speech rate, screen by screen *)
(* ===================================================================== *)

Import Scenario.




(* ===================================================================== *)
(** ** The size of what camera reading posts *)
(* ===================================================================== *)









(* ===================================================================== *)
(** ** Concrete runs *)
(* ===================================================================== *)

(** C1, as stated, fails.  Ann logs in and the effect loads her stored
    reminder; then [LOGIN] of Bob is dispatched.  The state that
    reduction returns has Bob as its user and still shows Ann's
    reminder, which is none of the (zero) reminders stored for Bob. *)
Lemma login_switch_shows_previous_reminders :
  let s := appReducer (login_and_reload storageOfAnn initialState userA)
             (LOGIN userB) in
  s = dispatchAll initialState
        [LOGIN userA; SET_REMINDERS [pills]; LOGIN userB] /\
  user s = Some userB /\
  reminders s = [pills] /\
  persisted_reminders storageOfAnn (Some userA) = [pills] /\
  persisted_reminders storageOfAnn (Some userB) = [] /\
  ~ scoped_to_user storageOfAnn s.
Proof.
  cbv zeta.
  assert (E : login_and_reload storageOfAnn initialState userA =
              dispatchAll initialState [LOGIN userA; SET_REMINDERS [pills]]).
  { vm_compute. reflexivity. }
  rewrite E.
  assert (B : persisted_reminders storageOfAnn (Some userB) = []).
  { vm_compute. reflexivity. }
  repeat split; try (vm_compute; reflexivity).
  intros H.
  assert (Hin : In pills (persisted_reminders storageOfAnn (Some userB))).
  { apply H. left. reflexivity. }
  rewrite B in Hin. exact Hin.
Qed.

Lemma reminders_follow_user_witness :
  item_reminders storageOfAnn !! id userA <> Some Malformed /\
  reminders (login_and_reload storageOfAnn initialState userA) = [pills].
Proof.
  assert (H : item_reminders storageOfAnn !! id userA <> Some Malformed).
  { vm_compute. discriminate. }
  split; [exact H|].
  exact (proj1 (proj2 (proj1
    (reminders_follow_user_after_reload storageOfAnn initialState userA H)))).
Defined.



(** Ann's email, in capitals, is taken: the form passes the three
    tests and the sign-up is stopped by the directory. *)
Lemma signup_existing_email_witness :
  directory storageOfAnn = Some [userA; userB] /\
  validateEmail "ANN@Example.com" = true /\
  validatePin "9999" = true /\
  normalized "ANN@Example.com" = email userA /\
  storage (fst (handleSignUp initialState "ANN@Example.com" "9999"
                  "Ann Two" "1700000000000" (fresh storageOfAnn)))
    = storageOfAnn /\
  dispatched
    (trace (fst (handleSignUp initialState "ANN@Example.com" "9999"
                   "Ann Two" "1700000000000" (fresh storageOfAnn)))) = [] /\
  alerts
    (trace (fst (handleSignUp initialState "ANN@Example.com" "9999"
                   "Ann Two" "1700000000000" (fresh storageOfAnn)))) =
    [("Email In Use",
      "This email is already registered. Please sign in.")].
Proof.
  assert (D : directory storageOfAnn = Some [userA; userB])
    by reflexivity.
  assert (E : validateEmail "ANN@Example.com" = true)
    by (vm_compute; reflexivity).
  assert (P : validatePin "9999" = true) by (vm_compute; reflexivity).
  assert (N : normalized "ANN@Example.com" = email userA)
    by (vm_compute; reflexivity).
  split; [exact D|]. split; [exact E|]. split; [exact P|].
  split; [exact N|].
  destruct (signup_existing_email_rejected initialState
              "ANN@Example.com" "9999" "Ann Two" "1700000000000"
              storageOfAnn [userA; userB] D)
    as (H1 & H2 & H3 & _ & _ & H6).
  - exists userA. split; [left; reflexivity | symmetry; exact N].
  - split; [exact H3|]. split; [exact H1|].
    apply H6; [exact E | exact P | vm_compute; discriminate].
Defined.

(** Ann's email with a wrong PIN. *)
Lemma failed_login_witness :
  directory storageOfAnn = Some [userA; userB] /\
  pin userA <> "0000" /\
  dispatched
    (trace (fst (handleLogin initialState "ann@example.com" "0000"
                   "2024-03-03T00:00:00.000Z" (fresh storageOfAnn)))) = [] /\
  storage (fst (handleLogin initialState "ann@example.com" "0000"
                  "2024-03-03T00:00:00.000Z" (fresh storageOfAnn)))
    = storageOfAnn.
Proof.
  assert (D : directory storageOfAnn = Some [userA; userB])
    by reflexivity.
  assert (P : pin userA <> "0000") by discriminate.
  split; [exact D|]. split; [exact P|].
  destruct (failed_login_changes_nothing initialState "ann@example.com"
              "0000" "2024-03-03T00:00:00.000Z" storageOfAnn
              [userA; userB] D)
    as (H1 & _ & H3 & _).
  - right. exists userA. split; [vm_compute; reflexivity | exact P].
  - split; [exact H1 | exact H3].
Defined.

(** C9 on a run: Eve signs up on an empty store.  The user dispatched
    with [LOGIN] and written to the directory has no [joinDate]. *)
Lemma signup_without_joinDate_witness :
  validateEmail "eve@example.com" = true /\
  validatePin "2468" = true /\
  exists newUser,
    dispatched
      (trace (fst (handleSignUp initialState "eve@example.com" "2468"
                     "Eve" "1700000000000" (fresh emptyStorage))))
      = [LOGIN newUser] /\
    item_users
      (storage (fst (handleSignUp initialState "eve@example.com" "2468"
                       "Eve" "1700000000000" (fresh emptyStorage))))
      = Some (Json [newUser]) /\
    joinDate newUser = None.
Proof.
  assert (E : validateEmail "eve@example.com" = true)
    by (vm_compute; reflexivity).
  assert (P : validatePin "2468" = true) by (vm_compute; reflexivity).
  split; [exact E|]. split; [exact P|].
  destruct (signup_user_has_no_joinDate initialState "eve@example.com"
              "2468" "Eve" "1700000000000" emptyStorage [])
    as (newUser & H1 & H2 & _ & _ & H5).
  - reflexivity.
  - exact E.
  - exact P.
  - vm_compute. discriminate.
  - intros u [].
  - exists newUser. split; [exact H1|]. split; [exact H2 | exact H5].
Defined.

Lemma update_reminder_witness :
  appReducer (withSpeed 1.0) (UPDATE_REMINDER walk) = withSpeed 1.0.
Proof.
  apply (proj1 (update_reminder_replaces_matching (withSpeed 1.0) walk)).
  intros r [<-|[]]. discriminate.
Defined.


(** The welcome of the set-up screen hands the stored voice speed over
    as it is: 5.0 stays 5.0, where the clamped speed is 2.0. *)
Lemma setup_welcome_rate_unclamped :
  spoken (trace (fst (Setup.welcome (withSpeed 5.0) (fresh emptyStorage))))
    = [("Welcome to AccessAid! Let's set up your accessibility preferences for the best experience.",
        {| language := None; rate := Some 5.0%Q; pitch := Some 1.0%Q;
           quality := Some "Enhanced" |})] /\
  safeRate (withSpeed 5.0) = 2.0%Q.
Proof. split; vm_compute; reflexivity. Qed.



(* ===================================================================== *)
(** ** Further properties *)
(* ===================================================================== *)

Import Saving Session Language Outcome Profile Observations Cases.

(* ===================================================================== *)
(** ** More properties of the reducer *)
(* ===================================================================== *)

Lemma flip_completed_twice (r : Reminder) :
  flip_completed (flip_completed r) = r.
Proof. destruct r; unfold flip_completed; simpl. now rewrite negb_involutive. Qed.

(** X1. toggling a reminder twice gives the state back, whatever the id
    and however many reminders have it. *)
Theorem toggle_reminder_twice (state : AppState) (rid : string) :
  appReducer (appReducer state (TOGGLE_REMINDER rid)) (TOGGLE_REMINDER rid)
    = state.
Proof.
  destruct state as [u li hs a ve va rs]. simpl. unfold set_reminders. simpl.
  f_equal. rewrite List.map_map.
  induction rs as [|r rs IH]; simpl; [reflexivity|].
  rewrite IH. f_equal.
  destruct (String.eqb (r_id r) rid) eqn:E; simpl.
  - rewrite E. apply flip_completed_twice.
  - rewrite E. reflexivity.
Qed.

Lemma filter_keeps_all {A} (f : A -> bool) (l : list A) :
  (forall a, In a l -> f a = true) -> List.filter f l = l.
Proof.
  induction l as [|a l IH]; simpl; intros H; [reflexivity|].
  rewrite (H a) by (left; reflexivity).
  rewrite IH by (intros b Hb; apply H; right; exact Hb). reflexivity.
Qed.

Lemma filter_sublist {A} (f : A -> bool) (l : list A) :
  sublist (List.filter f l) l.
Proof.
  induction l as [|a l IH]; simpl; [constructor|].
  destruct (f a); [apply sublist_skip | apply sublist_cons]; exact IH.
Qed.

(** X2. [DELETE_REMINDER] removes every reminder with the id and no
    other: the reminders left are those of the list with another id, in
    their order.  It is the identity when no reminder has the id, and
    deleting again changes nothing. *)
Theorem delete_reminder_removes (state : AppState) (rid : string) :
  let s := appReducer state (DELETE_REMINDER rid) in
  (forall r, In r (reminders s) <->
             In r (reminders state) /\ r_id r <> rid) /\
  sublist (reminders s) (reminders state) /\
  appReducer s (DELETE_REMINDER rid) = s /\
  ((forall r, In r (reminders state) -> r_id r <> rid) -> s = state).
Proof.
  cbv zeta. simpl. split; [|split; [|split]].
  - intros r. rewrite filter_In. split; intros [H1 H2]; split; auto.
    + intros E. rewrite E, String.eqb_refl in H2. discriminate.
    + destruct (String.eqb_spec (r_id r) rid); [contradiction|reflexivity].
  - apply filter_sublist.
  - unfold set_reminders. simpl. f_equal.
    apply filter_keeps_all. intros a Ha.
    apply filter_In in Ha. tauto.
  - intros Habs. rewrite filter_keeps_all.
    + apply set_reminders_same.
    + intros a Ha.
      destruct (String.eqb_spec (r_id a) rid) as [E|_]; [|reflexivity].
      destruct (Habs a Ha E).
Qed.

(** X3. adding a reminder whose id is new and deleting that id gives the
    state back. *)
Theorem add_then_delete (state : AppState) (payload : Reminder) :
  (forall r, In r (reminders state) -> r_id r <> r_id payload) ->
  appReducer (appReducer state (ADD_REMINDER payload))
    (DELETE_REMINDER (r_id payload)) = state.
Proof.
  intros Hnew. destruct state as [u li hs a ve va rs].
  simpl in *. unfold set_reminders. simpl. f_equal.
  rewrite List.filter_app. simpl. rewrite String.eqb_refl. simpl.
  rewrite app_nil_r. apply filter_keeps_all. intros r Hr.
  destruct (String.eqb_spec (r_id r) (r_id payload)) as [E|_];
    [|reflexivity].
  destruct (Hnew r Hr E).
Qed.

Lemma consistent_step (state : AppState) (action : AppAction) :
  keeps_session action -> consistent state ->
  consistent (appReducer state action).
Proof.
  unfold consistent. intros Hk Hc.
  destruct action; simpl; try exact Hc; try reflexivity.
  - destruct (user state); exact Hc.
  - destruct Hk as [-> ->]. exact Hc.
Qed.

(** X4. the login flag follows the user.  From the initial state, after
    any sequence of actions in which [LOAD_DATA] carries neither [user]
    nor [isLoggedIn], the state is logged in exactly when it has a
    user. *)
Theorem login_flag_follows_user (actions : list AppAction) :
  Forall keeps_session actions ->
  consistent (dispatchAll initialState actions).
Proof.
  assert (G : forall s, consistent s -> Forall keeps_session actions ->
                        consistent (dispatchAll s actions)).
  { induction actions as [|a l IH]; intros s Hs Hk; [exact Hs|].
    inversion Hk; subst. simpl. apply IH; [|assumption].
    apply consistent_step; assumption. }
  intros Hk. apply G; [reflexivity | exact Hk].
Qed.

Lemma merge_settings_spread (a : AccessibilitySettings)
    (p q : PartialSettings) :
  merge_settings (merge_settings a p) q =
    merge_settings a (spread_settings p q).
Proof.
  destruct a, p, q; unfold merge_settings, spread_settings; simpl.
  f_equal;
    match goal with |- spread ?x _ = _ => destruct x end; reflexivity.
Qed.

(** X5. settings updates compose by key.  Two updates in a row are the
    update by the two payloads spread together, the later one winning
    key by key; the same update twice is that update once; nothing but
    the settings changes. *)
Theorem settings_updates_compose (state : AppState)
    (p q : PartialSettings) :
  appReducer (appReducer state (UPDATE_ACCESSIBILITY_SETTINGS p))
    (UPDATE_ACCESSIBILITY_SETTINGS q) =
  appReducer state (UPDATE_ACCESSIBILITY_SETTINGS (spread_settings p q)) /\
  appReducer (appReducer state (UPDATE_ACCESSIBILITY_SETTINGS p))
    (UPDATE_ACCESSIBILITY_SETTINGS p) =
  appReducer state (UPDATE_ACCESSIBILITY_SETTINGS p) /\
  (forall v, p_voiceSpeed q = Some v ->
     voiceSpeed (accessibilitySettings
       (appReducer (appReducer state (UPDATE_ACCESSIBILITY_SETTINGS p))
          (UPDATE_ACCESSIBILITY_SETTINGS q))) = v) /\
  (p_voiceSpeed q = None ->
     voiceSpeed (accessibilitySettings
       (appReducer (appReducer state (UPDATE_ACCESSIBILITY_SETTINGS p))
          (UPDATE_ACCESSIBILITY_SETTINGS q))) =
     voiceSpeed (accessibilitySettings
       (appReducer state (UPDATE_ACCESSIBILITY_SETTINGS p)))).
Proof.
  simpl. repeat split.
  - now rewrite merge_settings_spread.
  - rewrite merge_settings_spread. f_equal. f_equal.
    destruct p as [[b|] [z|] [v|] [d|]]; reflexivity.
  - intros v Hv. now rewrite Hv.
  - intros Hv. now rewrite Hv.
Qed.

Lemma map_id_replace (payload : Reminder) (l : list Reminder) :
  List.map r_id
    (List.map (fun reminder =>
                 if String.eqb (r_id reminder) (r_id payload)
                 then payload else reminder) l) = List.map r_id l.
Proof.
  induction l as [|r l IH]; simpl; [reflexivity|]. rewrite IH. f_equal.
  destruct (String.eqb_spec (r_id r) (r_id payload)); congruence.
Qed.

Lemma map_id_toggle (rid : string) (l : list Reminder) :
  List.map r_id
    (List.map (fun reminder =>
                 if String.eqb (r_id reminder) rid
                 then flip_completed reminder else reminder) l)
  = List.map r_id l.
Proof.
  induction l as [|r l IH]; simpl; [reflexivity|]. rewrite IH. f_equal.
  destruct (String.eqb (r_id r) rid); reflexivity.
Qed.

Lemma NoDup_map_filter {A B} (g : A -> B) (f : A -> bool) (l : list A) :
  List.NoDup (List.map g l) -> List.NoDup (List.map g (List.filter f l)).
Proof.
  induction l as [|a l IH]; simpl; intros H; [constructor|].
  inversion H as [|x xs Hn Hd]; subst.
  destruct (f a); simpl; [|apply IH; exact Hd].
  constructor; [|apply IH; exact Hd].
  intros Hin. apply Hn. apply in_map_iff in Hin.
  destruct Hin as (b & Hb & Hin). apply filter_In in Hin.
  apply in_map_iff. exists b. tauto.
Qed.

Lemma NoDup_snoc {A} (l : list A) (x : A) :
  List.NoDup (l ++ [x]) <-> List.NoDup l /\ ~ In x l.
Proof.
  induction l as [|a l IH]; simpl.
  - split.
    + intros _. split; [constructor | intros []].
    + intros _. constructor; [intros [] | constructor].
  - split.
    + intros H. inversion H as [|y ys Hn Hd]; subst.
      apply IH in Hd. destruct Hd as [Hd Hx]. split.
      * constructor; [|exact Hd].
        intros Hin. apply Hn. apply in_or_app. left. exact Hin.
      * intros [E|Hin]; [|exact (Hx Hin)].
        subst. apply Hn. apply in_or_app. right. left. reflexivity.
    + intros [H Hx]. inversion H as [|y ys Hn Hd]; subst.
      constructor.
      * intros Hin. apply in_app_or in Hin.
        destruct Hin as [Hin|[E|[]]]; [exact (Hn Hin)|].
        subst. apply Hx. left. reflexivity.
      * apply IH. split; [exact Hd|].
        intros Hin. apply Hx. right. exact Hin.
Qed.

Lemma filter_keeps_none {A} (f : A -> bool) (l : list A) :
  (forall a, In a l -> f a = false) -> List.filter f l = [].
Proof.
  induction l as [|a l IH]; simpl; intros H; [reflexivity|].
  rewrite (H a) by (left; reflexivity).
  apply IH. intros b Hb. apply H. right. exact Hb.
Qed.

(** X6. ids stay unique.  When no two reminders share an id, the same
    holds after an update, a toggle or a delete, and after adding a
    reminder exactly when its id is not in the list; and then an update
    changes at most one reminder. *)
Theorem unique_ids_kept (state : AppState) (payload : Reminder)
    (rid : string) :
  unique_ids state ->
  unique_ids (appReducer state (UPDATE_REMINDER payload)) /\
  unique_ids (appReducer state (TOGGLE_REMINDER rid)) /\
  unique_ids (appReducer state (DELETE_REMINDER rid)) /\
  (unique_ids (appReducer state (ADD_REMINDER payload)) <->
   forall r, In r (reminders state) -> r_id r <> r_id payload) /\
  List.length
    (List.filter (fun r => String.eqb (r_id r) (r_id payload))
       (reminders state)) <= 1.
Proof.
  unfold unique_ids. intros Hu. simpl. split; [|split; [|split; [|split]]].
  - now rewrite map_id_replace.
  - now rewrite map_id_toggle.
  - apply NoDup_map_filter. exact Hu.
  - rewrite List.map_app. simpl. rewrite NoDup_snoc. split.
    + intros [_ H] r Hr E. apply H. rewrite <- E. apply in_map. exact Hr.
    + intros Hnew. split; [exact Hu|].
      intros Hx. apply in_map_iff in Hx.
      destruct Hx as (r & E & Hr). exact (Hnew r Hr E).
  - induction (reminders state) as [|r l IH]; simpl in *; [lia|].
    inversion Hu as [|x xs Hn Hd]; subst.
    destruct (String.eqb_spec (r_id r) (r_id payload)) as [E|_];
      [|apply IH; exact Hd].
    simpl. rewrite filter_keeps_none; [simpl; lia|].
    intros a Ha. destruct (String.eqb_spec (r_id a) (r_id payload)) as [E'|_];
      [|reflexivity].
    exfalso. apply Hn. rewrite E, <- E'. apply in_map. exact Ha.
Qed.

(* ===================================================================== *)
(** ** Properties of saving and of the start of the provider *)
(* ===================================================================== *)

Lemma storage_ext (a b : AsyncStorage) :
  item_user a = item_user b ->
  item_users a = item_users b ->
  item_accessibilitySettings a = item_accessibilitySettings b ->
  item_hasCompletedSetup a = item_hasCompletedSetup b ->
  item_reminders a = item_reminders b ->
  a = b.
Proof. destruct a, b; simpl; intros; subst; reflexivity. Qed.

(** Reading back the settings [saveData] wrote gives the settings. *)
Lemma merge_stringified (a b : AccessibilitySettings) :
  merge_settings b (stringify_settings a) = a.
Proof. destruct a; reflexivity. Qed.

(** What [saveData] leaves in storage, key by key. *)
Lemma saved_keys (st : AsyncStorage) (state : AppState) :
  item_accessibilitySettings (saved st state) =
    Some (Json (stringify_settings (accessibilitySettings state))) /\
  item_hasCompletedSetup (saved st state) =
    Some (Json (hasCompletedSetup state)) /\
  item_user (saved st state) =
    match user state with
    | Some u => Some (Json u)
    | None => item_user st
    end /\
  item_reminders (saved st state) =
    match user state with
    | Some u => <[id u := Json (reminders state)]> (item_reminders st)
    | None => item_reminders st
    end /\
  item_users (saved st state) =
    match user state, item_users st with
    | Some u, None => Some (Json (upsert u []))
    | Some u, Some (Json users) => Some (Json (upsert u users))
    | _, other => other
    end.
Proof.
  unfold saved, saveData, try_catch, bind, getItem, setItem_user,
    setItem_users, setItem_accessibilitySettings,
    setItem_hasCompletedSetup, setItem_reminders, setStorage, fresh.
  destruct (user state) as [u|]; simpl.
  - destruct (item_users st) as [[|users]|]; simpl; repeat split.
  - destruct (item_users st) as [[|users]|]; repeat split.
Qed.

(** Start-up writes at most the stored user, to give it a join date. *)
Lemma loadData_storage (now : string) (w : World) :
  let st := storage w in
  let st' := storage (fst (loadData now w)) in
  item_users st' = item_users st /\
  item_accessibilitySettings st' = item_accessibilitySettings st /\
  item_hasCompletedSetup st' = item_hasCompletedSetup st /\
  item_reminders st' = item_reminders st /\
  item_user st' =
    match item_user st with
    | Some (Json u) =>
        Some (Json (if truthy (joinDate u) then u
                    else with_joinDate u now))
    | other => other
    end.
Proof.
  destruct w as [[iu ius ia ih ir] t]. cbv zeta.
  unfold loadData, try_catch, bind, getItem, setItem_user, setStorage,
    dispatch, console_error, emit; simpl.
  destruct iu as [[|u]|], ia as [[|p]|], ih as [[|b]|]; simpl;
    try destruct (truthy (joinDate u)) eqn:T; simpl;
    rewrite ?T; repeat split; reflexivity.
Qed.

Lemma rehydrate_state (now : string) (st : AsyncStorage) :
  rehydrate now st =
    reload (storage (fst (loadData now (fresh st))))
      (dispatchAll initialState (rehydrated now st)).
Proof.
  unfold rehydrate, settle.
  destruct (loadData_dispatches now (fresh st)) as [Hd _].
  simpl in Hd. rewrite Hd. reflexivity.
Qed.

(** The reload of the reminders changes nothing but the reminders. *)
Lemma reload_frame (st : AsyncStorage) (state : AppState) :
  isLoggedIn (reload st state) = isLoggedIn state /\
  accessibilitySettings (reload st state) = accessibilitySettings state /\
  hasCompletedSetup (reload st state) = hasCompletedSetup state /\
  isVoiceEnabled (reload st state) = isVoiceEnabled state /\
  voiceAnnouncementsEnabled (reload st state)
    = voiceAnnouncementsEnabled state.
Proof.
  unfold reload, settle, loadUserReminders, try_catch, bind, getItem.
  destruct (user state) as [u1|]; simpl; [|repeat split].
  destruct (item_reminders st !! id u1) as [[|l]|]; simpl; repeat split.
Qed.

(** [loadData] is its three reads followed by [loadData_after]. *)
Lemma loadData_reads (now : string) :
  loadData now =
    try_catch
      (userData <- getItem item_user ;;
       settingsData <- getItem item_accessibilitySettings ;;
       setupData <- getItem item_hasCompletedSetup ;;
       loadData_after now userData settingsData setupData)%js
      (fun error => console_error "Error loading data:").
Proof. reflexivity. Qed.

(** What [loadData] and the reload make of what [saveData] wrote, when
    nothing is written in between: every saved slice is read back. *)
Lemma rehydrate_saved (st : AsyncStorage) (state : AppState)
    (u : User) (now : string) :
  user state = Some u ->
  let s := rehydrate now (saved st state) in
  user s = Some (if truthy (joinDate u) then u else with_joinDate u now) /\
  isLoggedIn s = true /\
  accessibilitySettings s = accessibilitySettings state /\
  hasCompletedSetup s = hasCompletedSetup state /\
  reminders s = reminders state /\
  isVoiceEnabled s = false /\
  voiceAnnouncementsEnabled s = true.
Proof.
  intros Hu. cbv zeta. rewrite rehydrate_state.
  destruct (saved_keys st state) as (Ka & Kc & Ku & Kr & _).
  rewrite Hu in Ku, Kr.
  destruct (loadData_storage now (fresh (saved st state)))
    as (_ & _ & _ & Lr & _). simpl in Lr.
  set (s0 := dispatchAll initialState (rehydrated now (saved st state))).
  assert (E0 : s0 =
    {| user := Some (if truthy (joinDate u) then u
                     else with_joinDate u now);
       isLoggedIn := true;
       hasCompletedSetup := hasCompletedSetup state;
       accessibilitySettings := accessibilitySettings state;
       isVoiceEnabled := false;
       voiceAnnouncementsEnabled := true;
       reminders := [] |}).
  { unfold s0, rehydrated, slice. rewrite Ku, Ka, Kc. simpl.
    rewrite merge_stringified. reflexivity. }
  assert (Hid : id (if truthy (joinDate u) then u
                    else with_joinDate u now) = id u).
  { destruct (truthy (joinDate u)); reflexivity. }
  split.
  { rewrite reload_user, E0. reflexivity. }
  assert (R : reminders (reload (storage (fst (loadData now
                 (fresh (saved st state))))) s0) = reminders state).
  { rewrite reload_reminders, E0. simpl. rewrite Hid, Lr, Kr.
    rewrite lookup_insert_eq. reflexivity. }
  assert (F : forall st' s1,
            isLoggedIn (reload st' s1) = isLoggedIn s1 /\
            accessibilitySettings (reload st' s1) = accessibilitySettings s1 /\
            hasCompletedSetup (reload st' s1) = hasCompletedSetup s1 /\
            isVoiceEnabled (reload st' s1) = isVoiceEnabled s1 /\
            voiceAnnouncementsEnabled (reload st' s1)
              = voiceAnnouncementsEnabled s1).
  { intros st' s1.
    unfold reload, settle, loadUserReminders, try_catch, bind, getItem.
    destruct (user s1) as [u1|]; simpl; [|repeat split].
    destruct (item_reminders st' !! id u1) as [[|l]|]; simpl;
      repeat split. }
  destruct (F (storage (fst (loadData now (fresh (saved st state))))) s0)
    as (F1 & F2 & F3 & F4 & F5).
  rewrite F1, F2, F3, F4, F5, R, E0. simpl.
  repeat split; reflexivity.
Qed.

(** The save of the first render touches neither the user, nor the
    directory, nor the reminders. *)
Lemma saved_initial (st : AsyncStorage) :
  saved st initialState =
    {| item_user := item_user st;
       item_users := item_users st;
       item_accessibilitySettings :=
         Some (Json (stringify_settings
                       (accessibilitySettings initialState)));
       item_hasCompletedSetup := Some (Json false);
       item_reminders := item_reminders st |}.
Proof.
  destruct (saved_keys st initialState) as (Ka & Kc & Ku & Kr & Kd).
  apply storage_ext; try assumption.
Qed.

(** The first render reads what its own save wrote: serving the
    requests in the order they are issued gives what [loadData] reads
    once the save of the initial state is done. *)
Lemma mount_rehydrate (now : string) (st : AsyncStorage) :
  mount now st = rehydrate now (saved st initialState).
Proof.
  unfold mount, rehydrate. rewrite saved_initial.
  destruct st as [iu ius ia ih ir].
  unfold first_render, loadData, loadData_after, try_catch, bind, getItem,
    setItem_accessibilitySettings, setItem_hasCompletedSetup, setItem_user,
    setStorage, dispatch, console_error, emit, fresh; simpl.
  destruct iu as [[|u]|]; simpl; try destruct (truthy (joinDate u));
    reflexivity.
Qed.

(** X7. what a restart keeps of what was saved.  [saveData] writes the
    user, the settings, the set-up flag and the reminders, but the
    provider reads back the user and the reminders only.  At the start
    the save of the first render, on the initial state, writes the
    default settings and the flag [false] before [loadData] reads these
    two keys: the state the provider reaches has the saved user (given
    a join date if it had none), logged in, with the saved reminders,
    and the default settings and the set-up flag off whatever was
    saved, and indeed whatever storage holds. *)
Theorem restart_keeps_user_and_reminders (st : AsyncStorage)
    (state : AppState) (u : User) (now : string) :
  user state = Some u ->
  let s := mount now (saved st state) in
  (user s = Some (if truthy (joinDate u) then u else with_joinDate u now) /\
   isLoggedIn s = true /\
   reminders s = reminders state /\
   accessibilitySettings s = accessibilitySettings initialState /\
   hasCompletedSetup s = false /\
   isVoiceEnabled s = false /\
   voiceAnnouncementsEnabled s = true) /\
  (forall st0 : AsyncStorage,
     accessibilitySettings (mount now st0)
       = accessibilitySettings initialState /\
     hasCompletedSetup (mount now st0) = false /\
     item_accessibilitySettings
       (storage (fst (first_render now (fresh st0))))
       = Some (Json (stringify_settings
                       (accessibilitySettings initialState))) /\
     item_hasCompletedSetup
       (storage (fst (first_render now (fresh st0))))
       = Some (Json false)).
Proof.
  intros Hu. cbv zeta. split.
  - rewrite mount_rehydrate.
    set (state0 :=
      {| user := user state; isLoggedIn := isLoggedIn state;
         hasCompletedSetup := false;
         accessibilitySettings := accessibilitySettings initialState;
         isVoiceEnabled := isVoiceEnabled state;
         voiceAnnouncementsEnabled := voiceAnnouncementsEnabled state;
         reminders := reminders state |}).
    assert (E : saved (saved st state) initialState = saved st state0).
    { rewrite saved_initial.
      destruct (saved_keys st state) as (_ & _ & Ku & Kr & Kd).
      destruct (saved_keys st state0) as (Ka0 & Kc0 & Ku0 & Kr0 & Kd0).
      apply storage_ext; cbn [item_user item_users
        item_accessibilitySettings item_hasCompletedSetup item_reminders].
      - now rewrite Ku, Ku0.
      - now rewrite Kd, Kd0.
      - now rewrite Ka0.
      - now rewrite Kc0.
      - now rewrite Kr, Kr0. }
    rewrite E.
    destruct (rehydrate_saved st state0 u now Hu)
      as (H1 & H2 & H3 & H4 & H5 & H6 & H7).
    repeat split; assumption.
  - intros st0. rewrite mount_rehydrate, saved_initial.
    destruct (reload_frame
                (storage (fst (loadData now (fresh
                   {| item_user := item_user st0;
                      item_users := item_users st0;
                      item_accessibilitySettings :=
                        Some (Json (stringify_settings
                                      (accessibilitySettings initialState)));
                      item_hasCompletedSetup := Some (Json false);
                      item_reminders := item_reminders st0 |}))))
                (settle initialState
                   (fst (loadData now (fresh
                   {| item_user := item_user st0;
                      item_users := item_users st0;
                      item_accessibilitySettings :=
                        Some (Json (stringify_settings
                                      (accessibilitySettings initialState)));
                      item_hasCompletedSetup := Some (Json false);
                      item_reminders := item_reminders st0 |})))))
      as (_ & F2 & F3 & _).
    unfold rehydrate. cbv zeta. rewrite F2, F3.
    destruct st0 as [iu ius ia ih ir].
    unfold settle, first_render, loadData, loadData_after, try_catch, bind,
      getItem, setItem_accessibilitySettings, setItem_hasCompletedSetup,
      setItem_user, setStorage, dispatch, console_error, emit, fresh; simpl.
    destruct iu as [[|u0]|]; simpl;
      try destruct (truthy (joinDate u0)); simpl; repeat split; reflexivity.
Qed.

(** X8. logging out is not saved.  [saveData] on a state without a user
    leaves the stored user and reminders where they are: from the
    storage it leaves after a logout, [loadData] logs the same user in
    again, with the stored reminders, the default settings the logout
    reset to and the set-up flag off. *)
Theorem logout_is_not_saved (st : AsyncStorage) (state : AppState)
    (u : User) (now : string) :
  user state = Some u ->
  let st' := saved (saved st state) (appReducer state LOGOUT) in
  item_user st' = Some (Json u) /\
  user (rehydrate now st') =
    Some (if truthy (joinDate u) then u else with_joinDate u now) /\
  isLoggedIn (rehydrate now st') = true /\
  reminders (rehydrate now st') = reminders state /\
  accessibilitySettings (rehydrate now st') =
    accessibilitySettings initialState /\
  hasCompletedSetup (rehydrate now st') = false.
Proof.
  intros Hu. cbv zeta.
  destruct (saved_keys st state) as (_ & _ & Ku & Kr & _).
  rewrite Hu in Ku, Kr.
  change (appReducer state LOGOUT) with initialState.
  destruct (saved_keys (saved st state) initialState)
    as (Ka' & Kc' & Ku' & Kr' & _).
  change (user initialState) with (@None User) in Ku', Kr'.
  cbv beta iota in Ku', Kr'. rewrite Ku in Ku'. rewrite Kr in Kr'.
  split; [exact Ku'|].
  set (st' := saved (saved st state) initialState) in *.
  rewrite rehydrate_state.
  destruct (loadData_storage now (fresh st')) as (_ & _ & _ & Lr & _).
  change (storage (fresh st')) with st' in Lr.
  set (s0 := dispatchAll initialState (rehydrated now st')).
  assert (E0 : s0 =
    {| user := Some (if truthy (joinDate u) then u
                     else with_joinDate u now);
       isLoggedIn := true;
       hasCompletedSetup := false;
       accessibilitySettings := accessibilitySettings initialState;
       isVoiceEnabled := false;
       voiceAnnouncementsEnabled := true;
       reminders := [] |}).
  { unfold s0, rehydrated, slice. rewrite Ku', Ka', Kc'. reflexivity. }
  assert (Hid : id (if truthy (joinDate u) then u
                    else with_joinDate u now) = id u).
  { destruct (truthy (joinDate u)); reflexivity. }
  split; [rewrite reload_user, E0; reflexivity|].
  split.
  { unfold reload, settle, loadUserReminders, try_catch, bind, getItem.
    rewrite E0. simpl.
    destruct (item_reminders _ !! _) as [[|l]|]; reflexivity. }
  split.
  { rewrite reload_reminders, E0.
    cbn [user]. rewrite Hid, Lr, Kr'.
    rewrite lookup_insert_eq. reflexivity. }
  split;
    unfold reload, settle, loadUserReminders, try_catch, bind, getItem;
    rewrite E0; simpl;
    destruct (item_reminders _ !! _) as [[|l]|]; reflexivity.
Qed.

(** The directory and its first entry with a given id. *)
Lemma findIndex_split {A} (f : A -> bool) (l : list A) (i : nat) :
  findIndex f l = Some i ->
  exists l1 x l2,
    l = (l1 ++ x :: l2)%list /\ List.length l1 = i /\ f x = true /\
    List.existsb f l1 = false.
Proof.
  revert i. induction l as [|a l IH]; intros i; simpl; [discriminate|].
  destruct (f a) eqn:Fa.
  - intros [= <-]. exists [], a, l. repeat split. exact Fa.
  - destruct (findIndex f l) as [j|]; [|discriminate].
    intros [= <-]. destruct (IH j eq_refl) as (l1 & x & l2 & -> & <- & Fx & N).
    exists (a :: l1), x, l2. simpl. rewrite Fa, N. repeat split. exact Fx.
Qed.

Lemma findIndex_none {A} (f : A -> bool) (l : list A) :
  findIndex f l = None <-> List.existsb f l = false.
Proof.
  induction l as [|a l IH]; simpl; [tauto|].
  destruct (f a); simpl; [split; discriminate|].
  destruct (findIndex f l) as [j|]; split; intros H;
    try discriminate; try reflexivity.
  - apply IH in H. discriminate.
  - apply IH. reflexivity.
Qed.

Lemma findIndex_first {A} (f : A -> bool) (l1 l2 : list A) (x : A) :
  List.existsb f l1 = false -> f x = true ->
  findIndex f (l1 ++ x :: l2) = Some (List.length l1).
Proof.
  intros N Fx. induction l1 as [|a l1 IH]; simpl in *.
  - now rewrite Fx.
  - apply orb_false_iff in N. destruct N as [Fa N].
    rewrite Fa, (IH N). reflexivity.
Qed.

Lemma upsert_found (u x : User) (l1 l2 : list User) :
  List.existsb (fun y => String.eqb (id y) (id u)) l1 = false ->
  String.eqb (id x) (id u) = true ->
  upsert u (l1 ++ x :: l2) = (l1 ++ spread_user x u :: l2)%list.
Proof.
  intros N Fx. unfold upsert.
  rewrite (findIndex_first _ l1 l2 x N Fx).
  rewrite list_lookup_middle by reflexivity.
  clear N. induction l1 as [|a l1 IH]; simpl; [reflexivity|].
  f_equal. exact IH.
Qed.

Lemma upsert_new (u : User) (l : list User) :
  List.existsb (fun y => String.eqb (id y) (id u)) l = false ->
  upsert u l = u :: l.
Proof.
  intros N. unfold upsert. apply findIndex_none in N. now rewrite N.
Qed.

(** The two shapes of the directory after an upsert. *)
Lemma upsert_cases (u : User) (l : list User) :
  (List.existsb (fun y => String.eqb (id y) (id u)) l = false /\
   upsert u l = u :: l) \/
  (exists l1 x l2,
     l = (l1 ++ x :: l2)%list /\
     List.existsb (fun y => String.eqb (id y) (id u)) l1 = false /\
     id x = id u /\
     upsert u l = (l1 ++ spread_user x u :: l2)%list).
Proof.
  destruct (findIndex (fun y => String.eqb (id y) (id u)) l) as [i|] eqn:E.
  - right. destruct (findIndex_split _ _ _ E) as (l1 & x & l2 & -> & _ & Fx & N).
    exists l1, x, l2. repeat split; try assumption.
    + apply String.eqb_eq. exact Fx.
    + apply upsert_found; assumption.
  - left. apply findIndex_none in E. split; [exact E|].
    apply upsert_new. exact E.
Qed.

Lemma existsb_none {A} (f : A -> bool) (l : list A) :
  List.existsb f l = false <-> (forall y, In y l -> f y = false).
Proof.
  induction l as [|a l IH]; simpl.
  - split; [intros _ y [] | reflexivity].
  - rewrite orb_false_iff, IH. split.
    + intros [Fa N] y [<-|Hy]; auto.
    + intros H. split; [apply H; now left | intros y Hy; apply H; now right].
Qed.

Lemma no_id_existsb (u : User) (l : list User) :
  (forall y, In y l -> id y <> id u) <->
  List.existsb (fun y => String.eqb (id y) (id u)) l = false.
Proof.
  rewrite existsb_none. split; intros H y Hy.
  - apply String.eqb_neq. exact (H y Hy).
  - apply String.eqb_neq. exact (H y Hy).
Qed.

(** X9. the users directory after [saveData].  When no entry of the
    directory has the id of the saved user, the user is put at the head
    and the directory is otherwise as it was.  When there is one, the
    first such entry is replaced, at its place, by the spread of the
    stored entry and the user: the keys of the user win, the keys it
    lacks keep what the entry stored; every other entry, a later one
    with the same id included, is as it was.  Every directory is in one
    of the two cases.  A directory that does not parse is left alone,
    and the other keys are saved all the same. *)
Theorem saveData_upserts_directory (st : AsyncStorage) (state : AppState)
    (u : User) :
  user state = Some u ->
  (forall users,
     directory st = Some users ->
     (forall y, In y users -> id y <> id u) ->
     directory (saved st state) = Some (u :: users)) /\
  (forall l1 x l2,
     directory st = Some (l1 ++ x :: l2)%list ->
     (forall y, In y l1 -> id y <> id u) ->
     id x = id u ->
     directory (saved st state) = Some (l1 ++ spread_user x u :: l2)%list /\
     spread_user x u =
       {| id := id u; email := email u; pin := pin u; name := name u;
          joinDate := match joinDate u with
                      | Some v => Some v | None => joinDate x end;
          bio := match bio u with
                 | Some v => Some v | None => bio x end;
          weight := match weight u with
                    | Some v => Some v | None => weight x end;
          height := match height u with
                    | Some v => Some v | None => height x end;
          bloodGroup := match bloodGroup u with
                        | Some v => Some v | None => bloodGroup x end;
          allergies := match allergies u with
                       | Some v => Some v | None => allergies x end;
          interests := match interests u with
                       | Some v => Some v | None => interests x end;
          profilePhoto := match profilePhoto u with
                          | Some v => Some v | None => profilePhoto x end
       |}) /\
  (forall users,
     directory st = Some users ->
     (forall y, In y users -> id y <> id u) \/
     (exists l1 x l2,
        users = (l1 ++ x :: l2)%list /\
        (forall y, In y l1 -> id y <> id u) /\ id x = id u)) /\
  (item_users st = Some Malformed ->
   item_users (saved st state) = Some Malformed /\
   item_user (saved st state) = Some (Json u) /\
   item_accessibilitySettings (saved st state) =
     Some (Json (stringify_settings (accessibilitySettings state)))).
Proof.
  intros Hu.
  destruct (saved_keys st state) as (Ka & _ & Ku & _ & Kd).
  rewrite Hu in Ku, Kd.
  assert (D : forall users, directory st = Some users ->
                directory (saved st state) = Some (upsert u users)).
  { intros users Hdir. unfold directory in *. rewrite Kd.
    destruct (item_users st) as [[|l]|]; congruence. }
  split; [|split; [|split]].
  - intros users Hdir Hn. rewrite (D users Hdir).
    apply no_id_existsb in Hn. now rewrite (upsert_new u users Hn).
  - intros l1 x l2 Hdir Hn Hx. split; [|reflexivity].
    rewrite (D _ Hdir). apply no_id_existsb in Hn.
    rewrite (upsert_found u x l1 l2 Hn); [reflexivity|].
    apply String.eqb_eq. exact Hx.
  - intros users _.
    destruct (upsert_cases u users)
      as [[N _]|(l1 & x & l2 & E & N & Hx & _)].
    + left. apply no_id_existsb. exact N.
    + right. exists l1, x, l2. split; [exact E|].
      split; [apply no_id_existsb; exact N | exact Hx].
  - intros Hm. rewrite Hm in Kd. repeat split; assumption.
Qed.

Lemma spread_user_twice (x u : User) :
  spread_user (spread_user x u) u = spread_user x u.
Proof.
  destruct x, u; unfold spread_user; simpl.
  f_equal; match goal with |- spread_opt ?a _ = _ => destruct a end;
    reflexivity.
Qed.

Lemma spread_user_self (u : User) : spread_user u u = u.
Proof.
  destruct u; unfold spread_user; simpl.
  f_equal; match goal with |- spread_opt ?a _ = _ => destruct a end;
    reflexivity.
Qed.

Lemma upsert_twice (u : User) (l : list User) :
  upsert u (upsert u l) = upsert u l.
Proof.
  assert (Hu' : String.eqb (id u) (id u) = true) by apply String.eqb_refl.
  destruct (upsert_cases u l) as [[N ->]|(l1 & x & l2 & -> & N & Hx & ->)].
  - change (u :: l) with ([] ++ u :: l)%list at 1.
    rewrite (upsert_found u u [] l); [|reflexivity|exact Hu'].
    simpl. now rewrite spread_user_self.
  - rewrite upsert_found; [|exact N|exact Hu'].
    now rewrite spread_user_twice.
Qed.

(** X10. saving the same state again changes nothing.  The effect runs
    on every change of the state; a second run on an unchanged state
    leaves storage, the directory included, as the first run left it. *)
Theorem saveData_twice (st : AsyncStorage) (state : AppState) :
  saved (saved st state) state = saved st state.
Proof.
  destruct (saved_keys st state) as (Ka & Kc & Ku & Kr & Kd).
  destruct (saved_keys (saved st state) state)
    as (Ka' & Kc' & Ku' & Kr' & Kd').
  apply storage_ext.
  - rewrite Ku', Ku. destruct (user state); reflexivity.
  - rewrite Kd', Kd.
    destruct (user state) as [u|]; [|destruct (item_users st) as [[|l]|];
                                      reflexivity].
    destruct (item_users st) as [[|l]|]; try reflexivity;
      now rewrite upsert_twice.
  - now rewrite Ka', Ka.
  - now rewrite Kc', Kc.
  - rewrite Kr', Kr. destruct (user state) as [u|]; [|reflexivity].
    apply insert_insert_eq.
Qed.

(** X11. start-up repairs the stored user and nothing else.  [loadData]
    leaves every key but [user] as it is.  A stored user that parses
    and has a join date is left as it is; one that has none is stored
    again with the time of this start as its join date and every other
    key as it was.  An absent user, or one that does not parse, is left
    alone.  Once repaired, a later start writes nothing. *)
Theorem loadData_persists_join_date (now later : string)
    (st : AsyncStorage) :
  now <> "" ->
  let st' := storage (fst (loadData now (fresh st))) in
  (item_users st' = item_users st /\
   item_accessibilitySettings st' = item_accessibilitySettings st /\
   item_hasCompletedSetup st' = item_hasCompletedSetup st /\
   item_reminders st' = item_reminders st) /\
  (forall u, item_user st = Some (Json u) ->
     (truthy (joinDate u) = true -> item_user st' = Some (Json u)) /\
     (truthy (joinDate u) = false ->
      item_user st' =
        Some (Json
          {| id := id u; email := email u; pin := pin u; name := name u;
             joinDate := Some now;
             bio := bio u; weight := weight u; height := height u;
             bloodGroup := bloodGroup u; allergies := allergies u;
             interests := interests u;
             profilePhoto := profilePhoto u |})) /\
     (exists u', item_user st' = Some (Json u') /\
                 truthy (joinDate u') = true)) /\
  (item_user st = None \/ item_user st = Some Malformed ->
   item_user st' = item_user st) /\
  ((forall u, item_user st = Some (Json u) ->
               truthy (joinDate u) = true) -> st' = st) /\
  storage (fst (loadData later (fresh st'))) = st'.
Proof.
  intros Hnow. cbv zeta.
  destruct (loadData_storage now (fresh st)) as (L1 & L2 & L3 & L4 & L5).
  simpl in L1, L2, L3, L4, L5.
  assert (Tnow : truthy (Some now) = true).
  { simpl. destruct (String.eqb_spec now ""); [contradiction|reflexivity]. }
  split; [repeat split; assumption|]. split; [|split; [|split]].
  - intros u Hu. rewrite Hu in L5.
    destruct (truthy (joinDate u)) eqn:T.
    + split; [intros _; exact L5|]. split; [discriminate|].
      exists u. split; [exact L5 | exact T].
    + split; [discriminate|]. split; [intros _; exact L5|].
      eexists. split; [exact L5 | exact Tnow].
  - intros [E|E]; rewrite L5, E; reflexivity.
  - intros Hn. apply storage_ext; try assumption.
    rewrite L5. destruct (item_user st) as [[|u]|]; try reflexivity.
    now rewrite (Hn u eq_refl).
  - set (st' := storage (fst (loadData now (fresh st)))) in *.
    destruct (loadData_storage later (fresh st'))
      as (M1 & M2 & M3 & M4 & M5).
    simpl in M1, M2, M3, M4, M5.
    apply storage_ext; try assumption.
    rewrite M5, L5. destruct (item_user st) as [[|u]|]; try reflexivity.
    destruct (truthy (joinDate u)) eqn:T; [now rewrite T|].
    simpl. destruct (String.eqb_spec now ""); [contradiction|reflexivity].
Qed.

(* ===================================================================== *)
(** ** What the regular expressions accept *)
(* ===================================================================== *)

Lemma append_cons (c : ascii) (s t : string) :
  String c s ++ t = String c (s ++ t).
Proof. reflexivity. Qed.

Lemma append_nil_l (t : string) : "" ++ t = t.
Proof. reflexivity. Qed.

Lemma append_is_nil (a b : string) : a ++ b = "" -> a = "" /\ b = "".
Proof.
  destruct a; [rewrite append_nil_l; tauto|].
  rewrite append_cons. discriminate.
Qed.

Lemma nullable_accepts (r : regex) :
  nullable r = true <-> accepts r "".
Proof.
  induction r as [| |p|r IHr s IHs|r IHr s IHs|r IHr]; simpl.
  - split; [discriminate | intros H; inversion H].
  - split; [constructor | reflexivity].
  - split; [discriminate | intros H; inversion H].
  - rewrite andb_true_iff, IHr, IHs. split.
    + intros [H1 H2]. change "" with ("" ++ ""). now constructor.
    + intros H. inversion H as [| |r' s' x y Hx Hy E| | | |]; subst.
      match goal with E : _ ++ _ = "" |- _ =>
        apply append_is_nil in E; destruct E; subst end. tauto.
  - rewrite orb_true_iff, IHr, IHs. split.
    + intros [H|H]; [now apply accepts_alt_l | now apply accepts_alt_r].
    + intros H. inversion H; subst; tauto.
  - split; [constructor | reflexivity].
Qed.

Lemma deriv_sound (r : regex) :
  forall c s, accepts (deriv c r) s -> accepts r (String c s).
Proof.
  induction r as [| |p|r IHr t IHt|r IHr t IHt|r IHr]; intros c s H;
    simpl in H.
  - inversion H.
  - inversion H.
  - destruct (p c) eqn:E; inversion H; subst. now constructor.
  - destruct (nullable r) eqn:N.
    + inversion H as [| | |r' s' x Hx|r' s' x Hx| |]; subst.
      * inversion Hx as [| |r' s' x y Hx1 Hx2| | | |]; subst.
        change (String c (x ++ y)) with (String c x ++ y).
        constructor; [apply IHr; exact Hx1 | exact Hx2].
      * change (String c s) with ("" ++ String c s).
        constructor; [apply nullable_accepts; exact N | apply IHt; exact Hx].
    + inversion H as [| |r' s' x y Hx1 Hx2| | | |]; subst.
      change (String c (x ++ y)) with (String c x ++ y).
      constructor; [apply IHr; exact Hx1 | exact Hx2].
  - inversion H; subst; [apply accepts_alt_l | apply accepts_alt_r]; auto.
  - inversion H as [| |r' s' x y Hx1 Hx2| | | |]; subst.
    change (String c (x ++ y)) with (String c x ++ y).
    constructor; [apply IHr; exact Hx1 | exact Hx2].
Qed.

Lemma deriv_complete (r : regex) (t : string) :
  accepts r t -> forall c s, t = String c s -> accepts (deriv c r) s.
Proof.
  induction 1 as [|p a Pa|r s x y Hx IHx Hy IHy|r s x Hx IHx|r s x Hx IHx
                  |r|r x y Hx IHx Hy IHy]; intros c s' E; simpl.
  - discriminate.
  - injection E as <- <-. rewrite Pa. constructor.
  - destruct x as [|a x]; [rewrite append_nil_l in E|rewrite append_cons in E].
    + assert (N : nullable r = true) by (apply nullable_accepts; exact Hx).
      rewrite N. apply accepts_alt_r. apply IHy. exact E.
    + injection E as <- <-.
      assert (D : accepts (Cat (deriv a r) s) (x ++ y)).
      { constructor; [apply IHx; reflexivity | exact Hy]. }
      destruct (nullable r); [apply accepts_alt_l|]; exact D.
  - apply accepts_alt_l. apply IHx. exact E.
  - apply accepts_alt_r. apply IHx. exact E.
  - discriminate.
  - destruct x as [|a x]; [rewrite append_nil_l in E|rewrite append_cons in E].
    + apply (IHy c s' E).
    + injection E as <- <-.
      constructor; [apply IHx; reflexivity | exact Hy].
Qed.

(** The matcher decides the language. *)
Lemma matches_accepts (s : string) :
  forall r, matches r s = true <-> accepts r s.
Proof.
  induction s as [|c s IH]; intros r; simpl.
  - apply nullable_accepts.
  - rewrite IH. split.
    + apply deriv_sound.
    + intros H. apply (deriv_complete r _ H c s eq_refl).
Qed.

Lemma accepts_class_inv (p : ascii -> bool) (s : string) :
  accepts (Class p) s -> exists c, s = String c "" /\ p c = true.
Proof. intros H. inversion H; subst. eauto. Qed.

Lemma accepts_star_class (p : ascii -> bool) (s : string) :
  accepts (Star (Class p)) s <-> all_chars p s = true.
Proof.
  split.
  - intros H. remember (Star (Class p)) as r eqn:E.
    induction H as [| | | | | r | r x y Hx _ Hy IHy]; try discriminate.
    + reflexivity.
    + injection E as ->. apply accepts_class_inv in Hx.
      destruct Hx as (c & -> & Pc). rewrite append_cons, append_nil_l.
      simpl. rewrite Pc. now apply IHy.
  - induction s as [|c s IH]; simpl; intros H.
    + constructor.
    + apply andb_true_iff in H. destruct H as [Pc Hs].
      change (String c s) with (String c "" ++ s).
      constructor; [now constructor | now apply IH].
Qed.

Lemma accepts_plus_class (p : ascii -> bool) (s : string) :
  accepts (Plus (Class p)) s <-> s <> "" /\ all_chars p s = true.
Proof.
  unfold Plus. split.
  - intros H. inversion H as [| |r' s' x y Hx Hy| | | |]; subst.
    apply accepts_class_inv in Hx. destruct Hx as (c & -> & Pc).
    apply accepts_star_class in Hy. rewrite append_cons, append_nil_l.
    simpl. rewrite Pc, Hy.
    split; [discriminate | reflexivity].
  - intros [Hne H]. destruct s as [|c s]; [contradiction|].
    simpl in H. apply andb_true_iff in H. destruct H as [Pc Hs].
    change (String c s) with (String c "" ++ s).
    constructor; [now constructor | now apply accepts_star_class].
Qed.

Lemma accepts_cat_inv (r t : regex) (s : string) :
  accepts (Cat r t) s <-> exists x y, s = x ++ y /\ accepts r x /\ accepts t y.
Proof.
  split.
  - intros H. inversion H; subst. eauto.
  - intros (x & y & -> & Hx & Hy). now constructor.
Qed.

Lemma accepts_chr (a : ascii) (s : string) :
  accepts (chr a) s <-> s = String a "".
Proof.
  unfold chr. split.
  - intros H. apply accepts_class_inv in H. destruct H as (c & -> & E).
    apply Ascii.eqb_eq in E. now subst.
  - intros ->. constructor. apply Ascii.eqb_refl.
Qed.

(** X12. the PIN test.  [validatePin] accepts exactly the strings of four
    characters that are all digits. *)
Theorem validatePin_four_digits (pin : string) :
  validatePin pin = true <->
  String.length pin = 4 /\ all_chars is_digit pin = true.
Proof.
  unfold validatePin, pinRegex. rewrite matches_accepts.
  rewrite !accepts_cat_inv. split.
  - intros (a & r1 & -> & Ha & H1).
    apply accepts_cat_inv in H1. destruct H1 as (b & r2 & -> & Hb & H2).
    apply accepts_cat_inv in H2. destruct H2 as (c & d & -> & Hc & Hd).
    apply accepts_class_inv in Ha, Hb, Hc, Hd.
    destruct Ha as (a' & -> & Pa), Hb as (b' & -> & Pb),
             Hc as (c' & -> & Pc), Hd as (d' & -> & Pd).
    rewrite !append_cons, !append_nil_l.
    simpl. rewrite Pa, Pb, Pc, Pd. split; reflexivity.
  - intros [Hl Hd].
    destruct pin as [|a [|b [|c [|d [|e p]]]]]; try discriminate.
    simpl in Hd. rewrite !andb_true_iff in Hd.
    destruct Hd as (Pa & Pb & Pc & Pd & _).
    exists (String a ""), (String b (String c (String d ""))).
    split; [reflexivity|]. split; [now constructor|].
    apply accepts_cat_inv.
    exists (String b ""), (String c (String d "")).
    split; [reflexivity|]. split; [now constructor|].
    apply accepts_cat_inv.
    exists (String c ""), (String d "").
    split; [reflexivity|]. split; now constructor.
Qed.

Lemma email_shape (email : string) :
  validateEmail email = true <->
  exists a b c, email = a ++ "@" ++ b ++ "." ++ c /\
                word a /\ word b /\ word c.
Proof.
  unfold validateEmail, emailRegex, word. rewrite matches_accepts. split.
  - intros H.
    apply accepts_cat_inv in H. destruct H as (a & r1 & -> & Ha & H).
    apply accepts_cat_inv in H. destruct H as (at_ & r2 & -> & Hat & H).
    apply accepts_cat_inv in H. destruct H as (b & r3 & -> & Hb & H).
    apply accepts_cat_inv in H. destruct H as (dot & c & -> & Hdot & Hc).
    apply accepts_chr in Hat, Hdot. subst.
    apply accepts_plus_class in Ha, Hb, Hc.
    exists a, b, c. repeat split; tauto.
  - intros (a & b & c & -> & Ha & Hb & Hc).
    apply accepts_plus_class in Ha, Hb, Hc.
    constructor; [exact Ha|].
    change ("@" ++ b ++ "." ++ c) with (String "@" "" ++ (b ++ "." ++ c)).
    constructor; [now apply accepts_chr|].
    constructor; [exact Hb|].
    change ("." ++ c) with (String "." "" ++ c).
    constructor; [now apply accepts_chr | exact Hc].
Qed.

(** X13. the email test.  On the strings of the model (every code unit
    below 256), [validateEmail] accepts exactly the strings [a@b.c]
    where [a], [b] and [c] are non-empty and contain no [@] and no
    white space of the class [\s], the no-break space included (they
    may contain dots). *)
Theorem validateEmail_shape (email : string) :
  validateEmail email = true <->
  exists a b c, email = a ++ "@" ++ b ++ "." ++ c /\
                word a /\ word b /\ word c.
Proof. apply email_shape. Qed.

(** A no-break space is white space for the test and for [trim], and
    the capitals of the Latin-1 supplement have a lower case. *)
Example no_break_space_is_white_space :
  validateEmail ("a" ++ String (ascii_of_nat 160) "b@c.d") = false /\
  trim (String (ascii_of_nat 160) "ann" ++ String (ascii_of_nat 160) "")
    = "ann" /\
  toLowerCase (String (ascii_of_nat 201) "VE") =
    String (ascii_of_nat 233) "ve" /\
  toLowerCase (String (ascii_of_nat 215) "") = String (ascii_of_nat 215) "".
Proof. repeat split; vm_compute; reflexivity. Qed.

(* ===================================================================== *)
(** ** More properties of the login screen *)
(* ===================================================================== *)

Lemma all_chars_app (p : ascii -> bool) (a b : string) :
  all_chars p (a ++ b) = all_chars p a && all_chars p b.
Proof.
  induction a as [|c a IH]; [reflexivity|].
  rewrite append_cons. simpl. rewrite IH. apply andb_assoc.
Qed.

Lemma all_chars_weaken (p q : ascii -> bool) (s : string) :
  (forall c, p c = true -> q c = true) ->
  all_chars p s = true -> all_chars q s = true.
Proof.
  intros Hpq. induction s as [|c s IH]; simpl; [reflexivity|].
  rewrite !andb_true_iff. intros [H1 H2]. split; auto.
Qed.

Lemma toLowerCase_app (a b : string) :
  toLowerCase (a ++ b) = toLowerCase a ++ toLowerCase b.
Proof.
  unfold toLowerCase. induction a as [|c a IH]; [reflexivity|].
  rewrite append_cons. simpl. rewrite IH. reflexivity.
Qed.

Lemma lower_not_space_at (c : ascii) :
  not_space_at (lower c) = not_space_at c.
Proof. destruct c as [[] [] [] [] [] [] [] []]; reflexivity. Qed.

Lemma lower_twice (c : ascii) : lower (lower c) = lower c.
Proof. destruct c as [[] [] [] [] [] [] [] []]; reflexivity. Qed.

Lemma toLowerCase_twice (s : string) :
  toLowerCase (toLowerCase s) = toLowerCase s.
Proof.
  unfold toLowerCase. induction s as [|c s IH]; simpl; [reflexivity|].
  now rewrite lower_twice, IH.
Qed.

Lemma all_chars_lower (s : string) :
  all_chars not_space_at (toLowerCase s) = all_chars not_space_at s.
Proof.
  unfold toLowerCase. induction s as [|c s IH]; simpl; [reflexivity|].
  now rewrite lower_not_space_at, IH.
Qed.

Lemma word_lower (s : string) : word s -> word (toLowerCase s).
Proof.
  unfold word. intros [Hne H]. split.
  - destruct s; [contradiction | discriminate].
  - now rewrite all_chars_lower.
Qed.

Lemma trimEnd_no_space (s : string) :
  all_chars (fun c => negb (is_space c)) s = true -> trimEnd s = s.
Proof.
  induction s as [|c s IH]; simpl; [reflexivity|].
  rewrite andb_true_iff. intros [Hc Hs]. rewrite (IH Hs).
  apply negb_true_iff in Hc. rewrite Hc. destruct s; reflexivity.
Qed.

Lemma trim_no_space (s : string) :
  all_chars (fun c => negb (is_space c)) s = true -> trim s = s.
Proof.
  intros H. unfold trim.
  assert (E : trimStart s = s).
  { destruct s as [|c s]; [reflexivity|]. simpl in *.
    apply andb_true_iff in H. destruct H as [Hc _].
    apply negb_true_iff in Hc. now rewrite Hc. }
  rewrite E. apply trimEnd_no_space. exact H.
Qed.

Lemma valid_email_no_space (email : string) :
  validateEmail email = true ->
  all_chars (fun c => negb (is_space c)) email = true.
Proof.
  intros H. apply email_shape in H.
  destruct H as (a & b & c & -> & [_ Ha] & [_ Hb] & [_ Hc]).
  assert (W : forall s, all_chars not_space_at s = true ->
                        all_chars (fun c => negb (is_space c)) s = true).
  { intros s. apply all_chars_weaken. intros x. unfold not_space_at.
    rewrite !negb_true_iff, orb_false_iff. tauto. }
  rewrite !all_chars_app, (W a Ha), (W b Hb), (W c Hc). reflexivity.
Qed.

(** X14. the look-up key of a valid email.  On the strings of the model
    (every code unit below 256), an email that passes [validateEmail]
    has no white space, so trimming does nothing and the key the
    handlers look up is the email in lower case.  That key passes the
    test too, and normalizing it again gives the same key. *)
Theorem valid_email_key (email : string) :
  validateEmail email = true ->
  normalized email = toLowerCase email /\
  validateEmail (normalized email) = true /\
  normalized (normalized email) = normalized email.
Proof.
  intros Hv.
  assert (Hl : validateEmail (toLowerCase email) = true).
  { apply email_shape in Hv.
    destruct Hv as (a & b & c & -> & Ha & Hb & Hc).
    apply email_shape.
    exists (toLowerCase a), (toLowerCase b), (toLowerCase c).
    rewrite !toLowerCase_app. repeat split; try apply word_lower; tauto. }
  assert (E : normalized email = toLowerCase email).
  { unfold normalized. apply trim_no_space.
    apply valid_email_no_space. exact Hl. }
  split; [exact E|]. rewrite E. split; [exact Hl|].
  unfold normalized. rewrite toLowerCase_twice.
  apply trim_no_space. apply valid_email_no_space. exact Hl.
Qed.

Lemma directory_users (st : AsyncStorage) (users : list User) :
  directory st = Some users ->
  match item_users st with
  | Some raw => JSON_parse raw
  | None => ret []
  end = ret users.
Proof.
  unfold directory. destruct (item_users st) as [[|l]|]; simpl; congruence.
Qed.

(** The run of a login that succeeds. *)
Lemma handleLogin_run (state : AppState) (email pin now : string)
    (st : AsyncStorage) (users : list User) (found : User) :
  directory st = Some users ->
  validateEmail email = true ->
  validatePin pin = true ->
  List.find (fun u => String.eqb (Types.email u) (normalized email)) users
    = Some found ->
  Types.pin found = pin ->
  let u := if truthy (joinDate found) then found
           else with_joinDate found now in
  exists t,
    dispatched t = [] /\
    handleLogin state email pin now (fresh st) =
      ({| storage :=
            if truthy (joinDate found) then st
            else {| item_user := item_user st;
                    item_users :=
                      Some (Json (List.map
                        (fun x => if String.eqb (Types.email x)
                                       (Types.email u)
                                  then u else x) users));
                    item_accessibilitySettings :=
                      item_accessibilitySettings st;
                    item_hasCompletedSetup := item_hasCompletedSetup st;
                    item_reminders := item_reminders st |};
          trace := (SetIsLoading true :: Dispatch (LOGIN u) :: t
                    ++ [Haptic; SetIsLoading false])%list |}, inr tt).
Proof.
  intros Hdir He Hp Hf Hpin. cbv zeta.
  unfold handleLogin, normalized in *. rewrite He, Hp. simpl.
  unfold try_finally, try_catch, bind, getItem, alert, emit, fresh,
    setItem_users, setStorage, dispatch, haptic, emit; simpl.
  rewrite (directory_users st users Hdir). unfold ret at 1. simpl.
  rewrite Hf. rewrite Hpin, String.eqb_refl. simpl.
  destruct (truthy (joinDate found)) eqn:T; simpl;
    unfold ret; simpl;
    match goal with |- context [Voice.speakText ?s ?x ?w] =>
      destruct (speakText_run s x w) as (t & E & D & L); rewrite E end;
    simpl; exists t; (split; [exact D|]);
    rewrite <- !app_assoc; simpl; try reflexivity;
    destruct st; reflexivity.
Qed.

(** X15. a login that succeeds.  With a valid form, when the first user of
    the directory with the email stores the entered PIN, [handleLogin]
    dispatches [LOGIN] once, with that user given a join date if it had
    none; the directory is rewritten only in that case, and then only at
    the users with that email. *)
Theorem successful_login (state : AppState) (email pin now : string)
    (st : AsyncStorage) (users : list User) (found : User) :
  directory st = Some users ->
  validateEmail email = true ->
  validatePin pin = true ->
  List.find (fun u => String.eqb (Types.email u) (normalized email)) users
    = Some found ->
  Types.pin found = pin ->
  now <> "" ->
  let w := fst (handleLogin state email pin now (fresh st)) in
  let u := if truthy (joinDate found) then found
           else with_joinDate found now in
  dispatched (trace w) = [LOGIN u] /\
  user (settle state w) = Some u /\
  isLoggedIn (settle state w) = true /\
  truthy (joinDate u) = true /\
  (truthy (joinDate found) = true -> storage w = st) /\
  (truthy (joinDate found) = false ->
   directory (storage w) =
     Some (List.map (fun x => if String.eqb (Types.email x)
                                   (Types.email found)
                              then u else x) users)) /\
  snd (handleLogin state email pin now (fresh st)) = inr tt.
Proof.
  intros Hdir He Hp Hf Hpin Hnow. cbv zeta.
  assert (Tnow : truthy (Some now) = true).
  { simpl. destruct (String.eqb_spec now ""); [contradiction|reflexivity]. }
  destruct (handleLogin_run state email pin now st users found
              Hdir He Hp Hf Hpin) as (t & D & R).
  cbv zeta in R. rewrite R. clear R. unfold settle. cbn [fst snd trace storage].
  assert (Dt : forall a b,
            dispatched (SetIsLoading true :: Dispatch a :: t ++ b)
            = a :: dispatched b).
  { intros a b. change (dispatched (SetIsLoading true :: Dispatch a :: t ++ b))
      with (a :: dispatched (t ++ b)).
    now rewrite dispatched_app, D. }
  rewrite Dt. change (dispatched [Haptic; SetIsLoading false]) with (@nil AppAction).
  destruct (truthy (joinDate found)) eqn:T;
    repeat split; try reflexivity; try discriminate;
    try exact T; try exact Tnow.
Qed.

(** The run of a sign-up that succeeds. *)
Lemma handleSignUp_run (state : AppState) (email pin name now : string)
    (st : AsyncStorage) (users : list User) :
  directory st = Some users ->
  validateEmail email = true ->
  validatePin pin = true ->
  trim name <> "" ->
  (forall u, In u users -> Types.email u <> normalized email) ->
  let newUser :=
    {| id := now; Types.email := normalized email; Types.pin := pin;
       Types.name := trim name;
       joinDate := None; bio := None; weight := None; height := None;
       bloodGroup := None; allergies := None; interests := None;
       profilePhoto := None |} in
  exists t,
    dispatched t = [] /\
    handleSignUp state email pin name now (fresh st) =
      ({| storage :=
            {| item_user := item_user st;
               item_users := Some (Json (newUser :: users));
               item_accessibilitySettings := item_accessibilitySettings st;
               item_hasCompletedSetup := item_hasCompletedSetup st;
               item_reminders := item_reminders st |};
          trace := (SetIsLoading true :: Dispatch (LOGIN newUser) :: t
                    ++ [Haptic; SetIsLoading false])%list |}, inr tt).
Proof.
  intros Hdir He Hp Hn Habs. cbv zeta.
  assert (Hex : List.existsb
                  (fun u => String.eqb (Types.email u)
                              (trim (toLowerCase email))) users = false).
  { apply find_none_existsb.
    destruct (List.find _ users) as [f|] eqn:Hf; [|reflexivity].
    apply find_some in Hf. destruct Hf as [Hin Heq].
    apply String.eqb_eq in Heq. exfalso. exact (Habs f Hin Heq). }
  unfold handleSignUp, normalized in *. rewrite He, Hp. simpl.
  destruct (String.eqb_spec (trim name) "") as [E|_]; [contradiction|].
  unfold try_finally, try_catch, bind, getItem, alert, emit, fresh,
    setItem_users, setStorage, dispatch, haptic, emit; simpl.
  rewrite (directory_users st users Hdir). unfold ret at 1. simpl.
  rewrite Hex. simpl.
  match goal with |- context [Voice.speakText ?s ?x ?w] =>
    destruct (speakText_run s x w) as (t & E & D & L); rewrite E end.
  simpl. exists t. split; [exact D|].
  rewrite <- !app_assoc. reflexivity.
Qed.

Lemma map_other_emails (u : User) (users : list User) :
  (forall x, In x users -> Types.email x <> Types.email u) ->
  List.map (fun x => if String.eqb (Types.email x) (Types.email u)
                     then u else x) users = users.
Proof.
  induction users as [|x l IH]; simpl; intros H; [reflexivity|].
  rewrite IH by (intros y Hy; apply H; right; exact Hy).
  destruct (String.eqb_spec (Types.email x) (Types.email u)) as [E|_];
    [|reflexivity].
  exfalso. apply (H x); [left; reflexivity | exact E].
Qed.

(** X16. signing up, then logging in.  After a sign-up that succeeds, a
    login with the same email and PIN succeeds on the directory the
    sign-up wrote: it dispatches [LOGIN] with the user that signed up
    (same id, email, PIN and name), whose join date is the time of this
    login, and writes that user back at the head of the directory. *)
Theorem signup_then_login (state state' : AppState)
    (email pin name now later : string) (st : AsyncStorage)
    (users : list User) :
  directory st = Some users ->
  validateEmail email = true ->
  validatePin pin = true ->
  trim name <> "" ->
  (forall u, In u users -> Types.email u <> normalized email) ->
  let st1 := storage (fst (handleSignUp state email pin name now
                             (fresh st))) in
  let w := fst (handleLogin state' email pin later (fresh st1)) in
  exists u,
    dispatched (trace w) = [LOGIN u] /\
    id u = now /\
    Types.email u = normalized email /\
    Types.pin u = pin /\
    Types.name u = trim name /\
    joinDate u = Some later /\
    directory (storage w) = Some (u :: users).
Proof.
  intros Hdir He Hp Hn Habs. cbv zeta.
  destruct (handleSignUp_run state email pin name now st users
              Hdir He Hp Hn Habs) as (t & _ & R).
  cbv zeta in R. rewrite R. clear R. cbn [fst storage]. clear t.
  set (newUser :=
    {| id := now; Types.email := normalized email; Types.pin := pin;
       Types.name := trim name;
       joinDate := None; bio := None; weight := None; height := None;
       bloodGroup := None; allergies := None; interests := None;
       profilePhoto := None |}).
  match goal with |- context [fresh ?s] => set (st1 := s) end.
  assert (Hf : List.find
                 (fun u => String.eqb (Types.email u) (normalized email))
                 (newUser :: users) = Some newUser).
  { simpl. now rewrite String.eqb_refl. }
  destruct (handleLogin_run state' email pin later st1 (newUser :: users)
              newUser eq_refl He Hp Hf eq_refl) as (t' & D & R).
  cbv zeta in R. rewrite R. clear R. cbn [fst storage trace].
  exists (with_joinDate newUser later).
  change (truthy (joinDate newUser)) with false. cbv iota.
  split.
  { change (dispatched (SetIsLoading true
              :: Dispatch (LOGIN (with_joinDate newUser later))
              :: t' ++ [Haptic; SetIsLoading false]))
      with (LOGIN (with_joinDate newUser later)
              :: dispatched (t' ++ [Haptic; SetIsLoading false])).
    now rewrite dispatched_app, D. }
  repeat split.
  unfold directory. cbn [item_users].
  change (List.map ?f (newUser :: users))
    with (f newUser :: List.map f users).
  cbv beta. change (Types.email newUser) with (normalized email).
  change (Types.email (with_joinDate newUser later))
    with (normalized email).
  rewrite String.eqb_refl.
  assert (M : List.map
                (fun x => if String.eqb (Types.email x) (normalized email)
                          then with_joinDate newUser later else x) users
              = users).
  { apply (map_other_emails (with_joinDate newUser later)). exact Habs. }
  rewrite M. reflexivity.
Qed.

(* ===================================================================== *)
(** ** Properties of the profile and set-up screens *)
(* ===================================================================== *)

(** X17. saving the profile.  A blank name is refused: nothing is
    dispatched and the component stays as it is.  Otherwise one
    [UPDATE_USER] is dispatched and the state is the one before with a
    new user: it keeps its id, PIN and join date, takes the name and
    the email of the form as they were typed, and each of the seven
    optional fields takes the text of the form, the empty text
    included; editing is switched off.  Storage is not touched. *)
Theorem save_profile_keeps_identity (state : AppState) (local : Local)
    (u : User) (st : AsyncStorage) :
  user state = Some u ->
  let r := handleSaveProfile state local (fresh st) in
  let s := settle state (fst r) in
  let d := profileData local in
  (trim (f_name d) = "" ->
   dispatched (trace (fst r)) = [] /\ s = state /\ snd r = inr local) /\
  (trim (f_name d) <> "" ->
   dispatched (trace (fst r)) = [UPDATE_USER (savePayload (Some u) d)] /\
   s = {| user :=
            Some {| id := id u; email := f_email d; pin := pin u;
                    name := f_name d; joinDate := joinDate u;
                    bio := Some (f_bio d);
                    weight := Some (f_weight d);
                    height := Some (f_height d);
                    bloodGroup := Some (f_bloodGroup d);
                    allergies := Some (f_allergies d);
                    interests := Some (f_interests d);
                    profilePhoto := Some (f_profilePhoto d) |};
          isLoggedIn := isLoggedIn state;
          hasCompletedSetup := hasCompletedSetup state;
          accessibilitySettings := accessibilitySettings state;
          isVoiceEnabled := isVoiceEnabled state;
          voiceAnnouncementsEnabled := voiceAnnouncementsEnabled state;
          reminders := reminders state |} /\
   snd r = inr {| isEditingProfile := false; profileData := d |}) /\
  storage (fst r) = st.
Proof.
  intros Hu. cbv zeta.
  destruct (String.eqb_spec (trim (f_name (profileData local))) "")
    as [E|E].
  - assert (R : exists t, dispatched t = [] /\
              handleSaveProfile state local (fresh st) =
                ({| storage := st;
                    trace := Alert "Name Required" "Please enter your name."
                             :: t |}, inr local)).
    { unfold handleSaveProfile. rewrite E. simpl.
      unfold bind, alert, emit, ret, fresh; simpl.
      match goal with |- context [Voice.speakText ?s ?x ?w] =>
        destruct (speakText_run s x w) as (t & Et & D & L); rewrite Et end.
      exists t. split; [exact D | reflexivity]. }
    destruct R as (t & D & R). rewrite R. unfold settle.
    cbn [fst snd trace storage].
    change (dispatched (Alert "Name Required" "Please enter your name." :: t))
      with (dispatched t). rewrite D.
    split; [|split]; [intros _; repeat split | intros H; contradiction
                      | reflexivity].
  - assert (R : exists t, dispatched t = [] /\
              handleSaveProfile state local (fresh st) =
                ({| storage := st;
                    trace := (Dispatch (UPDATE_USER
                                (savePayload (user state) (profileData local)))
                              :: t ++ [Haptic])%list |},
                 inr {| isEditingProfile := false;
                        profileData := profileData local |})).
    { unfold handleSaveProfile.
      destruct (String.eqb_spec (trim (f_name (profileData local))) "")
        as [E'|_]; [contradiction|].
      unfold bind, dispatch, haptic, emit, ret, fresh; simpl.
      match goal with |- context [Voice.speakText ?s ?x ?w] =>
        destruct (speakText_run s x w) as (t & Et & D & L); rewrite Et end.
      exists t. split; [exact D | reflexivity]. }
    destruct R as (t & D & R). rewrite R. unfold settle.
    cbn [fst snd trace storage].
    match goal with |- context [dispatched (Dispatch ?a :: ?l)] =>
      change (dispatched (Dispatch a :: l)) with (a :: dispatched l) end.
    rewrite dispatched_app, D. simpl. rewrite Hu. simpl.
    split; [|split]; [intros H; contradiction | | reflexivity].
    intros _. split; [reflexivity|]. split; [|reflexivity].
    unfold merge_user, savePayload. simpl.
    destruct (joinDate u); reflexivity.
Qed.


(* ===================================================================== *)
(** ** Walking through a handler *)
(* ===================================================================== *)

Lemma hoare_getItem {A} (P : Event -> Prop)
    (key : AsyncStorage -> option A) (R : option A -> Prop) :
  (forall v, R v) -> hoare (always P) (getItem key) R.
Proof. intros Hr w Hw. split; [exact Hw | apply Hr]. Qed.

Lemma hoare_setStorage (P : Event -> Prop)
    (f : AsyncStorage -> AsyncStorage) (R : unit -> Prop) :
  R tt -> hoare (always P) (setStorage f) R.
Proof. intros Hr w Hw. split; [exact Hw | exact Hr]. Qed.

Lemma hoare_JSON_parse {A} (I : World -> Prop) (raw : Stored A)
    (R : A -> Prop) :
  (forall a, R a) -> hoare I (JSON_parse raw) R.
Proof.
  intros Hr. destruct raw as [|a]; simpl.
  - apply hoare_throw.
  - apply hoare_ret. apply Hr.
Qed.

(** One step through the structure of a handler whose specification asks
    nothing of the values: [leaf] closes what an event must satisfy,
    [dead] closes the branches the hypotheses exclude. *)
Ltac hstep leaf dead :=
  cbv beta;
  lazymatch goal with
  | |- hoare _ (bind _ _) _ => eapply hoare_seq; [|intros ?]
  | |- hoare _ (try_catch _ _) _ => apply hoare_try_catch; [|intros ?]
  | |- hoare _ (try_finally _ _) _ => apply hoare_try_finally
  | |- hoare _ (ret _) _ => apply hoare_ret; exact Logic.I
  | |- hoare _ (throw _) _ => apply hoare_throw
  | |- hoare _ (emit _) _ =>
      apply hoare_emit; [first [exact Logic.I | leaf] | exact Logic.I]
  | |- hoare _ (Home.await _) _ =>
      apply hoare_await; intros; exact Logic.I
  | |- hoare _ (getItem _) _ => apply hoare_getItem; intros; exact Logic.I
  | |- hoare _ (setStorage _) _ => apply hoare_setStorage; exact Logic.I
  | |- hoare _ (JSON_parse _) _ =>
      apply hoare_JSON_parse; intros; exact Logic.I
  | |- hoare _ (if ?b then _ else _) _ =>
      let E := fresh "E" in destruct b eqn:E; try solve [exfalso; dead]
  | |- hoare _ (match ?x with _ => _ end) _ =>
      let E := fresh "E" in destruct x eqn:E; try solve [exfalso; dead]
  end.

Ltac open_handlers :=
  unfold handleLogin, handleSignUp, toggleVoiceAnnouncements,
    Home.handleTakePicture, Home.handleUploadImage, Home.handleUploadFile,
    Home.handleReadAgain, handleSaveProfile, handleLogout,
    handleProfilePicture, Setup.welcome, Setup.handleSaveSettings,
    loadData, loadUserReminders, saveData;
  unfold Home.readImage;
  unfold Home.readAloud, Home.extractTextWithOCRSpace,
    Home.prepareImageForOCR, Home.fileToBase64, Home.speakText,
    Home.speakDirect, Voice.speakText;
  unfold Speech_stop, Speech_speak,
    setItem_user, setItem_users, setItem_accessibilitySettings,
    setItem_hasCompletedSetup, setItem_reminders,
    alert, dispatch, haptic, console_error;
  cbv zeta.

(** X19. with announcements disabled nothing is spoken.  When
    [voiceAnnouncementsEnabled] is false, no handler of the login, home
    and profile screens calls [Speech.speak], whatever the collaborators
    answer. *)
Theorem muted_handlers_are_silent (state : AppState) (st : AsyncStorage) :
  voiceAnnouncementsEnabled state = false ->
  (forall email pin name now,
     always no_speech (fst (handleLogin state email pin now (fresh st))) /\
     always no_speech
       (fst (handleSignUp state email pin name now (fresh st)))) /\
  (forall apiKey ocrSpace manipulateAsync getInfoAsync readAsStringAsync
          granted image file text,
     always no_speech
       (fst (Home.handleTakePicture apiKey ocrSpace manipulateAsync state
               granted image (fresh st))) /\
     always no_speech
       (fst (Home.handleUploadImage apiKey ocrSpace manipulateAsync state
               granted image (fresh st))) /\
     always no_speech
       (fst (Home.handleUploadFile apiKey ocrSpace getInfoAsync
               readAsStringAsync state file (fresh st))) /\
     always no_speech (fst (Home.handleReadAgain state text (fresh st))) /\
     always no_speech (fst (Home.speakText state text (fresh st)))) /\
  (forall local confirmed available granted picked,
     always no_speech (fst (handleSaveProfile state local (fresh st))) /\
     always no_speech (fst (handleLogout state confirmed (fresh st))) /\
     always no_speech
       (fst (handleProfilePicture state local available granted picked
               (fresh st)))) /\
  always no_speech (fst (Setup.welcome state (fresh st))).
Proof.
  intros Hm.
  repeat split; intros; repeat split;
    apply hoare_run; open_handlers; rewrite ?Hm; cbn [negb andb];
    repeat hstep idtac ltac:(discriminate).
Qed.

(* ===================================================================== *)
(** ** When camera reading posts nothing *)
(* ===================================================================== *)

(** X20. what an image needs to reach the OCR service.  The camera and
    gallery handlers post nothing when the permission is refused, when
    no image comes back from the picker, or when the API key is blank. *)
Theorem image_request_needs_permission_image_key
    (apiKey : string) (ocrSpace : string -> string -> Home.OcrReply)
    (manipulateAsync : string -> Q -> exn + option string)
    (state : AppState) (granted : bool)
    (image : option Home.ImagePickerAsset) (st : AsyncStorage) :
  granted = false \/ image = None \/ trim apiKey = "" ->
  always Home.no_ocr
    (fst (Home.handleTakePicture apiKey ocrSpace manipulateAsync state
            granted image (fresh st))) /\
  always Home.no_ocr
    (fst (Home.handleUploadImage apiKey ocrSpace manipulateAsync state
            granted image (fresh st))).
Proof.
  intros [->|[->|Hk]]; split; apply hoare_run; open_handlers;
    rewrite ?Hk; cbn [negb String.eqb];
    repeat hstep idtac ltac:(discriminate).
Qed.

(** X21. what a file needs to reach the OCR service.  The file handler
    posts nothing when no file is picked, when the API key is blank, or
    when the MIME type of the file contains [text], in any case: a text
    file is read as it is and never sent out. *)
Theorem file_request_needs_file_key_no_text
    (apiKey : string) (ocrSpace : string -> string -> Home.OcrReply)
    (getInfoAsync : string -> exn + Home.FileInfo)
    (readAsStringAsync : string -> string -> exn + string)
    (state : AppState) (file : option Home.DocumentAsset)
    (st : AsyncStorage) :
  file = None \/ trim apiKey = "" \/
  (exists f mime, file = Some f /\ Home.d_mimeType f = Some mime /\
                  includes (toLowerCase mime) "text" = true) ->
  always Home.no_ocr
    (fst (Home.handleUploadFile apiKey ocrSpace getInfoAsync
            readAsStringAsync state file (fresh st))).
Proof.
  intros [->|[Hk|(f & mime & -> & Hm & Ht)]]; apply hoare_run.
  - open_handlers. repeat hstep idtac ltac:(discriminate).
  - open_handlers. rewrite ?Hk. cbn [String.eqb].
    repeat hstep idtac ltac:(discriminate).
  - assert (E : includes
                  (toLowerCase
                     (Home.or_else
                        match Home.d_mimeType f with
                        | Some m => m
                        | None => ""
                        end "application/pdf")) "text" = true).
    { rewrite Hm. unfold Home.or_else.
      destruct (String.eqb_spec mime "") as [->|_]; [discriminate Ht|].
      exact Ht. }
    unfold Home.handleUploadFile. cbv zeta. rewrite E.
    open_handlers. repeat hstep idtac ltac:(discriminate).
Qed.

(* ===================================================================== *)
(** ** Handlers that catch everything *)
(* ===================================================================== *)

Section Returning.
Context {A : Type}.

Lemma returns_ret (a : A) : returns (ret a).
Proof. intros w. exists a. reflexivity. Qed.

Lemma returns_try_catch (c : M A) (h : exn -> M A) :
  (forall e, returns (h e)) -> returns (try_catch c h).
Proof.
  intros Hh w. unfold try_catch.
  destruct (c w) as [w' [e|a]]; [apply Hh | exists a; reflexivity].
Qed.

Lemma returns_try_finally (c : M A) (f : M unit) :
  returns c -> returns f -> returns (try_finally c f).
Proof.
  intros Hc Hf w. unfold try_finally.
  destruct (Hc w) as (a & Ha). destruct (c w) as [w' r]. simpl in Ha.
  destruct (Hf w') as (u & Hu). destruct (f w') as [w'' r']. simpl in Hu.
  subst. exists a. reflexivity.
Qed.

End Returning.

Lemma returns_bind {A B} (c : M A) (k : A -> M B) :
  returns c -> (forall a, returns (k a)) -> returns (bind c k).
Proof.
  intros Hc Hk w. unfold bind.
  destruct (Hc w) as (a & Ha). destruct (c w) as [w' r]. simpl in Ha.
  subst. apply Hk.
Qed.

Lemma returns_emit (e : Event) : returns (emit e).
Proof. intros w. exists tt. reflexivity. Qed.

Lemma returns_setStorage (f : AsyncStorage -> AsyncStorage) :
  returns (setStorage f).
Proof. intros w. exists tt. reflexivity. Qed.

Lemma returns_getItem {A} (key : AsyncStorage -> option A) :
  returns (getItem key).
Proof. intros w. eexists. reflexivity. Qed.

Ltac rstep :=
  cbv beta;
  lazymatch goal with
  | |- returns (bind _ _) => apply returns_bind; [|intros ?]
  | |- returns (try_catch _ _) => apply returns_try_catch; intros ?
  | |- returns (try_finally _ _) => apply returns_try_finally
  | |- returns (ret _) => apply returns_ret
  | |- returns (emit _) => apply returns_emit
  | |- returns (setStorage _) => apply returns_setStorage
  | |- returns (getItem _) => apply returns_getItem
  | |- returns (if ?b then _ else _) => destruct b
  | |- returns (match ?x with _ => _ end) => destruct x
  end.

(** X22. no handler throws.  Whatever storage holds and whatever the
    collaborators answer or throw, the three effects of the provider,
    the handlers of the login, home and profile screens and
    [extractTextWithOCRSpace] return: every exception is caught inside
    them. *)
Theorem handlers_catch_everything (state : AppState) :
  (forall now, returns (loadData now)) /\
  returns (loadUserReminders state) /\
  returns (saveData state) /\
  (forall email pin name now,
     returns (handleLogin state email pin now) /\
     returns (handleSignUp state email pin name now)) /\
  (forall apiKey ocrSpace manipulateAsync getInfoAsync readAsStringAsync
          granted image file base64 mimeType,
     returns (Home.handleTakePicture apiKey ocrSpace manipulateAsync state
                granted image) /\
     returns (Home.handleUploadImage apiKey ocrSpace manipulateAsync state
                granted image) /\
     returns (Home.handleUploadFile apiKey ocrSpace getInfoAsync
                readAsStringAsync state file) /\
     returns (Home.extractTextWithOCRSpace apiKey ocrSpace base64
                mimeType)) /\
  (forall local confirmed available granted picked,
     returns (handleSaveProfile state local) /\
     returns (handleLogout state confirmed) /\
     returns (handleProfilePicture state local available granted picked)).
Proof.
  repeat split; intros; repeat split; open_handlers; repeat rstep.
Qed.

(* ===================================================================== *)
(** ** Counting the requests *)
(* ===================================================================== *)

Lemma requests_app (t1 t2 : list Event) :
  requests (t1 ++ t2) = requests t1 + requests t2.
Proof.
  unfold requests, ocr_payloads. rewrite flat_map_app. apply length_app.
Qed.

Lemma pam_quiet {A} (c : M A) (n : nat) :
  (forall w, trace (fst (c w)) = trace w) -> posts_at_most n c.
Proof.
  intros H w. exists []. rewrite app_nil_r. split; [apply H|].
  unfold requests. simpl. lia.
Qed.

Lemma pam_ret {A} (a : A) (n : nat) : posts_at_most n (ret a).
Proof. apply pam_quiet. reflexivity. Qed.

Lemma pam_throw {A} (e : exn) (n : nat) : posts_at_most n (@throw A e).
Proof. apply pam_quiet. reflexivity. Qed.

Lemma pam_getItem {A} (key : AsyncStorage -> option A) (n : nat) :
  posts_at_most n (getItem key).
Proof. apply pam_quiet. reflexivity. Qed.

Lemma pam_setStorage (f : AsyncStorage -> AsyncStorage) (n : nat) :
  posts_at_most n (setStorage f).
Proof. apply pam_quiet. reflexivity. Qed.

Lemma pam_await {A} (r : exn + A) (n : nat) :
  posts_at_most n (Home.await r).
Proof. apply pam_quiet. destruct r; reflexivity. Qed.

Lemma pam_JSON_parse {A} (raw : Stored A) (n : nat) :
  posts_at_most n (JSON_parse raw).
Proof. apply pam_quiet. destruct raw; reflexivity. Qed.

Lemma pam_emit (e : Event) (n : nat) :
  requests [e] <= n -> posts_at_most n (emit e).
Proof. intros H w. exists [e]. split; [reflexivity | exact H]. Qed.

Lemma pam_bind {A B} (n m p : nat) (c : M A) (k : A -> M B) :
  posts_at_most n c -> (forall a, posts_at_most m (k a)) -> n + m <= p ->
  posts_at_most p (bind c k).
Proof.
  intros Hc Hk Hp w. unfold bind.
  destruct (Hc w) as (t & Ht & Hn). destruct (c w) as [w' [e|a]];
    simpl in Ht.
  - exists t. split; [exact Ht | lia].
  - destruct (Hk a w') as (t' & Ht' & Hm).
    exists (t ++ t')%list. rewrite Ht', Ht, app_assoc, requests_app.
    split; [reflexivity | lia].
Qed.

Lemma pam_try_catch {A} (n m p : nat) (c : M A) (h : exn -> M A) :
  posts_at_most n c -> (forall e, posts_at_most m (h e)) -> n + m <= p ->
  posts_at_most p (try_catch c h).
Proof.
  intros Hc Hh Hp w. unfold try_catch.
  destruct (Hc w) as (t & Ht & Hn). destruct (c w) as [w' [e|a]];
    simpl in Ht.
  - destruct (Hh e w') as (t' & Ht' & Hm).
    exists (t ++ t')%list. rewrite Ht', Ht, app_assoc, requests_app.
    split; [reflexivity | lia].
  - exists t. split; [exact Ht | lia].
Qed.

Lemma pam_try_finally {A} (n m p : nat) (c : M A) (f : M unit) :
  posts_at_most n c -> posts_at_most m f -> n + m <= p ->
  posts_at_most p (try_finally c f).
Proof.
  intros Hc Hf Hp w. unfold try_finally.
  destruct (Hc w) as (t & Ht & Hn). destruct (c w) as [w' r].
  simpl in Ht. destruct (Hf w') as (t' & Ht' & Hm).
  destruct (f w') as [w'' [e|u]]; simpl in Ht'; simpl;
    exists (t ++ t')%list; rewrite Ht', Ht, app_assoc, requests_app;
    (split; [reflexivity | lia]).
Qed.

(** A walk that spends the budget of requests where the request is. *)
Ltac pwalk :=
  cbv beta;
  lazymatch goal with
  | |- posts_at_most ?p (bind _ _) =>
      first [ apply (pam_bind 0 p p);
                [solve [pwalk] | intros ?; pwalk | lia]
            | apply (pam_bind p 0 p);
                [pwalk | intros ?; solve [pwalk] | lia] ]
  | |- posts_at_most ?p (try_catch _ _) =>
      first [ apply (pam_try_catch 0 p p);
                [solve [pwalk] | intros ?; pwalk | lia]
            | apply (pam_try_catch p 0 p);
                [pwalk | intros ?; solve [pwalk] | lia] ]
  | |- posts_at_most ?p (try_finally _ _) =>
      apply (pam_try_finally p 0 p); [pwalk | solve [pwalk] | lia]
  | |- posts_at_most _ (ret _) => apply pam_ret
  | |- posts_at_most _ (throw _) => apply pam_throw
  | |- posts_at_most _ (emit _) =>
      apply pam_emit; unfold requests; simpl; lia
  | |- posts_at_most _ (Home.await _) => apply pam_await
  | |- posts_at_most _ (getItem _) => apply pam_getItem
  | |- posts_at_most _ (setStorage _) => apply pam_setStorage
  | |- posts_at_most _ (JSON_parse _) => apply pam_JSON_parse
  | |- posts_at_most _ (if ?b then _ else _) => destruct b; pwalk
  | |- posts_at_most _ (match ?x with _ => _ end) => destruct x; pwalk
  end.

Lemma pam_run {A} (n : nat) (c : M A) (st : AsyncStorage) :
  posts_at_most n c -> requests (trace (fst (c (fresh st)))) <= n.
Proof.
  intros H. destruct (H (fresh st)) as (t & -> & Hn). exact Hn.
Qed.

(** X23. one request at most.  A run of a camera, gallery or file handler
    posts at most one request to the OCR service, whatever the service
    answers: there is no second attempt.  The handlers of the login and
    profile screens post none. *)
Theorem one_request_per_run (state : AppState) (st : AsyncStorage) :
  (forall apiKey ocrSpace manipulateAsync getInfoAsync readAsStringAsync
          granted image file,
     requests
       (trace (fst (Home.handleTakePicture apiKey ocrSpace manipulateAsync
                      state granted image (fresh st)))) <= 1 /\
     requests
       (trace (fst (Home.handleUploadImage apiKey ocrSpace manipulateAsync
                      state granted image (fresh st)))) <= 1 /\
     requests
       (trace (fst (Home.handleUploadFile apiKey ocrSpace getInfoAsync
                      readAsStringAsync state file (fresh st)))) <= 1) /\
  (forall email pin name now local confirmed,
     requests (trace (fst (handleLogin state email pin now (fresh st))))
       = 0 /\
     requests
       (trace (fst (handleSignUp state email pin name now (fresh st))))
       = 0 /\
     requests (trace (fst (handleSaveProfile state local (fresh st)))) = 0 /\
     requests (trace (fst (handleLogout state confirmed (fresh st)))) = 0).
Proof.
  split; intros; repeat split;
    try (apply Nat.le_0_r); apply pam_run; open_handlers; pwalk.
Qed.

(* ===================================================================== *)
(** ** The busy flags *)
(* ===================================================================== *)

Lemma trace_try_finally_emit {A} (c : M A) (e : Event) (w : World) :
  trace (fst (try_finally c (emit e) w)) =
    (trace (fst (c w)) ++ [e])%list.
Proof.
  unfold try_finally, emit. destruct (c w) as [w' r]. reflexivity.
Qed.

Lemma loading_bracket (c : M unit) (st : AsyncStorage) :
  posts_at_most 0 c ->
  exists t,
    trace (fst (bind (emit (SetIsLoading true))
                  (fun _ => try_finally c (emit (SetIsLoading false)))
                  (fresh st))) =
      (SetIsLoading true :: t ++ [SetIsLoading false])%list.
Proof.
  intros Hc. unfold bind at 1, emit at 1. cbn [fst snd].
  rewrite trace_try_finally_emit.
  match goal with |- context [c ?w] => destruct (Hc w) as (t & -> & _) end.
  exists t. reflexivity.
Qed.

(** X24. the busy flags are turned off.  Every run of a camera, gallery
    or file handler ends by setting [isProcessing] to false.  A login or
    a sign-up whose form is valid sets [isLoading] to true first and to
    false last; one whose form is invalid does not touch the flag. *)
Theorem busy_flags_turned_off (state : AppState) (st : AsyncStorage) :
  (forall apiKey ocrSpace manipulateAsync getInfoAsync readAsStringAsync
          granted image file,
     ends_with (SetIsProcessing false)
       (trace (fst (Home.handleTakePicture apiKey ocrSpace manipulateAsync
                      state granted image (fresh st)))) /\
     ends_with (SetIsProcessing false)
       (trace (fst (Home.handleUploadImage apiKey ocrSpace manipulateAsync
                      state granted image (fresh st)))) /\
     ends_with (SetIsProcessing false)
       (trace (fst (Home.handleUploadFile apiKey ocrSpace getInfoAsync
                      readAsStringAsync state file (fresh st))))) /\
  (forall email pin now,
     let w := fst (handleLogin state email pin now (fresh st)) in
     if validateEmail email && validatePin pin
     then exists t, trace w = (SetIsLoading true :: t
                               ++ [SetIsLoading false])%list
     else always no_loading w) /\
  (forall email pin name now,
     let w := fst (handleSignUp state email pin name now (fresh st)) in
     if validateEmail email && validatePin pin
        && negb (String.eqb (trim name) "")
     then exists t, trace w = (SetIsLoading true :: t
                               ++ [SetIsLoading false])%list
     else always no_loading w).
Proof.
  split; [|split].
  - intros. repeat split; eexists; apply trace_try_finally_emit.
  - intros email pin now. cbv zeta. unfold handleLogin.
    destruct (validateEmail email); simpl;
      [destruct (validatePin pin); simpl|].
    + apply loading_bracket. open_handlers. pwalk.
    + apply hoare_run. open_handlers.
      repeat hstep idtac ltac:(discriminate).
    + apply hoare_run. open_handlers.
      repeat hstep idtac ltac:(discriminate).
  - intros email pin name now. cbv zeta. unfold handleSignUp.
    destruct (validateEmail email); simpl;
      [destruct (validatePin pin); simpl;
       [destruct (String.eqb (trim name) ""); simpl|]|].
    + apply hoare_run. open_handlers.
      repeat hstep idtac ltac:(discriminate).
    + apply loading_bracket. open_handlers. pwalk.
    + apply hoare_run. open_handlers.
      repeat hstep idtac ltac:(discriminate).
    + apply hoare_run. open_handlers.
      repeat hstep idtac ltac:(discriminate).
Qed.

(* ===================================================================== *)
(** ** What the OCR call returns *)
(* ===================================================================== *)

(** X25. the text the OCR call returns.  [extractTextWithOCRSpace] never
    throws and leaves storage alone.  With a blank API key it posts
    nothing and returns the empty text after an alert.  Otherwise it
    posts one request, made of the data prefix (the one of PDF when the
    MIME type, in lower case, contains [pdf], the one of the MIME type
    otherwise), the base64 text it was given and the file type, and
    what it returns is decided by the answer to that request: the
    parsed text, trimmed, when the service returns one, the empty text
    in every other case.  A non-empty text comes without any alert, the
    empty text always with one. *)
Theorem extractText_result (apiKey : string)
    (ocrSpace : string -> string -> Home.OcrReply)
    (base64 mimeType : string) (st : AsyncStorage) :
  let r := Home.extractTextWithOCRSpace apiKey ocrSpace base64 mimeType
             (fresh st) in
  let isPDF := includes (toLowerCase mimeType) "pdf" in
  let dataPrefix :=
    if isPDF then "data:application/pdf;base64,"
    else "data:" ++ mimeType ++ ";base64," in
  let filetype := if isPDF then "PDF" else "IMAGE" in
  let reply := ocrSpace (dataPrefix ++ base64) filetype in
  exists text,
    snd r = inr text /\
    storage (fst r) = st /\
    (trim apiKey = "" ->
       text = "" /\ ocr_requests (trace (fst r)) = [] /\
       alerts (trace (fst r)) <> []) /\
    (trim apiKey <> "" ->
       ocr_requests (trace (fst r)) = [(dataPrefix, base64, filetype)] /\
       (forall raw, reply = Home.ParsedText raw -> text = trim raw) /\
       ((forall raw, reply <> Home.ParsedText raw) -> text = "")) /\
    (text <> "" ->
       alerts (trace (fst r)) = [] /\
       exists raw, reply = Home.ParsedText raw /\ text = trim raw) /\
    (text = "" -> alerts (trace (fst r)) <> []).
Proof.
  cbv zeta. unfold Home.extractTextWithOCRSpace.
  destruct (String.eqb_spec (trim apiKey) "") as [K|K].
  - exists "". unfold bind, console_error, alert, emit, ret, fresh; simpl.
    repeat split; try reflexivity; try discriminate; try contradiction.
  - cbv zeta.
    unfold try_catch, bind, console_error, alert, emit, ret, throw, fresh;
      simpl.
    destruct (ocrSpace _ _) as [m|status errorText|m|raw] eqn:O; simpl.
    + exists "". repeat split; try reflexivity; try discriminate;
        try contradiction.
    + exists "". repeat split; try reflexivity; try discriminate;
        try contradiction.
    + exists "". repeat split; try reflexivity; try discriminate;
        try contradiction.
    + destruct (String.eqb_spec (trim raw) "") as [T|T]; simpl.
      * exists "". repeat split; try reflexivity; try discriminate;
          try contradiction.
        intros raw' [= <-]. symmetry. exact T.
      * exists (trim raw).
        repeat split; try reflexivity; try contradiction.
        -- intros raw' [= <-]. reflexivity.
        -- intros Hn. exfalso. exact (Hn raw eq_refl).
        -- exists raw. split; reflexivity.
Qed.

(* ===================================================================== *)
(** ** The profile picture and the clamped rate *)
(* ===================================================================== *)

(** X26. choosing a profile picture.  Nothing is dispatched unless the
    picker is available, the permission granted and a non-empty uri
    picked.  Then the user of the store takes that uri as its photo and
    keeps every other field, and the form takes the uri too. *)
Theorem profile_picture_changes_photo_only (state : AppState)
    (local : Local) (available granted : bool) (picked : option string)
    (u : User) (st : AsyncStorage) :
  user state = Some u ->
  let r := handleProfilePicture state local available granted picked
             (fresh st) in
  let s := settle state (fst r) in
  storage (fst r) = st /\
  (available = false \/ granted = false \/ picked = None \/
   picked = Some "" ->
   dispatched (trace (fst r)) = [] /\ s = state /\ snd r = inr local) /\
  (forall uri,
     available = true -> granted = true -> picked = Some uri ->
     uri <> "" ->
     user s = Some (merge_user u (photoPayload uri)) /\
     profilePhoto (merge_user u (photoPayload uri)) = Some uri /\
     merge_user u (photoPayload uri) =
       {| id := id u; email := email u; pin := pin u; name := name u;
          joinDate := joinDate u; bio := bio u; weight := weight u;
          height := height u; bloodGroup := bloodGroup u;
          allergies := allergies u; interests := interests u;
          profilePhoto := Some uri |} /\
     exists local',
       snd r = inr local' /\
       f_profilePhoto (profileData local') = uri /\
       f_name (profileData local') = f_name (profileData local) /\
       isEditingProfile local' = isEditingProfile local).
Proof.
  intros Hu. cbv zeta.
  assert (Run : forall uri, uri <> "" ->
            exists t, dispatched t = [] /\
              handleProfilePicture state local true true (Some uri)
                (fresh st) =
              ({| storage := st;
                  trace := (Dispatch (UPDATE_USER (photoPayload uri))
                            :: t ++ [Haptic])%list |},
               inr {| isEditingProfile := isEditingProfile local;
                      profileData :=
                        {| f_name := f_name (profileData local);
                           f_email := f_email (profileData local);
                           f_bio := f_bio (profileData local);
                           f_weight := f_weight (profileData local);
                           f_height := f_height (profileData local);
                           f_bloodGroup := f_bloodGroup (profileData local);
                           f_allergies := f_allergies (profileData local);
                           f_interests := f_interests (profileData local);
                           f_profilePhoto := uri |} |})).
  { intros uri Hne. unfold handleProfilePicture. simpl.
    destruct (String.eqb_spec uri "") as [E|_]; [contradiction|].
    unfold try_catch, bind, dispatch, haptic, emit, ret, fresh; simpl.
    match goal with |- context [Voice.speakText ?s ?x ?w] =>
      destruct (speakText_run s x w) as (t & Et & D & L); rewrite Et end.
    exists t. split; [exact D | reflexivity]. }
  split; [|split].
  - destruct available, granted, picked as [uri|];
      try reflexivity.
    destruct (String.eqb_spec uri "") as [->|Hne]; [reflexivity|].
    destruct (Run uri Hne) as (t & _ & ->). reflexivity.
  - intros [ -> | [ -> | [ -> | -> ] ] ];
      try destruct available; try destruct granted; repeat split.
  - intros uri -> -> -> Hne. destruct (Run uri Hne) as (t & D & R).
    rewrite R. unfold settle. cbn [fst snd trace].
    match goal with |- context [dispatched (Dispatch ?a :: ?l)] =>
      change (dispatched (Dispatch a :: l)) with (a :: dispatched l) end.
    rewrite dispatched_app, D. simpl. rewrite Hu.
    split; [reflexivity|]. split; [reflexivity|].
    split; [reflexivity|]. eexists. repeat split.
Qed.

(** X27. the clamped rate by cases.  The rate the speech helpers use is
    0.5 below 0.5, the voice speed itself between 0.5 and 2.0, and 2.0
    above; it grows with the voice speed. *)
Theorem safeRate_by_cases (state state' : AppState) :
  let v := voiceSpeed (accessibilitySettings state) in
  let v' := voiceSpeed (accessibilitySettings state') in
  ((v <= 0.5)%Q -> (safeRate state == 0.5)%Q) /\
  ((0.5 <= v)%Q -> (v <= 2.0)%Q -> (safeRate state == v)%Q) /\
  ((2.0 <= v)%Q -> (safeRate state == 2.0)%Q) /\
  ((v <= v')%Q -> (safeRate state <= safeRate state')%Q).
Proof.
  cbv zeta. unfold safeRate.
  set (v := voiceSpeed (accessibilitySettings state)).
  set (v' := voiceSpeed (accessibilitySettings state')).
  assert (H52 : (0.5 <= 2.0)%Q) by discriminate.
  repeat split.
  - intros H. rewrite Q.min_l by (eapply Qle_trans; eassumption).
    apply Q.max_l. exact H.
  - intros H1 H2. rewrite Q.min_l by exact H2. apply Q.max_r. exact H1.
  - intros H. rewrite Q.min_r by exact H. apply Q.max_r. exact H52.
  - intros H. apply Q.max_le_compat_l. apply Q.min_le_compat_r. exact H.
Qed.

(* ===================================================================== *)
(** ** Further concrete runs *)
(* ===================================================================== *)

(** Ann restarts the app after a save in dark mode with the set-up
    done: her reminders are back, the dark mode and the set-up are not. *)
Lemma restart_keeps_user_and_reminders_witness :
  user quiet = Some userA /\
  accessibilitySettings quiet <> accessibilitySettings initialState /\
  hasCompletedSetup quiet = true /\
  user (mount "2024-05-05T00:00:00.000Z" (saved emptyStorage quiet))
    = Some userA /\
  reminders (mount "2024-05-05T00:00:00.000Z" (saved emptyStorage quiet))
    = [pills; walk] /\
  accessibilitySettings
    (mount "2024-05-05T00:00:00.000Z" (saved emptyStorage quiet))
    = accessibilitySettings initialState /\
  hasCompletedSetup
    (mount "2024-05-05T00:00:00.000Z" (saved emptyStorage quiet)) = false.
Proof.
  split; [reflexivity|]. split; [discriminate|]. split; [reflexivity|].
  destruct (proj1 (restart_keeps_user_and_reminders emptyStorage quiet userA
                     "2024-05-05T00:00:00.000Z" eq_refl))
    as (H1 & _ & H3 & H4 & H5 & _).
  split; [exact H1|]. split; [exact H3|]. split; [exact H4 | exact H5].
Defined.

Lemma logout_is_not_saved_witness :
  user quiet = Some userA /\
  item_user (saved (saved emptyStorage quiet) (appReducer quiet LOGOUT))
    = Some (Json userA).
Proof.
  split; [reflexivity|].
  exact (proj1 (logout_is_not_saved emptyStorage quiet userA
                  "2024-05-05T00:00:00.000Z" eq_refl)).
Defined.

(** Ann, renamed, is saved into a directory where she is the second of
    three: her entry stays second, takes the new name and keeps the
    join date and the bio the state does not have. *)
Lemma saveData_upserts_directory_witness :
  user renamed = Some annRenamed /\
  directory storageOfThree = Some ([userC] ++ annStored :: [userB])%list /\
  directory (saved storageOfThree renamed) =
    Some [userC;
          {| id := "1"; email := "ann@example.com"; pin := "1234";
             name := "Ann Lee";
             joinDate := Some "2024-01-01T00:00:00.000Z";
             bio := Some "Reader";
             weight := None; height := None; bloodGroup := None;
             allergies := None; interests := None;
             profilePhoto := None |};
          userB].
Proof.
  split; [reflexivity|]. split; [reflexivity|].
  destruct (proj1 (proj2 (saveData_upserts_directory storageOfThree renamed
                            annRenamed eq_refl))
              [userC] annStored [userB] eq_refl) as [H _].
  - intros y [<-|[]]. discriminate.
  - reflexivity.
  - exact H.
Defined.

(** Cy was stored without a join date: the start stores him again with
    one. *)
Lemma loadData_persists_join_date_witness :
  "2024-05-05T00:00:00.000Z" <> "" /\
  item_user storageOfCy = Some (Json userC) /\
  truthy (joinDate userC) = false /\
  item_user (storage (fst (loadData "2024-05-05T00:00:00.000Z"
                             (fresh storageOfCy))))
    = Some (Json (person "3" "cy@example.com" "1111" "Cy"
                    (Some "2024-05-05T00:00:00.000Z"))).
Proof.
  assert (N : "2024-05-05T00:00:00.000Z" <> "") by discriminate.
  split; [exact N|]. split; [reflexivity|]. split; [reflexivity|].
  destruct (proj1 (proj2
              (loadData_persists_join_date "2024-05-05T00:00:00.000Z"
                 "2024-06-06T00:00:00.000Z" storageOfCy N))
              userC eq_refl)
    as (_ & H & _).
  exact (H eq_refl).
Defined.

Lemma delete_reminder_witness :
  appReducer quiet (DELETE_REMINDER "r9") = quiet.
Proof.
  apply (proj2 (proj2 (proj2 (delete_reminder_removes quiet "r9")))).
  intros r [<-|[<-|[]]]; discriminate.
Defined.

Lemma add_then_delete_witness :
  appReducer (appReducer (withSpeed 1.0) (ADD_REMINDER walk))
    (DELETE_REMINDER "r2") = withSpeed 1.0.
Proof.
  apply (add_then_delete (withSpeed 1.0) walk).
  intros r [<-|[]]. discriminate.
Defined.

Lemma login_flag_follows_user_witness :
  consistent
    (dispatchAll initialState
       [LOGIN userA; LOAD_DATA (only_hasCompletedSetup true);
        UPDATE_ACCESSIBILITY_SETTINGS slower; LOGOUT; LOGIN userB]).
Proof.
  apply login_flag_follows_user.
  repeat constructor.
Defined.

Lemma settings_updates_witness :
  p_voiceSpeed slower = Some 0.8%Q /\
  voiceSpeed (accessibilitySettings
    (appReducer (appReducer quiet (UPDATE_ACCESSIBILITY_SETTINGS brighter))
       (UPDATE_ACCESSIBILITY_SETTINGS slower))) = 0.8%Q.
Proof.
  split; [reflexivity|].
  exact (proj1 (proj2 (proj2
    (settings_updates_compose quiet brighter slower))) 0.8%Q eq_refl).
Defined.

Lemma unique_ids_witness :
  unique_ids quiet /\
  unique_ids (appReducer quiet (DELETE_REMINDER "r1")).
Proof.
  assert (U : unique_ids quiet).
  { unfold unique_ids. simpl.
    constructor; [intros [E|[]]; discriminate|].
    constructor; [intros []|constructor]. }
  split; [exact U|].
  exact (proj1 (proj2 (proj2 (unique_ids_kept quiet pills "r1" U)))).
Defined.

Lemma validatePin_witness :
  String.length "0420" = 4 /\ validatePin "0420" = true.
Proof.
  split; [reflexivity|].
  apply (proj2 (validatePin_four_digits "0420")).
  split; reflexivity.
Defined.

Lemma validateEmail_witness :
  word "ann.lee" /\ validateEmail "ann.lee@mail.example.com" = true.
Proof.
  assert (W : forall s, s <> "" -> all_chars not_space_at s = true ->
                        word s) by (intros s H1 H2; split; assumption).
  assert (A : word "ann.lee") by (apply W; [discriminate | reflexivity]).
  split; [exact A|].
  apply (proj2 (validateEmail_shape "ann.lee@mail.example.com")).
  exists "ann.lee", "mail.example", "com".
  split; [reflexivity|]. split; [exact A|].
  split; apply W; try discriminate; reflexivity.
Defined.

Lemma valid_email_key_witness :
  validateEmail "Ann@Example.com" = true /\
  normalized "Ann@Example.com" = "ann@example.com".
Proof.
  assert (V : validateEmail "Ann@Example.com" = true)
    by (vm_compute; reflexivity).
  split; [exact V|].
  exact (proj1 (valid_email_key "Ann@Example.com" V)).
Defined.

Lemma successful_login_witness :
  directory storageOfCy = Some [userC; userA] /\
  dispatched
    (trace (fst (handleLogin initialState "Cy@Example.com" "1111"
                   "2024-05-05T00:00:00.000Z" (fresh storageOfCy))))
    = [LOGIN (with_joinDate userC "2024-05-05T00:00:00.000Z")].
Proof.
  split; [reflexivity|].
  refine (proj1 (successful_login initialState "Cy@Example.com" "1111"
                   "2024-05-05T00:00:00.000Z" storageOfCy [userC; userA]
                   userC eq_refl _ _ _ eq_refl _)).
  - vm_compute. reflexivity.
  - vm_compute. reflexivity.
  - vm_compute. reflexivity.
  - discriminate.
Defined.

Lemma signup_then_login_witness :
  validateEmail "eve@example.com" = true /\
  exists u,
    dispatched
      (trace (fst (handleLogin initialState "eve@example.com" "2468"
                     "2024-06-06T00:00:00.000Z"
                     (fresh (storage (fst (handleSignUp initialState
                        "eve@example.com" "2468" "Eve" "1700000000000"
                        (fresh emptyStorage))))))))
      = [LOGIN u] /\
    id u = "1700000000000" /\
    joinDate u = Some "2024-06-06T00:00:00.000Z".
Proof.
  assert (E : validateEmail "eve@example.com" = true)
    by (vm_compute; reflexivity).
  split; [exact E|].
  destruct (signup_then_login initialState initialState "eve@example.com"
              "2468" "Eve" "1700000000000" "2024-06-06T00:00:00.000Z"
              emptyStorage [])
    as (u & H1 & H2 & _ & _ & _ & H6 & _).
  - reflexivity.
  - exact E.
  - vm_compute. reflexivity.
  - vm_compute. discriminate.
  - intros x [].
  - exists u. split; [exact H1|]. split; [exact H2 | exact H6].
Defined.

(** Ann saves the form: the email is taken as typed, the fields left
    empty are stored as empty texts. *)
Lemma save_profile_witness :
  user quiet = Some userA /\
  trim (f_name (profileData editing)) <> "" /\
  user (settle quiet (fst (handleSaveProfile quiet editing
                             (fresh emptyStorage))))
    = Some {| id := "1"; email := "Ann.Lee@Example.com"; pin := "1234";
              name := "Ann Lee";
              joinDate := Some "2024-01-01T00:00:00.000Z";
              bio := Some "Reader"; weight := Some "";
              height := Some ""; bloodGroup := Some "O+";
              allergies := Some ""; interests := Some "";
              profilePhoto := Some "" |}.
Proof.
  assert (N : trim (f_name (profileData editing)) <> "")
    by (vm_compute; discriminate).
  split; [reflexivity|]. split; [exact N|].
  destruct (proj1 (proj2
              (save_profile_keeps_identity quiet editing userA emptyStorage
                 eq_refl)) N)
    as (_ & H2 & _).
  exact (f_equal user H2).
Defined.

Lemma muted_witness :
  voiceAnnouncementsEnabled quiet = false /\
  always no_speech
    (fst (Home.handleReadAgain quiet "hello" (fresh emptyStorage))).
Proof.
  split; [reflexivity|].
  exact (proj1 (proj2 (proj2 (proj2
    (proj1 (proj2 (muted_handlers_are_silent quiet emptyStorage eq_refl))
       "key" ocrHello (manipulatorOf 8) (infoOfSize 10) (readerOf "QUJD")
       true (Some photo) (Some document) "hello"))))).
Defined.

Lemma image_request_witness :
  always Home.no_ocr
    (fst (Home.handleTakePicture "key" ocrHello (manipulatorOf 8)
            (withSpeed 1.0) false (Some photo) (fresh emptyStorage))).
Proof.
  refine (proj1 (image_request_needs_permission_image_key "key" ocrHello
                   (manipulatorOf 8) (withSpeed 1.0) false (Some photo)
                   emptyStorage _)).
  left. reflexivity.
Defined.

Lemma file_request_witness :
  includes (toLowerCase "Text/Plain") "text" = true /\
  always Home.no_ocr
    (fst (Home.handleUploadFile "key" ocrHello (infoOfSize 10)
            (readerOf "some notes") (withSpeed 1.0) (Some notes)
            (fresh emptyStorage))).
Proof.
  assert (T : includes (toLowerCase "Text/Plain") "text" = true)
    by (vm_compute; reflexivity).
  split; [exact T|].
  apply file_request_needs_file_key_no_text.
  right. right. exists notes, "Text/Plain".
  split; [reflexivity|]. split; [reflexivity | exact T].
Defined.

(** A JPEG with a key: one request, with the prefix of the MIME type,
    and the text the service parsed. *)
Lemma extractText_witness :
  trim "key" <> "" /\
  ocr_requests
    (trace (fst (Home.extractTextWithOCRSpace "key" ocrHello "QUJD"
                   "image/jpeg" (fresh emptyStorage))))
    = [("data:image/jpeg;base64,", "QUJD", "IMAGE")] /\
  snd (Home.extractTextWithOCRSpace "key" ocrHello "QUJD" "image/jpeg"
         (fresh emptyStorage)) = inr "hello".
Proof.
  assert (K : trim "key" <> "") by (vm_compute; discriminate).
  split; [exact K|].
  destruct (extractText_result "key" ocrHello "QUJD" "image/jpeg"
              emptyStorage) as (text & H1 & _ & _ & H4 & _).
  destruct (H4 K) as (R & P & _).
  split; [exact R|].
  rewrite (P "hello" eq_refl) in H1. exact H1.
Defined.

Lemma profile_picture_witness :
  user quiet = Some userA /\
  profilePhoto
    (merge_user userA (photoPayload "file:///me.jpg"))
    = Some "file:///me.jpg" /\
  user (settle quiet
          (fst (handleProfilePicture quiet editing true true
                  (Some "file:///me.jpg") (fresh emptyStorage))))
    = Some (merge_user userA (photoPayload "file:///me.jpg")).
Proof.
  split; [reflexivity|].
  destruct (proj2 (proj2
              (profile_picture_changes_photo_only quiet editing true true
                 (Some "file:///me.jpg") userA emptyStorage eq_refl))
              "file:///me.jpg" eq_refl eq_refl eq_refl)
    as (H1 & H2 & _).
  - discriminate.
  - split; [exact H2 | exact H1].
Defined.

Lemma safeRate_witness :
  (2.0 <= voiceSpeed (accessibilitySettings (withSpeed 5.0)))%Q /\
  (safeRate (withSpeed 5.0) == 2.0)%Q.
Proof.
  assert (H : (2.0 <= voiceSpeed (accessibilitySettings (withSpeed 5.0)))%Q)
    by discriminate.
  split; [exact H|].
  exact (proj1 (proj2 (proj2
    (safeRate_by_cases (withSpeed 5.0) (withSpeed 1.0)))) H).
Defined.
